(** * Intrusion-detection pipeline: parsing stage and anomaly rule engine

    A shallow embedding of [src/transform.py] (class [LogTransformer]) and
    [src/detect_anomalies.py] (class [IntrusionDetector]), of the line
    format of [generate_logs.py], of [src/extract.py], [src/load.py] and of
    the [run] method of [main_pipeline.py], followed by the properties
    proved about them.

    Conventions of the embedding.
    - A pandas [DataFrame] is the list of its rows, in row order; the empty
      frame [pd.DataFrame()] is [[]].
    - A timestamp column holds whole seconds since the epoch ([Z]); the parser
      only ever produces second resolution.
    - Floating-point columns ([duration_minutes], [attempts_per_hour]) are
      exact rationals ([Q]): rounding is not modelled; [round(x, 2)] rounds
      the exact value, halves to the even neighbour.
    - Files are the record of what is written: a name and a number of rows;
      writing never fails, and timings are left out.
    - Text is ASCII ([string]); the character classes [\w], [\d], [\s] are the
      ASCII parts of Python's classes.
    - Console output ([print]) is not modelled. *)

From Stdlib Require Import List String Ascii ZArith QArith Lia Bool Permutation
  Sorted.
From Stdlib Require Import DecimalString Qround Lqa.
Import ListNotations.
Local Open Scope string_scope.
Local Open Scope Z_scope.

(* ================================================================== *)
(** * Part I: definitions *)
(* ================================================================== *)

(** ** The event table *)

Inductive Severity := MEDIUM | HIGH | CRITICAL.

(** One row of the frame built by [transform_logs]: the six parsed columns
    and the derived ones. *)
Record Event := mkEvent {
  timestamp : Z;
  status : string;
  username : string;
  source_ip : string;
  port : Z;
  pid : Z;
  is_failed_login : bool;
  hour_of_day : Z;
  day_of_week : Z;
  is_internal_ip : bool;
  date : Z * Z * Z;
  weekday_name : string
}.

(** ** Python built-ins used by the parser *)

Module Py.

(** Exceptions: the class and the text of [str(e)]. *)
Inductive exn :=
  | ValueError (msg : string)
  | AttributeError (msg : string)
  | IndexError (msg : string).

Inductive result (A : Type) :=
  | Ok (a : A)
  | Raise (e : exn).
Arguments Ok {A} a.
Arguments Raise {A} e.

Definition rbind {A B} (m : result A) (f : A -> result B) : result B :=
  match m with
  | Ok a => f a
  | Raise e => Raise e
  end.

Notation "x <-- m ;; k" := (rbind m (fun x => k))
  (at level 61, m at next level, right associativity).

Definition code (c : ascii) : N := N_of_ascii c.

(** [str.isspace] on ASCII: TAB..CR, FS..US and the blank. *)
Definition is_space (c : ascii) : bool :=
  ((9 <=? code c) && (code c <=? 13) || (28 <=? code c) && (code c <=? 32))%N.

Definition is_digit (c : ascii) : bool :=
  ((48 <=? code c) && (code c <=? 57))%N.

Definition is_upper (c : ascii) : bool :=
  ((65 <=? code c) && (code c <=? 90))%N.

Definition is_lower (c : ascii) : bool :=
  ((97 <=? code c) && (code c <=? 122))%N.

(** The class [\w] on ASCII: letters, digits and the underscore. *)
Definition is_word (c : ascii) : bool :=
  is_upper c || is_lower c || is_digit c || (code c =? 95)%N.

Definition to_lower (c : ascii) : ascii :=
  if is_upper c then ascii_of_N (code c + 32) else c.

Fixpoint lower (s : string) : string :=
  match s with
  | EmptyString => EmptyString
  | String c s' => String (to_lower c) (lower s')
  end.

Definition chars (s : string) : list ascii := list_ascii_of_string s.
Definition text (l : list ascii) : string := string_of_list_ascii l.

(** [str.strip()] *)
Fixpoint lstrip (l : list ascii) : list ascii :=
  match l with
  | c :: l' => if is_space c then lstrip l' else l
  | [] => []
  end.

Definition rstrip (l : list ascii) : list ascii := rev (lstrip (rev l)).

Definition strip (s : string) : string := text (rstrip (lstrip (chars s))).

(** [s.split(sep)] for a one-character separator: never empty. *)
Fixpoint split (sep : ascii) (s : string) : list string :=
  match s with
  | EmptyString => [EmptyString]
  | String c s' =>
      if Ascii.eqb c sep then EmptyString :: split sep s'
      else match split sep s' with
           | h :: t => String c h :: t
           | [] => [String c EmptyString]
           end
  end.

(** [l[i]] on a list: [IndexError] out of range. *)
Definition getitem {A} (l : list A) (i : nat) : result A :=
  match nth_error l i with
  | Some x => Ok x
  | None => Raise (IndexError "list index out of range")
  end.

Definition digit_val (c : ascii) : Z := Z.of_N (code c) - 48.

(** The digits of an integer literal: decimal digits, single underscores
    allowed between two digits. [prev] tells whether the previous character
    was a digit. *)
Fixpoint int_digits (acc : Z) (prev : bool) (l : list ascii) : option Z :=
  match l with
  | [] => if prev then Some acc else None
  | c :: l' =>
      if is_digit c then int_digits (10 * acc + digit_val c) true l'
      else if (code c =? 95)%N && prev then int_digits acc false l'
      else None
  end.

Definition hex_digit (n : N) : ascii :=
  if (n <? 10)%N then ascii_of_N (48 + n) else ascii_of_N (87 + n).

(** [repr(s)] of ASCII text. *)
Definition repr_char (quote : ascii) (c : ascii) : list ascii :=
  if Ascii.eqb c quote then ["\"%char; c]
  else if Ascii.eqb c "\"%char then ["\"%char; "\"%char]
  else if (code c =? 9)%N then ["\"%char; "t"%char]
  else if (code c =? 10)%N then ["\"%char; "n"%char]
  else if (code c =? 13)%N then ["\"%char; "r"%char]
  else if ((code c <? 32) || (126 <? code c))%N
       then ["\"%char; "x"%char; hex_digit (code c / 16); hex_digit (code c mod 16)]
  else [c].

Definition dquote : ascii := ascii_of_N 34.

Definition repr (s : string) : string :=
  let l := chars s in
  let quote :=
    if existsb (Ascii.eqb "'"%char) l && negb (existsb (Ascii.eqb dquote) l)
    then dquote else "'"%char in
  text (quote :: flat_map (repr_char quote) l ++ [quote])%list.

(** [int(s)] on text, base 10: surrounding whitespace and one sign are
    accepted. The interpreter's optional cap on the number of digits is not
    modelled. *)
Definition int (s : string) : result Z :=
  let l := chars (strip s) in
  let value :=
    match l with
    | "+"%char :: l' => int_digits 0 false l'
    | "-"%char :: l' => option_map Z.opp (int_digits 0 false l')
    | _ => int_digits 0 false l
    end in
  match value with
  | Some n => Ok n
  | None =>
      Raise (ValueError ("invalid literal for int() with base 10: " ++ repr s))
  end.

(** [str(n)] of an integer. *)
Fixpoint digits_of (fuel : nat) (n : Z) (acc : list ascii) : list ascii :=
  match fuel with
  | O => acc
  | S fuel' =>
      let acc' := ascii_of_N (48 + Z.to_N (n mod 10)) :: acc in
      if n <? 10 then acc' else digits_of fuel' (n / 10) acc'
  end.

Definition str (n : Z) : string :=
  if n <? 0 then String "-"%char (text (digits_of (Z.to_nat (- n)) (- n) []))
  else text (digits_of (S (Z.to_nat n)) n []).

End Py.

(** ** Regular expressions: the fragment of [re] the parser uses *)

Module Re.
Import Py.

(** An item of a character set. *)
Inductive citem :=
  | IWord                       (* \w *)
  | IDigit                      (* \d *)
  | ISpace                      (* \s *)
  | IChar (c : ascii)           (* one character *)
  | IRange (lo hi : ascii).     (* lo-hi *)

(** A character set [[...]]; a bare class is a singleton set. *)
Definition cset := list citem.

Inductive regex :=
  | Lit (t : string)            (* literal text *)
  | LitI (t : string)           (* literal text under IGNORECASE *)
  | One (k : cset)              (* one character of a set *)
  | Plus (k : cset)             (* set+, greedy *)
  | Seq (r1 r2 : regex)
  | Alt (r1 r2 : regex)         (* r1|r2, left first *)
  | Group (n : nat) (r : regex). (* n-th capturing group *)

Definition in_item (i : citem) (c : ascii) : bool :=
  match i with
  | IWord => is_word c
  | IDigit => is_digit c
  | ISpace => is_space c
  | IChar c' => Ascii.eqb c c'
  | IRange lo hi => ((code lo <=? code c) && (code c <=? code hi))%N
  end.

Definition in_set (k : cset) (c : ascii) : bool :=
  existsb (fun i => in_item i c) k.

(** The groups set so far, most recent first. *)
Definition captures := list (nat * string).

(** [strip_prefix eq t s]: the rest of [s] after the prefix [t]. *)
Fixpoint strip_prefix (eq : ascii -> ascii -> bool) (t s : list ascii)
  : option (list ascii) :=
  match t with
  | [] => Some s
  | a :: t' =>
      match s with
      | b :: s' => if eq a b then strip_prefix eq t' s' else None
      | [] => None
      end
  end.

Definition eq_nocase (a b : ascii) : bool :=
  Ascii.eqb (to_lower a) (to_lower b).

(** All the ways [set+] can match at the start of [s], as the text left
    over, the longest match first (greedy, then giving back). *)
Fixpoint plus_rests (k : cset) (s : list ascii) : list (list ascii) :=
  match s with
  | c :: s' => if in_set k c then (plus_rests k s' ++ [s'])%list else []
  | [] => []
  end.

(** The text [s] lost to reach [rest]. *)
Definition consumed (s rest : list ascii) : string :=
  text (firstn (List.length s - List.length rest) s).

(** Backtracking matcher: every way [r] matches at the start of [s], as
    (text left, groups), in the order the backtracking engine tries them. *)
Fixpoint run (r : regex) (s : list ascii) (cs : captures)
  : list (list ascii * captures) :=
  match r with
  | Lit t =>
      match strip_prefix Ascii.eqb (chars t) s with
      | Some rest => [(rest, cs)]
      | None => []
      end
  | LitI t =>
      match strip_prefix eq_nocase (chars t) s with
      | Some rest => [(rest, cs)]
      | None => []
      end
  | One k =>
      match s with
      | c :: rest => if in_set k c then [(rest, cs)] else []
      | [] => []
      end
  | Plus k => map (fun rest => (rest, cs)) (plus_rests k s)
  | Seq r1 r2 => flat_map (fun m => run r2 (fst m) (snd m)) (run r1 s cs)
  | Alt r1 r2 => (run r1 s cs ++ run r2 s cs)%list
  | Group n r1 =>
      map (fun m => (fst m, (n, consumed s (fst m)) :: snd m)) (run r1 s cs)
  end.

(** A match object: the text left after the match and the groups. *)
Record Match := mkMatch {
  m_rest : list ascii;
  m_groups : captures
}.

(** [pattern.match(s)]: the first way the pattern matches at the start. *)
Definition match_ (r : regex) (s : list ascii) : option Match :=
  match run r s [] with
  | m :: _ => Some (mkMatch (fst m) (snd m))
  | [] => None
  end.

(** [pattern.search(s)]: the first match at the leftmost position. *)
Fixpoint search_from (r : regex) (s : list ascii) : option Match :=
  match match_ r s with
  | Some m => Some m
  | None =>
      match s with
      | [] => None
      | _ :: s' => search_from r s'
      end
  end.

Definition search (r : regex) (s : string) : option Match :=
  search_from r (chars s).

(** [m.group(n)]; every group of the patterns below takes part in every
    match, so the missing case (empty text here) never shows. *)
Fixpoint lookup (cs : captures) (n : nat) : string :=
  match cs with
  | [] => EmptyString
  | (k, v) :: rest => if Nat.eqb k n then v else lookup rest n
  end.

Definition group (m : Match) (n : nat) : string := lookup (m_groups m) n.

Fixpoint seqs (l : list regex) : regex :=
  match l with
  | [] => Lit EmptyString
  | [r] => r
  | r :: l' => Seq r (seqs l')
  end.

Fixpoint alts (l : list regex) : regex :=
  match l with
  | [] => Lit EmptyString
  | [r] => r
  | r :: l' => Alt r (alts l')
  end.

Definition w_ : cset := [IWord].
Definition d_ : cset := [IDigit].
Definition s_ : cset := [ISpace].


(** The words of a pattern: [matches r w cs cs'] when [r] matches exactly
    the text [w], turning the groups [cs] into [cs']. *)
Inductive matches : regex -> list ascii -> captures -> captures -> Prop :=
  | M_Lit t cs : matches (Lit t) (chars t) cs cs
  | M_LitI t w cs :
      strip_prefix eq_nocase (chars t) w = Some [] -> matches (LitI t) w cs cs
  | M_One k c cs : in_set k c = true -> matches (One k) [c] cs cs
  | M_Plus k w cs :
      w <> [] -> forallb (in_set k) w = true -> matches (Plus k) w cs cs
  | M_Seq r1 r2 w1 w2 c0 c1 c2 :
      matches r1 w1 c0 c1 -> matches r2 w2 c1 c2 ->
      matches (Seq r1 r2) (w1 ++ w2)%list c0 c2
  | M_AltL r1 r2 w c0 c1 : matches r1 w c0 c1 -> matches (Alt r1 r2) w c0 c1
  | M_AltR r1 r2 w c0 c1 : matches r2 w c0 c1 -> matches (Alt r1 r2) w c0 c1
  | M_Group n r w c0 c1 :
      matches r w c0 c1 -> matches (Group n r) w c0 ((n, text w) :: c1).

(** Whether a pattern has a group numbered [n]. *)
Fixpoint has_group (n : nat) (r : regex) : bool :=
  match r with
  | Seq r1 r2 | Alt r1 r2 => has_group n r1 || has_group n r2
  | Group k r1 => Nat.eqb k n || has_group n r1
  | _ => false
  end.

(** The bodies of the groups numbered [n]. *)
Fixpoint group_bodies (n : nat) (r : regex) : list regex :=
  match r with
  | Seq r1 r2 | Alt r1 r2 => (group_bodies n r1 ++ group_bodies n r2)%list
  | Group k r1 =>
      ((if Nat.eqb k n then [r1] else []) ++ group_bodies n r1)%list
  | _ => []
  end.

(** Whether every match of the pattern goes through a group [n]. *)
Fixpoint always_sets (n : nat) (r : regex) : bool :=
  match r with
  | Seq r1 r2 => always_sets n r1 || always_sets n r2
  | Alt r1 r2 => always_sets n r1 && always_sets n r2
  | Group k r1 => Nat.eqb k n || always_sets n r1
  | _ => false
  end.

(** The first way the backtracking engine finds, if any. *)
Definition first_run (r : regex) (s : list ascii) (cs : captures)
  : option (list ascii * captures) :=
  hd_error (run r s cs).

(** What stops a greedy repetition: the end of the text or a character
    outside the set. *)
Definition stops (k : cset) (rest : list ascii) : bool :=
  match rest with
  | [] => true
  | c :: _ => negb (in_set k c)
  end.

End Re.

(** ** [datetime] and [datetime.strptime] *)

Module Datetime.
Import Py Re.

Record datetime := mkDatetime {
  dt_year : Z;
  dt_month : Z;
  dt_day : Z;
  dt_hour : Z;
  dt_minute : Z;
  dt_second : Z
}.

Definition is_leap (y : Z) : bool :=
  (y mod 4 =? 0) && (negb (y mod 100 =? 0) || (y mod 400 =? 0)).

Definition days_in_month (y m : Z) : Z :=
  if m =? 2 then (if is_leap y then 29 else 28)
  else if (m =? 4) || (m =? 6) || (m =? 9) || (m =? 11) then 30
  else 31.

(** Days from 1970-01-01 to the given civil date. *)
Definition days_from_civil (y m d : Z) : Z :=
  let y' := if m <=? 2 then y - 1 else y in
  let era := y' / 400 in
  let yoe := y' - era * 400 in
  let doy := (153 * (if 2 <? m then m - 3 else m + 9) + 2) / 5 + d - 1 in
  let doe := yoe * 365 + yoe / 4 - yoe / 100 + doy in
  era * 146097 + doe - 719468.

(** The value a [datetime64] column stores, in whole seconds. *)
Definition to_epoch (t : datetime) : Z :=
  days_from_civil (dt_year t) (dt_month t) (dt_day t) * 86400
  + dt_hour t * 3600 + dt_minute t * 60 + dt_second t.

(** [.dt.dayofweek]: Monday is 0. *)
Definition dayofweek (t : datetime) : Z :=
  (days_from_civil (dt_year t) (dt_month t) (dt_day t) + 3) mod 7.

Definition day_names : list string :=
  ["Monday"; "Tuesday"; "Wednesday"; "Thursday"; "Friday"; "Saturday";
   "Sunday"].

Definition day_name (t : datetime) : string :=
  nth (Z.to_nat (dayofweek t)) day_names EmptyString.

(** [locale_time.a_month] of the C locale. *)
Definition a_month : list string :=
  [""; "jan"; "feb"; "mar"; "apr"; "may"; "jun"; "jul"; "aug"; "sep";
   "oct"; "nov"; "dec"].

(** [l.index(x)] *)
Fixpoint index_from (i : Z) (x : string) (l : list string) : result Z :=
  match l with
  | [] => Raise (ValueError (repr x ++ " is not in list"))
  | y :: l' => if (y =? x)%string then Ok i else index_from (i + 1) x l'
  end.

Definition FORMAT : string := "%Y %b %d %H:%M:%S".

Definition r09 : cset := [IRange "0" "9"].

(** The regular expression [_strptime] compiles [FORMAT] to, groups
    Y, b, d, H, M, S numbered 1 to 6; it is matched under IGNORECASE. *)
Definition format_regex : regex :=
  seqs [
    Group 1 (seqs [One d_; One d_; One d_; One d_]);
    Plus s_;
    Group 2 (alts (map LitI (tl a_month)));
    Plus s_;
    Group 3 (alts [Seq (Lit "3") (One [IRange "0" "1"]);
                   Seq (One [IRange "1" "2"]) (One d_);
                   Seq (Lit "0") (One [IRange "1" "9"]);
                   One [IRange "1" "9"];
                   Seq (Lit " ") (One [IRange "1" "9"])]);
    Plus s_;
    Group 4 (alts [Seq (Lit "2") (One [IRange "0" "3"]);
                   Seq (One [IRange "0" "1"]) (One d_);
                   One d_]);
    Lit ":";
    Group 5 (alts [Seq (One [IRange "0" "5"]) (One d_); One d_]);
    Lit ":";
    Group 6 (alts [Seq (Lit "6") (One [IRange "0" "1"]);
                   Seq (One [IRange "0" "5"]) (One d_);
                   One d_])
  ].

(** The [datetime(...)] constructor's checks that can fail here. *)
Definition make_datetime (y m d hh mm ss : Z) : result datetime :=
  if (y <? 1) || (9999 <? y)
  then Raise (ValueError ("year " ++ str y ++ " is out of range"))
  else if (d <? 1) || (days_in_month y m <? d)
  then Raise (ValueError "day is out of range for month")
  else if 59 <? ss
  then Raise (ValueError "second must be in 0..59")
  else Ok (mkDatetime y m d hh mm ss).

(** [datetime.strptime(data_string, FORMAT)] *)
Definition strptime (data_string : string) : result datetime :=
  match match_ format_regex (chars data_string) with
  | None =>
      Raise (ValueError ("time data " ++ repr data_string
                         ++ " does not match format " ++ repr FORMAT))
  | Some found =>
      match m_rest found with
      | _ :: _ =>
          Raise (ValueError ("unconverted data remains: "
                             ++ text (m_rest found)))
      | [] =>
          y <-- int (group found 1) ;;
          m <-- index_from 0 (lower (group found 2)) a_month ;;
          d <-- int (group found 3) ;;
          hh <-- int (group found 4) ;;
          mm <-- int (group found 5) ;;
          ss <-- int (group found 6) ;;
          make_datetime y m d hh mm ss
      end
  end.

End Datetime.

(** ** [LogTransformer] *)

Module Transform.
Import Py Re Datetime.

Definition LOG_PATTERN : regex :=
  seqs [
    Group 1 (Plus w_); Plus s_;
    Group 2 (Plus d_); Plus s_;
    Group 3 (seqs [Plus d_; Lit ":"; Plus d_; Lit ":"; Plus d_]); Plus s_;
    Plus w_; Plus s_;
    Lit "sshd["; Group 4 (Plus d_); Lit "]:"; Plus s_;
    Group 5 (Alt (Lit "Accepted") (Lit "Failed")); Plus s_;
    Lit "password"; Plus s_;
    Lit "for"; Plus s_;
    Group 6 (Plus [IWord; IChar "."; IChar "-"; IChar "_"]); Plus s_;
    Lit "from"; Plus s_;
    Group 7 (Plus [IDigit; IChar "."]); Plus s_;
    Lit "port"; Plus s_;
    Group 8 (Plus d_)
  ].

(** The instance attributes. *)
Record LogTransformer := mkTransformer {
  parsed_count : Z;
  failed_count : Z;
  failed_samples : list string;
  year : Z
}.

(** [LogTransformer(year)]; [now_year] is [datetime.now().year]. *)
Definition init (year_arg : option Z) (now_year : Z) : LogTransformer :=
  mkTransformer 0 0 []
    (match year_arg with
     | Some y => if y =? 0 then now_year else y
     | None => now_year
     end).

(** The dict returned for a parsed line. *)
Record Parsed := mkParsed {
  p_timestamp : datetime;
  p_status : string;
  p_username : string;
  p_source_ip : string;
  p_port : Z;
  p_pid : Z
}.

(** [if self.failed_count < 5: self.failed_samples.append(sample)] *)
Definition store_sample (self : LogTransformer) (sample : string)
  : LogTransformer :=
  if failed_count self <? 5
  then mkTransformer (parsed_count self) (failed_count self)
                     (failed_samples self ++ [sample])%list (year self)
  else self.

Definition message (e : exn) : string :=
  match e with
  | ValueError msg | AttributeError msg | IndexError msg => msg
  end.

(** The [try] block of [parse_log_line]. *)
Definition build_record (self : LogTransformer) (m : Match) : result Parsed :=
  let month := group m 1 in
  let day := group m 2 in
  let time := group m 3 in
  let pid := group m 4 in
  let status := group m 5 in
  let username := group m 6 in
  let ip := group m 7 in
  let port := group m 8 in
  let timestamp_str :=
    str (year self) ++ " " ++ month ++ " " ++ day ++ " " ++ time in
  timestamp <-- strptime timestamp_str ;;
  port' <-- int port ;;
  pid' <-- int pid ;;
  Ok (mkParsed timestamp status username ip port' pid').

Definition parse_log_line (self : LogTransformer) (log_line : string)
  : result (option Parsed * LogTransformer) :=
  match search LOG_PATTERN log_line with
  | None => Ok (None, store_sample self (strip log_line))
  | Some m =>
      match build_record self m with
      | Ok parsed => Ok (Some parsed, self)
      | Raise (ValueError _ as e) | Raise (AttributeError _ as e) =>
          Ok (None,
              store_sample self
                (strip log_line ++ " [Error: " ++ message e ++ "]"))
      | Raise e => Raise e
      end
  end.

Definition _is_internal_ip (ip : string) : result bool :=
  if String.prefix "192.168." ip || String.prefix "10." ip then Ok true
  else if String.prefix "172." ip then
    match (part <-- getitem (split "." ip) 1 ;;
           second_octet <-- int part ;;
           Ok ((16 <=? second_octet) && (second_octet <=? 31))) with
    | Ok b => Ok b
    | Raise (IndexError _) | Raise (ValueError _) => Ok false
    | Raise e => Raise e
    end
  else Ok false.

(** The [for log_line in raw_logs] loop. *)
Fixpoint parse_all (self : LogTransformer) (parsed_logs : list Parsed)
    (raw_logs : list string) : result (list Parsed * LogTransformer) :=
  match raw_logs with
  | [] => Ok (parsed_logs, self)
  | log_line :: rest =>
      r <-- parse_log_line self log_line ;;
      match fst r with
      | Some parsed =>
          parse_all
            (mkTransformer (parsed_count (snd r) + 1) (failed_count (snd r))
                           (failed_samples (snd r)) (year (snd r)))
            (parsed_logs ++ [parsed])%list rest
      | None =>
          parse_all
            (mkTransformer (parsed_count (snd r)) (failed_count (snd r) + 1)
                           (failed_samples (snd r)) (year (snd r)))
            parsed_logs rest
      end
  end.

(** One row of the frame: the parsed columns and the derived ones. *)
Definition to_row (p : Parsed) : result Event :=
  internal <-- _is_internal_ip (p_source_ip p) ;;
  let t := p_timestamp p in
  Ok (mkEvent (to_epoch t) (p_status p) (p_username p) (p_source_ip p)
              (p_port p) (p_pid p)
              (p_status p =? "Failed")%string
              (dt_hour t) (dayofweek t) internal
              (dt_year t, dt_month t, dt_day t) (day_name t)).

Fixpoint rows_of (l : list Parsed) : result (list Event) :=
  match l with
  | [] => Ok []
  | p :: l' =>
      e <-- to_row p ;;
      es <-- rows_of l' ;;
      Ok (e :: es)
  end.

Definition transform_logs (self : LogTransformer) (raw_logs : list string)
  : result (list Event * LogTransformer) :=
  r <-- parse_all self [] raw_logs ;;
  match fst r with
  | [] => Ok ([], snd r)
  | parsed_logs =>
      df <-- rows_of parsed_logs ;;
      Ok (df, snd r)
  end.

End Transform.

(** ** The lines [generate_logs.py] writes *)

Module Generate.
Import Py Datetime.

Definition normal_ips : list string :=
  ["192.168.1.10"; "192.168.1.15"; "192.168.1.20"; "10.0.0.5"; "10.0.0.8";
   "172.16.0.100"; "172.20.1.50"].

Definition attacker_ips : list string :=
  ["45.142.212.61"; "103.75.201.12"; "185.220.101.45"].

Definition suspicious_ips : list string :=
  ["91.108.56.190"; "196.201.233.45"; "41.60.232.191"].

Definition normal_users : list string :=
  ["admin"; "johndoe"; "janesmith"; "devops"; "support"; "backup"].

Definition common_attack_users : list string :=
  ["root"; "admin"; "user"; "test"; "oracle"; "postgres"; "mysql"].

Inductive EventType := normal | brute_force | suspicious_geo | failed_normal.

(** The values the random choices of one entry can take. *)
Record Entry := mkEntry {
  event_type : EventType;
  en_ip : string;
  en_user : string;
  en_status : string;
  en_pid : Z;
  en_port : Z
}.

Definition isin (x : string) (l : list string) : bool :=
  existsb (String.eqb x) l.

(** The entries the branches on [event_type] can produce. *)
Definition possible (en : Entry) : bool :=
  match event_type en with
  | normal =>
      isin (en_ip en) normal_ips && isin (en_user en) normal_users
      && isin (en_status en) ["Accepted"; "Failed"]
  | brute_force =>
      isin (en_ip en) attacker_ips && isin (en_user en) common_attack_users
      && (en_status en =? "Failed")%string
  | suspicious_geo =>
      isin (en_ip en) suspicious_ips
      && isin (en_user en) (normal_users ++ common_attack_users)%list
      && isin (en_status en) ["Failed"; "Accepted"]
  | failed_normal =>
      isin (en_ip en) normal_ips && isin (en_user en) normal_users
      && (en_status en =? "Failed")%string
  end
  && (1000 <=? en_pid en) && (en_pid en <=? 9999)
  && (40000 <=? en_port en) && (en_port en <=? 60000).

(** [strftime('%b')] in the C locale. *)
Definition month_abbr : list string :=
  ["Jan"; "Feb"; "Mar"; "Apr"; "May"; "Jun"; "Jul"; "Aug"; "Sep"; "Oct";
   "Nov"; "Dec"].

Definition strftime_b (t : datetime) : string :=
  nth (Z.to_nat (dt_month t - 1)) month_abbr EmptyString.

(** A field of two decimal digits: [%d], [%H], [%M], [%S]. *)
Definition two_digits (n : Z) : list ascii :=
  [ascii_of_N (48 + Z.to_N (n / 10)); ascii_of_N (48 + Z.to_N (n mod 10))].

(** [s.lstrip('0')] *)
Fixpoint lstrip_zeros (l : list ascii) : list ascii :=
  match l with
  | c :: l' => if Ascii.eqb c "0" then lstrip_zeros l' else l
  | [] => []
  end.

(** [s.rjust(width)] *)
Definition rjust (width : nat) (l : list ascii) : list ascii :=
  (repeat " "%char (width - List.length l) ++ l)%list.

(** [strftime('%d').lstrip('0').rjust(2)] *)
Definition day_field (t : datetime) : list ascii :=
  rjust 2 (lstrip_zeros (two_digits (dt_day t))).

(** [strftime('%H:%M:%S')] *)
Definition time_field (t : datetime) : list ascii :=
  (two_digits (dt_hour t) ++ ":"%char :: two_digits (dt_minute t)
   ++ ":"%char :: two_digits (dt_second t))%list.

Definition newline : string := String (ascii_of_N 10) EmptyString.

(** The line written for one entry. *)
Definition log_line (timestamp : datetime) (status user ip : string)
    (pid port : Z) : string :=
  let month := strftime_b timestamp in
  let day := text (day_field timestamp) in
  let time := text (time_field timestamp) in
  if (status =? "Accepted")%string
  then month ++ " " ++ day ++ " " ++ time ++ " server sshd[" ++ str pid
       ++ "]: Accepted password for " ++ user ++ " from " ++ ip ++ " port "
       ++ str port ++ " ssh2" ++ newline
  else month ++ " " ++ day ++ " " ++ time ++ " server sshd[" ++ str pid
       ++ "]: Failed password for " ++ user ++ " from " ++ ip ++ " port "
       ++ str port ++ " ssh2" ++ newline.

(** The line of an entry written at [timestamp]. *)
Definition entry_line (timestamp : datetime) (en : Entry) : string :=
  log_line timestamp (en_status en) (en_user en) (en_ip en) (en_pid en)
           (en_port en).

End Generate.

(** ** Pandas operations used by the detectors *)

Module Pandas.

Section Generic.
Context {A K : Type}.
Variable keqb : K -> K -> bool.
Variable kleb : K -> K -> bool.

(** [Series.unique()]: distinct values in order of first appearance. *)
Fixpoint unique (l : list K) : list K :=
  match l with
  | [] => []
  | x :: l' => x :: filter (fun y => negb (keqb x y)) (unique l')
  end.

Definition isin (x : K) (l : list K) : bool := existsb (keqb x) l.

(** Stable insertion into a sorted list: the new element goes before the
    first element that is not smaller. *)
Fixpoint insert_sorted (x : K) (l : list K) : list K :=
  match l with
  | [] => [x]
  | y :: l' => if kleb x y then x :: l else y :: insert_sorted x l'
  end.

(** Stable sort (the order pandas gives to group keys and to
    multi-column [sort_values]). *)
Fixpoint sort (l : list K) : list K :=
  match l with
  | [] => []
  | x :: l' => insert_sorted x (sort l')
  end.

(** [df.groupby(key)]: one group per distinct key, keys in ascending
    order, each group holding its rows in frame order. *)
Definition group_keys (key : A -> K) (df : list A) : list K :=
  sort (unique (map key df)).

Definition groupby (key : A -> K) (df : list A) : list (K * list A) :=
  map (fun k => (k, filter (fun r => keqb (key r) k) df))
      (group_keys key df).
End Generic.

(** Lexicographic order on a pair of text columns. *)
Definition pair_eqb (a b : string * string) : bool :=
  (fst a =? fst b)%string && (snd a =? snd b)%string.

Definition pair_leb (a b : string * string) : bool :=
  String.ltb (fst a) (fst b) ||
  ((fst a =? fst b)%string && String.leb (snd a) (snd b)).

(** [min] and [max] of a non-empty timestamp column. *)
Definition col_min (l : list Z) : Z := fold_right Z.min (hd 0 l) l.
Definition col_max (l : list Z) : Z := fold_right Z.max (hd 0 l) l.

(** [pd.cut(x, bins=[0, 25, 50, inf], labels=[MEDIUM, HIGH, CRITICAL])]:
    right-closed bins; a value outside every bin gives NaN ([None]). *)
Definition cut_severity (x : Z) : option Severity :=
  if x <=? 0 then None
  else if x <=? 25 then Some MEDIUM
  else if x <=? 50 then Some HIGH
  else Some CRITICAL.

End Pandas.

(** ** [IntrusionDetector] *)

Module Detect.
Import Pandas.

(** The two constructor arguments of [IntrusionDetector]. *)
Record IntrusionDetector := mkDetector {
  brute_force_threshold : Z;
  time_window_minutes : Z
}.

(** [IntrusionDetector()] with its default arguments. *)
Definition default_detector : IntrusionDetector := mkDetector 10 60.

(** *** detect_brute_force *)

(** A row of [grouped] after the two derived columns are added. *)
Record Grouped := mkGrouped {
  g_source_ip : string;
  g_failed_count : Z;
  g_first_attempt : Z;
  g_last_attempt : Z;
  g_targeted_users : list string;
  g_duration_minutes : Q;
  g_attempts_per_hour : Q
}.

Record BruteForceAnomaly := mkBruteForce {
  bf_source_ip : string;
  bf_failed_count : Z;
  bf_first_attempt : Z;
  bf_last_attempt : Z;
  bf_targeted_users : list string;
  bf_duration_minutes : Q;
  bf_attempts_per_hour : Q;
  bf_anomaly_type : string;
  bf_severity : option Severity;
  bf_num_users_targeted : nat
}.

(** [x > 0] on a rational column. *)
Definition Qpos_bool (x : Q) : bool := negb (Qle_bool x 0).

(** The aggregation of one group: count/min/max of [timestamp], the distinct
    user names, then [duration_minutes] and [attempts_per_hour]. *)
Definition aggregate (ip : string) (rows : list Event) : Grouped :=
  let failed_count := Z.of_nat (List.length rows) in
  let first_attempt := col_min (map timestamp rows) in
  let last_attempt := col_max (map timestamp rows) in
  let duration_minutes := (inject_Z (last_attempt - first_attempt) / 60)%Q in
  let attempts_per_hour :=
    if Qpos_bool duration_minutes
    then (inject_Z failed_count / (duration_minutes / 60))%Q
    else inject_Z failed_count in
  mkGrouped ip failed_count first_attempt last_attempt
            (unique String.eqb (map username rows))
            duration_minutes attempts_per_hour.

(** The row filter: threshold met, or high rate within the time window. *)
Definition is_brute_force (self : IntrusionDetector) (g : Grouped) : bool :=
  (brute_force_threshold self <=? g_failed_count g) ||
  (Qle_bool (inject_Z (brute_force_threshold self) / 2)%Q (g_attempts_per_hour g)
   && Qle_bool (g_duration_minutes g) (inject_Z (time_window_minutes self))).

Definition classify (g : Grouped) : BruteForceAnomaly :=
  mkBruteForce (g_source_ip g) (g_failed_count g) (g_first_attempt g)
               (g_last_attempt g) (g_targeted_users g)
               (g_duration_minutes g) (g_attempts_per_hour g)
               "BRUTE_FORCE" (cut_severity (g_failed_count g))
               (List.length (g_targeted_users g)).

Definition detect_brute_force (self : IntrusionDetector) (df : list Event)
  : list BruteForceAnomaly :=
  match df with
  | [] => []
  | _ =>
    let failed_logins := filter is_failed_login df in
    match failed_logins with
    | [] => []
    | _ =>
      let grouped :=
        map (fun g => aggregate (fst g) (snd g))
            (groupby String.eqb String.leb source_ip failed_logins) in
      let brute_force := filter (is_brute_force self) grouped in
      match brute_force with
      | [] => []
      | _ => map classify brute_force
      end
    end
  end.

(** *** detect_unusual_usernames *)

Definition vulnerable_accounts : list string :=
  ["root"; "admin"; "test"; "oracle"; "postgres";
   "mysql"; "ubuntu"; "user"; "guest"; "ftp"].

Record VulnerableAccountAnomaly := mkVulnerable {
  va_source_ip : string;
  va_username : string;
  va_attempts : Z;
  va_anomaly_type : string;
  va_severity : Severity
}.

Definition detect_unusual_usernames (df : list Event)
  : list VulnerableAccountAnomaly :=
  match df with
  | [] => []
  | _ =>
    let suspicious_users :=
      map (fun g => (fst g, Z.of_nat (List.length (snd g))))
          (groupby pair_eqb pair_leb (fun e => (source_ip e, username e))
             (filter (fun e => isin String.eqb (username e) vulnerable_accounts
                               && is_failed_login e) df)) in
    let suspicious_users :=
      filter (fun r => 5 <=? snd r) suspicious_users in
    match suspicious_users with
    | [] => []
    | _ =>
      map (fun r => mkVulnerable (fst (fst r)) (snd (fst r)) (snd r)
                      "VULNERABLE_ACCOUNT_TARGETING"
                      (if 20 <? snd r then HIGH else MEDIUM))
          suspicious_users
    end
  end.

(** *** detect_geographic_anomalies *)

(** The prefix table, in the insertion order of the dict literal. *)
Definition suspicious_ranges : list (string * string) :=
  [("45.", "Eastern Europe"); ("103.", "Southeast Asia");
   ("185.", "Europe/Tor"); ("91.", "Central Asia");
   ("196.", "Africa"); ("41.", "Africa")].

Record GeographicAnomaly := mkGeo {
  geo_source_ip : string;
  geo_location : string;
  geo_total_attempts : Z;
  geo_failed_attempts : Z;
  geo_success_attempts : Z;
  geo_anomaly_type : string;
  geo_severity : Severity
}.

(** The inner [for prefix, location in suspicious_ranges.items()] loop,
    left at the first prefix the address starts with. *)
Fixpoint first_matching_range (ip : string) (ranges : list (string * string))
  : option string :=
  match ranges with
  | [] => None
  | (prefix, location) :: rest =>
      if String.prefix prefix ip then Some location
      else first_matching_range ip rest
  end.

(** One iteration of the outer loop on the pair
    ([geo_anomalies], [seen_ips]). *)
Definition geo_step (df : list Event)
    (st : list GeographicAnomaly * list string) (ip : string)
  : list GeographicAnomaly * list string :=
  let (geo_anomalies, seen_ips) := st in
  if isin String.eqb ip seen_ips then st
  else
    match first_matching_range ip suspicious_ranges with
    | Some location =>
        let ip_logs := filter (fun e => (source_ip e =? ip)%string) df in
        let attempts := Z.of_nat (List.length ip_logs) in
        let failed := Z.of_nat (List.length (filter is_failed_login ip_logs)) in
        ((geo_anomalies ++
           [mkGeo ip location attempts failed (attempts - failed)
                  "GEOGRAPHIC_ANOMALY"
                  (if 10 <? failed then HIGH else MEDIUM)])%list,
         ip :: seen_ips)
    | None => st
    end.

Definition detect_geographic_anomalies (df : list Event)
  : list GeographicAnomaly :=
  match df with
  | [] => []
  | _ =>
    let external_ips :=
      unique String.eqb
        (map source_ip (filter (fun e => negb (is_internal_ip e)) df)) in
    fst (fold_left (geo_step df) external_ips ([], []))
  end.

(** *** detect_successful_after_many_failures *)

Record BreachAnomaly := mkBreach {
  br_source_ip : string;
  br_username : string;
  br_failed_attempts_before_success : Z;
  br_breach_timestamp : Z;
  br_anomaly_type : string;
  br_severity : Severity
}.

(** The order of [sort_values(['source_ip', 'timestamp'])]. *)
Definition ip_timestamp_leb (a b : Event) : bool :=
  String.ltb (source_ip a) (source_ip b) ||
  ((source_ip a =? source_ip b)%string && (timestamp a <=? timestamp b)).

(** [(~is_failed_login).groupby(source_ip).cumsum()]: for each row, the
    number of successful rows of the same address up to and including it.
    [acc] holds the running total of every address. *)
Fixpoint groupby_cumsum (acc : string -> Z) (rows : list Event) : list Z :=
  match rows with
  | [] => []
  | e :: rest =>
      let c := acc (source_ip e) + (if is_failed_login e then 0 else 1) in
      c :: groupby_cumsum
             (fun ip => if (ip =? source_ip e)%string then c else acc ip) rest
  end.

(** [groupby(key).first()] on a frame without missing values: the first
    row of every group. *)
Definition groupby_first (df : list Event) : list (string * Event) :=
  flat_map (fun g => match snd g with
                     | [] => []
                     | r :: _ => [(fst g, r)]
                     end)
           (groupby String.eqb String.leb source_ip df).

(** [frame.loc[ip]] on a frame indexed by address. *)
Fixpoint loc {B : Type} (ip : string) (index : list (string * B)) : option B :=
  match index with
  | [] => None
  | (k, v) :: rest => if (k =? ip)%string then Some v else loc ip rest
  end.

Definition detect_successful_after_many_failures (df : list Event)
  : list BreachAnomaly :=
  match df with
  | [] => []
  | _ =>
    let df_sorted := sort ip_timestamp_leb df in
    let cumsum_success := groupby_cumsum (fun _ => 0) df_sorted in
    let pre_success :=
      map (fun g => (fst g, Z.of_nat (List.length (snd g))))
          (groupby String.eqb String.leb source_ip
             (map fst (filter (fun rc => snd rc =? 0)
                              (combine df_sorted cumsum_success)))) in
    let successful_logins :=
      groupby_first (filter (fun e => negb (is_failed_login e)) df_sorted) in
    flat_map
      (fun p =>
         let ip := fst p in
         let failed_count := snd p in
         if (5 <=? failed_count)
            && isin String.eqb ip (map fst successful_logins)
         then
           match loc ip successful_logins with
           | Some breach_info =>
               [mkBreach ip (username breach_info) failed_count
                         (timestamp breach_info) "POSSIBLE_BREACH"
                         (if 20 <? failed_count then CRITICAL else HIGH)]
           | None => []
           end
         else [])
      pre_success
  end.

(** *** generate_full_report *)

Inductive DetectorCall :=
  | CallBruteForce | CallUnusualUsernames | CallGeographic | CallBreach.

(** A computation together with the detector calls it made, in order. *)
Definition Traced (A : Type) : Type := A * list DetectorCall.

Definition ret {A} (x : A) : Traced A := (x, []).

Definition bind {A B} (m : Traced A) (f : A -> Traced B) : Traced B :=
  let (x, t1) := m in let (y, t2) := f x in (y, (t1 ++ t2)%list).

Definition call {A} (c : DetectorCall) (result : A) : Traced A := (result, [c]).

Notation "x <- m ;; k" := (bind m (fun x => k))
  (at level 61, m at next level, right associativity).

Record Report := mkReport {
  brute_force_attacks : list BruteForceAnomaly;
  vulnerable_account_targeting : list VulnerableAccountAnomaly;
  geographic_anomalies : list GeographicAnomaly;
  possible_breaches : list BreachAnomaly;
  summary : list (string * Z)
}.

(** [len(brute_force[brute_force['severity'] == 'CRITICAL'])] *)
Definition is_critical (b : BruteForceAnomaly) : bool :=
  match bf_severity b with
  | Some CRITICAL => true
  | _ => false
  end.

Definition len {A} (l : list A) : Z := Z.of_nat (List.length l).

Definition generate_full_report (self : IntrusionDetector) (df : list Event)
  : Traced Report :=
  match df with
  | [] =>
      ret (mkReport [] [] [] []
             [("total_anomalies", 0); ("critical_threats", 0)])
  | _ =>
      brute_force <- call CallBruteForce (detect_brute_force self df) ;;
      vulnerable <- call CallUnusualUsernames (detect_unusual_usernames df) ;;
      geo <- call CallGeographic (detect_geographic_anomalies df) ;;
      breaches <- call CallBreach (detect_successful_after_many_failures df) ;;
      let total_anomalies :=
        len brute_force + len vulnerable + len geo + len breaches in
      let critical_count := len breaches in
      let critical_count :=
        match brute_force with
        | [] => critical_count
        | _ => critical_count + len (filter is_critical brute_force)
        end in
      ret (mkReport brute_force vulnerable geo breaches
             [("total_anomalies", total_anomalies);
              ("critical_threats", critical_count);
              ("brute_force_count", len brute_force);
              ("vulnerable_account_count", len vulnerable);
              ("geographic_count", len geo);
              ("breach_count", len breaches)])
  end.

(** [summary[key]]; [None] stands for [KeyError]. *)
Fixpoint getitem (d : list (string * Z)) (key : string) : option Z :=
  match d with
  | [] => None
  | (k, v) :: rest => if (k =? key)%string then Some v else getitem rest key
  end.

End Detect.

(** ** [LogExtractor] *)

Module Extract.

(** The log directory: the lines of each file that exists, as [readlines]
    returns them. *)
Definition Directory := string -> option (list string).

(** The text of a [FileNotFoundError] names paths of the environment and
    is not modelled. *)
Inductive outcome (A : Type) :=
  | Read (a : A)
  | FileNotFoundError.
Arguments Read {A} a.
Arguments FileNotFoundError {A}.

Definition extract_logs (log_directory : Directory) (filename : string)
  : outcome (list string) :=
  match log_directory filename with
  | Some logs => Read logs
  | None => FileNotFoundError
  end.

(** The lines the generator yields when it is run to its end. *)
Definition extract_logs_streaming (log_directory : Directory)
    (filename : string) : outcome (list string) :=
  match log_directory filename with
  | Some logs => Read (map Py.strip logs)
  | None => FileNotFoundError
  end.

Definition extract_multiple_logs (log_directory : Directory)
    (filenames : list string) : list string :=
  fold_left
    (fun all_logs filename =>
       match extract_logs log_directory filename with
       | Read logs => (all_logs ++ logs)%list
       | FileNotFoundError => all_logs
       end)
    filenames [].

End Extract.

(** ** [DataLoader] *)

Module Load.
Import Py Pandas Detect.

(** A file written under the output directory: its name and the number
    of rows of the frame saved in it. *)
Record Written := mkWritten {
  w_name : string;
  w_rows : Z
}.

(** Which Parquet engine the interpreter finds. *)
Inductive Engine := pyarrow | no_pyarrow.

(** [stamp] is [datetime.now().strftime('%Y%m%d_%H%M%S')]; the path
    returned is the file name under the output directory. *)
Definition load_to_csv {A} (stamp : string) (df : option (list A))
    (filename : option string) : result (string * list Written) :=
  match df with
  | None | Some [] => Raise (ValueError "Cannot save empty DataFrame to CSV")
  | Some rows =>
      let filename :=
        match filename with
        | Some f => f
        | None => "processed_logs_" ++ stamp ++ ".csv"
        end in
      Ok (filename, [mkWritten filename (len rows)])
  end.

(** [s.replace(old, new)] for a non-empty [old]; [skip] characters of a
    replaced occurrence are still to be passed over. *)
Fixpoint replace_from (old new : string) (skip : nat) (s : string) : string :=
  match s with
  | EmptyString => EmptyString
  | String c s' =>
      match skip with
      | S k => replace_from old new k s'
      | O =>
          if String.prefix old s
          then new ++ replace_from old new (String.length old - 1) s'
          else String c (replace_from old new O s')
      end
  end.

Definition replace (old new s : string) : string := replace_from old new 0 s.

(** [to_parquet] raises [ImportError] without the engine; the method
    then falls back to [load_to_csv]. *)
Definition load_to_parquet {A} (stamp : string) (engine : Engine)
    (df : option (list A)) (filename : option string)
  : result (string * list Written) :=
  match df with
  | None | Some [] =>
      Raise (ValueError "Cannot save empty DataFrame to Parquet")
  | Some rows =>
      let filename :=
        match filename with
        | Some f => f
        | None => "processed_logs_" ++ stamp ++ ".parquet"
        end in
      match engine with
      | pyarrow => Ok (filename, [mkWritten filename (len rows)])
      | no_pyarrow =>
          load_to_csv stamp df (Some (replace ".parquet" ".csv" filename))
      end
  end.

(** [round(x)] to the nearest integer, halves to the even one, and
    [round(x, 2)]. *)
Definition rint (x : Q) : Z :=
  let f := Qfloor x in
  match (x - inject_Z f ?= 1 # 2)%Q with
  | Lt => f
  | Gt => f + 1
  | Eq => if Z.even f then f else f + 1
  end.

Definition round2 (x : Q) : Q := (inject_Z (rint (x * 100)) / 100)%Q.

(** [column.mean()] of a column of booleans. *)
Definition mean (column : list bool) : Q :=
  (inject_Z (len (filter (fun b => b) column)) / inject_Z (len column))%Q.

(** The one row of the summary frame; a key the row does not have is
    [None]. *)
Record SummaryStats := mkSummary {
  total_logs : Z;
  unique_ips : Z;
  unique_users : Z;
  failed_logins : Z;
  success_rate : Q;
  internal_traffic_pct : Q;
  date_range_start : option Z;
  date_range_end : option Z;
  time_span_hours : option Q;
  error : option string
}.

Definition create_summary_stats (df : option (list Event))
  : list SummaryStats :=
  match df with
  | None | Some [] =>
      [mkSummary 0 0 0 0 0 0 None None None (Some "No data to analyze")]
  | Some df =>
      let failed := map is_failed_login df in
      let first := col_min (map timestamp df) in
      let last := col_max (map timestamp df) in
      [mkSummary
         (len df)
         (len (unique String.eqb (map source_ip df)))
         (len (unique String.eqb (map username df)))
         (len (filter (fun b => b) failed))
         (round2 ((1 - mean failed) * 100))
         (round2 (mean (map is_internal_ip df) * 100))
         (Some first) (Some last)
         (Some (round2 (inject_Z (last - first) / 3600)))
         None]
  end.

(** The frames of a report, under their keys. *)
Inductive Table :=
  | BruteForceTable (rows : list BruteForceAnomaly)
  | VulnerableTable (rows : list VulnerableAccountAnomaly)
  | GeographicTable (rows : list GeographicAnomaly)
  | BreachTable (rows : list BreachAnomaly).

Definition table_len (t : Table) : Z :=
  match t with
  | BruteForceTable rows => len rows
  | VulnerableTable rows => len rows
  | GeographicTable rows => len rows
  | BreachTable rows => len rows
  end.

Definition empty (t : Table) : bool := table_len t =? 0.

Definition save_table (stamp : string) (t : Table) (filename : string)
  : result (string * list Written) :=
  match t with
  | BruteForceTable rows => load_to_csv stamp (Some rows) (Some filename)
  | VulnerableTable rows => load_to_csv stamp (Some rows) (Some filename)
  | GeographicTable rows => load_to_csv stamp (Some rows) (Some filename)
  | BreachTable rows => load_to_csv stamp (Some rows) (Some filename)
  end.

Definition anomaly_types : list (string * string) :=
  [("brute_force_attacks", "anomaly_brute_force.csv");
   ("vulnerable_account_targeting", "anomaly_vulnerable_accounts.csv");
   ("geographic_anomalies", "anomaly_geographic.csv");
   ("possible_breaches", "anomaly_breaches.csv")].

(** [key in anomaly_dict] and [anomaly_dict[key]]. *)
Fixpoint get (anomaly_dict : list (string * Table)) (key : string)
  : option Table :=
  match anomaly_dict with
  | [] => None
  | (k, t) :: rest => if (k =? key)%string then Some t else get rest key
  end.

(** The loop of [load_anomalies] on the pair ([saved_files], files
    written). *)
Fixpoint save_each (stamp : string) (anomaly_dict : list (string * Table))
    (types : list (string * string))
    (saved_files : list (string * string)) (written : list Written)
  : result (list (string * string) * list Written) :=
  match types with
  | [] => Ok (saved_files, written)
  | (key, filename) :: rest =>
      match get anomaly_dict key with
      | Some t =>
          if negb (empty t)
          then
            r <-- save_table stamp t filename ;;
            save_each stamp anomaly_dict rest
                      (saved_files ++ [(key, fst r)])%list
                      (written ++ snd r)%list
          else save_each stamp anomaly_dict rest saved_files written
      | None => save_each stamp anomaly_dict rest saved_files written
      end
  end.

Definition load_anomalies (stamp : string)
    (anomaly_dict : list (string * Table))
  : result (list (string * string) * list Written) :=
  save_each stamp anomaly_dict anomaly_types [] [].

(** The frames of the dict [generate_full_report] returns. *)
Definition tables (r : Report) : list (string * Table) :=
  [("brute_force_attacks", BruteForceTable (brute_force_attacks r));
   ("vulnerable_account_targeting",
    VulnerableTable (vulnerable_account_targeting r));
   ("geographic_anomalies", GeographicTable (geographic_anomalies r));
   ("possible_breaches", BreachTable (possible_breaches r))].

End Load.

(** ** [IntrusionDetectionPipeline] *)

Module Pipeline.
Import Py Transform Detect.

(** What a run reads from its surroundings. *)
Record Environment := mkEnvironment {
  log_directory : Extract.Directory;
  missing_file : string -> string;   (* the text of the FileNotFoundError *)
  stamp : string;
  engine : Load.Engine
}.

(** The entries of [metrics] that are not timings. *)
Record Metrics := mkMetrics {
  raw_log_count : Z;
  parsed_count : Z;
  parse_success_rate : Q;
  parquet_saved : bool;
  anomalies_found : Z;
  critical_threats : Z
}.

Record OutputFiles := mkOutputFiles {
  csv : string;
  summary_path : string;
  anomalies : list (string * string)
}.

(** The dict [run] returns. *)
Inductive RunResult :=
  | Success (processed_data : list Event) (anomaly_report : Report)
            (metrics : Metrics) (output_files : OutputFiles)
  | Failure (error error_type : string).

(** The handlers of [run] for the exceptions of the embedding. *)
Definition handle (e : exn) : RunResult :=
  match e with
  | ValueError msg => Failure msg "ValueError"
  | AttributeError msg => Failure msg "AttributeError"
  | IndexError msg => Failure msg "IndexError"
  end.

Definition key_error (key : string) : RunResult :=
  Failure (repr key) "KeyError".

(** The pipeline object: its transformer and its detector. *)
Record IntrusionDetectionPipeline := mkPipeline {
  transformer : LogTransformer;
  detector : IntrusionDetector
}.

(** [IntrusionDetectionPipeline()]; [now_year] is [datetime.now().year]. *)
Definition init (now_year : Z) : IntrusionDetectionPipeline :=
  mkPipeline (Transform.init None now_year) (mkDetector 10 60).

Definition with_transformer (self : IntrusionDetectionPipeline)
    (t : LogTransformer) : IntrusionDetectionPipeline :=
  mkPipeline t (detector self).

(** A run returns its dict, the pipeline after the run, the calls made to
    the detectors and the files written, in order. *)
Definition run (env : Environment) (self : IntrusionDetectionPipeline)
    (log_filename : string)
  : RunResult * IntrusionDetectionPipeline * list DetectorCall
    * list Load.Written :=
  match Extract.extract_logs (log_directory env) log_filename with
  | Extract.FileNotFoundError =>
      (Failure (missing_file env log_filename) "FileNotFoundError",
       self, [], [])
  | Extract.Read raw_logs =>
      match transform_logs (transformer self) raw_logs with
      | Raise e => (handle e, self, [], [])
      | Ok (processed_df, transformer') =>
          let self' := with_transformer self transformer' in
          let rate :=
            match raw_logs with
            | [] => 0%Q
            | _ => (inject_Z (len processed_df) / inject_Z (len raw_logs)
                    * 100)%Q
            end in
          match processed_df with
          | [] =>
              (Failure "No logs were successfully parsed. Check log format and transformer regex."
                       "ValueError",
               self', [], [])
          | _ =>
            match Load.load_to_csv (stamp env) (Some processed_df)
                                   (Some "processed_logs.csv") with
            | Raise e => (handle e, self', [], [])
            | Ok (csv_path, w1) =>
              let summary_stats := Load.create_summary_stats
                                     (Some processed_df) in
              match Load.load_to_csv (stamp env) (Some summary_stats)
                                     (Some "summary_stats.csv") with
              | Raise e => (handle e, self', [], w1)
              | Ok (summary_path, w2) =>
                let (saved, w3) :=
                  match Load.load_to_parquet (stamp env) (engine env)
                          (Some processed_df)
                          (Some "processed_logs.parquet") with
                  | Ok r => (true, snd r)
                  | Raise _ => (false, [])
                  end in
                let (anomaly_report, calls) :=
                  generate_full_report (detector self) processed_df in
                match Load.load_anomalies (stamp env)
                        (Load.tables anomaly_report) with
                | Raise e =>
                    (handle e, self', calls, (w1 ++ w2 ++ w3)%list)
                | Ok (saved_anomalies, w4) =>
                  let written := (w1 ++ w2 ++ w3 ++ w4)%list in
                  match getitem (summary anomaly_report) "total_anomalies",
                        getitem (summary anomaly_report) "critical_threats"
                  with
                  | Some total, Some critical =>
                      (Success processed_df anomaly_report
                         (mkMetrics (len raw_logs) (len processed_df) rate
                                    saved total critical)
                         (mkOutputFiles csv_path summary_path
                                        saved_anomalies),
                       self', calls, written)
                  | None, _ =>
                      (key_error "total_anomalies", self', calls,
                       written)
                  | _, None =>
                      (key_error "critical_threats", self', calls,
                       written)
                  end
                end
              end
            end
          end
      end
  end.

End Pipeline.

(** ** Quantities the rules are stated with *)

Module Rules.
Import Pandas Detect.

(** The Failed events of one address and user name. *)
Definition pair_failures (df : list Event) (ip user : string) : list Event :=
  filter (fun e => is_failed_login e && (source_ip e =? ip)%string
                   && (username e =? user)%string) df.

(** The Failed events of one address, in input order. *)
Definition ip_failures (df : list Event) (ip : string) : list Event :=
  filter (fun e => is_failed_login e && (source_ip e =? ip)%string) df.

Definition earliest (F : list Event) : Z := col_min (map timestamp F).
Definition latest (F : list Event) : Z := col_max (map timestamp F).


(** (last failed timestamp - first failed timestamp) in minutes. *)
Definition duration_minutes (F : list Event) : Q :=
  (inject_Z (latest F - earliest F) / 60)%Q.

(** failed_count / (duration_minutes / 60) when the duration is positive,
    failed_count otherwise. *)
Definition attempts_per_hour (F : list Event) : Q :=
  let failed_count := inject_Z (Z.of_nat (List.length F)) in
  if Qlt_le_dec 0 (duration_minutes F)
  then (failed_count / (duration_minutes F / 60))%Q
  else failed_count.


(** [p] is the first prefix of the table that [ip] starts with, and
    [location] its label. *)
Definition first_match_in (table : list (string * string)) (ip : string)
    (location : string) : Prop :=
  exists before p after,
    table = (before ++ (p, location) :: after)%list /\
    String.prefix p ip = true /\
    forall q, In q before -> String.prefix (fst q) ip = false.

(** The row the loop body adds for an address, if any. *)
Definition geo_rows (df : list Event) (ip : string) : list GeographicAnomaly :=
  match first_matching_range ip suspicious_ranges with
  | Some location =>
      let ip_logs := filter (fun e => (source_ip e =? ip)%string) df in
      let attempts := Z.of_nat (List.length ip_logs) in
      let failed := Z.of_nat (List.length (filter is_failed_login ip_logs)) in
      [mkGeo ip location attempts failed (attempts - failed)
             "GEOGRAPHIC_ANOMALY" (if 10 <? failed then HIGH else MEDIUM)]
  | None => []
  end.

(** Order of the [timestamp] column alone. *)
Definition timestamp_leb (a b : Event) : bool := timestamp a <=? timestamp b.

(** The events of one address in chronological order, events with equal
    timestamps staying in input order. *)
Definition chronological (df : list Event) (ip : string) : list Event :=
  sort timestamp_leb (filter (fun e => (source_ip e =? ip)%string) df).

(** The events before the first Accepted one. *)
Fixpoint before_first_success (l : list Event) : list Event :=
  match l with
  | [] => []
  | e :: l' => if is_failed_login e then e :: before_first_success l' else []
  end.

(** The first Accepted event, if any. *)
Definition first_success (l : list Event) : option Event :=
  find (fun e => negb (is_failed_login e)) l.

(** The rows of [df_sorted] whose [cumsum_success] is 0. *)
Definition pre_success_rows (acc : string -> Z) (rows : list Event)
  : list Event :=
  map fst (filter (fun rc => snd rc =? 0)
                  (combine rows (groupby_cumsum acc rows))).

(** The place value of the leading digit of a numeral, and the number a
    numeral denotes. *)
Fixpoint weight (l : list ascii) : Z :=
  match l with
  | [] => 1
  | _ :: l' => 10 * weight l'
  end.

Fixpoint digits_value (l : list ascii) : Z :=
  match l with
  | [] => 0
  | c :: l' => Py.digit_val c * weight l' + digits_value l'
  end.

(** A transformer that has processed nothing yet. *)
Definition fresh (year : Z) : Transform.LogTransformer :=
  Transform.mkTransformer 0 0 [] year.

(** What [parse_log_line] returns for a line under a given year, and
    whether it rejects the line. *)
Definition outcome (year : Z) (line : string) : option Transform.Parsed :=
  match Transform.parse_log_line (fresh year) line with
  | Py.Ok r => fst r
  | Py.Raise _ => None
  end.

Definition rejected (year : Z) (line : string) : bool :=
  match outcome year line with
  | Some _ => false
  | None => true
  end.

(** The diagnostic entries [parse_log_line] stores for a line when its
    buffer has room. *)
Definition diagnostic (year : Z) (line : string) : list string :=
  match Transform.parse_log_line (fresh year) line with
  | Py.Ok r => Transform.failed_samples (snd r)
  | Py.Raise _ => []
  end.

(** The records of the lines that parse, in input order. *)
Definition parsed_records (year : Z) (lines : list string)
  : list Transform.Parsed :=
  flat_map (fun l => match outcome year l with
                     | Some p => [p]
                     | None => []
                     end) lines.




(** A date and time of the calendar. *)
Definition valid_datetime (t : Datetime.datetime) : Prop :=
  1 <= Datetime.dt_year t <= 9999 /\
  1 <= Datetime.dt_month t <= 12 /\
  1 <= Datetime.dt_day t
       <= Datetime.days_in_month (Datetime.dt_year t) (Datetime.dt_month t) /\
  0 <= Datetime.dt_hour t <= 23 /\
  0 <= Datetime.dt_minute t <= 59 /\
  0 <= Datetime.dt_second t <= 59.

(** The characters of the user-name group and of the address group. *)
Definition username_char (c : ascii) : bool :=
  Py.is_word c || Ascii.eqb c "." || Ascii.eqb c "-".

Definition address_char (c : ascii) : bool :=
  Py.is_digit c || Ascii.eqb c ".".

(** A user name, and an address, that the log pattern reads back whole. *)
Definition user_ok (u : string) : Prop :=
  u <> EmptyString /\ forallb username_char (Py.chars u) = true.

Definition address_ok (a : string) : Prop :=
  a <> EmptyString /\ forallb address_char (Py.chars a) = true.

(** The pools an entry of the generator draws its address and its user
    name from, and whether the addresses of the pool are the internal
    ones. *)
Definition ip_pool (ty : Generate.EventType) : list string :=
  match ty with
  | Generate.normal | Generate.failed_normal => Generate.normal_ips
  | Generate.brute_force => Generate.attacker_ips
  | Generate.suspicious_geo => Generate.suspicious_ips
  end.

Definition user_pool (ty : Generate.EventType) : list string :=
  match ty with
  | Generate.normal | Generate.failed_normal => Generate.normal_users
  | Generate.brute_force => Generate.common_attack_users
  | Generate.suspicious_geo =>
      (Generate.normal_users ++ Generate.common_attack_users)%list
  end.

Definition uses_normal_ips (ty : Generate.EventType) : bool :=
  match ty with
  | Generate.normal | Generate.failed_normal => true
  | Generate.brute_force | Generate.suspicious_geo => false
  end.

(** The record of the line of an entry, under a given year. *)
Definition written_record (year : Z) (t : Datetime.datetime)
    (en : Generate.Entry) : Transform.Parsed :=
  Transform.mkParsed
    (Datetime.mkDatetime year (Datetime.dt_month t) (Datetime.dt_day t)
                         (Datetime.dt_hour t) (Datetime.dt_minute t)
                         (Datetime.dt_second t))
    (Generate.en_status en) (Generate.en_user en) (Generate.en_ip en)
    (Generate.en_port en) (Generate.en_pid en).

(** The files [load_anomalies] saves: for each key of the table of
    types, in order, whose frame is in the dict and is not empty, the key,
    the file name and the number of rows. *)
Definition saved_tables (anomaly_dict : list (string * Load.Table))
    (types : list (string * string)) : list (string * string * Z) :=
  flat_map (fun kf => match Load.get anomaly_dict (fst kf) with
                      | Some t =>
                          if Load.empty t then []
                          else [(fst kf, snd kf, Load.table_len t)]
                      | None => []
                      end) types.

(** The rows of a list of files. *)
Definition rows_written (written : list Load.Written) : Z :=
  fold_right Z.add 0 (map Load.w_rows written).





End Rules.

(** ** Sample inputs *)

Module Samples.

Definition transformer_2024 : Transform.LogTransformer :=
  Transform.init (Some 2024) 2026.


(** A text that is exactly the documented shape. *)
Definition shape_text : string :=
  "Jan  1 10:23:45 server sshd[1234]: Failed password for admin from 45.142.212.61 port 54321".

(** The four lines of the self-test of [transform.py]. *)
Definition test_logs : list string :=
  ["Jan  1 10:23:45 server sshd[1234]: Failed password for admin from 45.142.212.61 port 54321 ssh2";
   "Jan 14 10:23:45 server sshd[1235]: Accepted password for john.doe from 192.168.1.10 port 54322 ssh2";
   "Jan 15 11:30:22 server sshd[1236]: Failed password for test_user from 172.20.0.5 port 54323 ssh2";
   "MALFORMED LOG ENTRY"].

(** The record, the row and the state after the run for [shape_text]. *)
Definition shape_record : Transform.Parsed :=
  Transform.mkParsed (Datetime.mkDatetime 2024 1 1 10 23 45) "Failed" "admin"
                     "45.142.212.61" 54321 1234.

Definition shape_row : Event :=
  mkEvent 1704104625 "Failed" "admin" "45.142.212.61" 54321 1234 true 10 0
          false (2024, 1, 1) "Monday".

Definition shape_state : Transform.LogTransformer :=
  Transform.mkTransformer 1 0 [] 2024.

(** A date and time of another year than the one of [transformer_2024],
    and a brute-force entry of the generator. *)
Definition written_time : Datetime.datetime :=
  Datetime.mkDatetime 2023 1 1 10 23 45.

Definition attack_entry : Generate.Entry :=
  Generate.mkEntry Generate.brute_force "45.142.212.61" "root" "Failed"
                   1234 54321.

(** A log directory with one file. *)
Definition directory : Extract.Directory :=
  fun filename =>
    if (filename =? "ssh_auth.log")%string then Some [shape_text] else None.

(** An event with the columns the detectors read. *)
Definition event (t : Z) (user ip : string) (failed : bool) : Event :=
  mkEvent t (if failed then "Failed" else "Accepted") user ip 22 1 failed
          0 0 false (2026, 1, 14) "Wednesday".

(** [n] Failed events of one address, [step] seconds apart, the user
    names alternating between root and admin. *)
Definition burst (n : nat) (step : Z) (ip : string) : list Event :=
  map (fun i => event (Z.of_nat i * step)
                      (if Nat.even i then "root" else "admin") ip true)
      (seq 0 n).

(** The geographic row of fifteen failures from 45.142.212.61. *)
Definition geo_row : Detect.GeographicAnomaly :=
  Detect.mkGeo "45.142.212.61" "Eastern Europe" 15 15 0 "GEOGRAPHIC_ANOMALY"
               HIGH.

(** The brute-force row of twelve failures 25 seconds apart. *)
Definition burst_row : Detect.BruteForceAnomaly :=
  Detect.mkBruteForce "8.8.8.8" 12 0 275 ["root"; "admin"] (275 # 60)
                      (43200 # 275) "BRUTE_FORCE" (Some MEDIUM) 2.

End Samples.

(* ================================================================== *)
(** * Part II: properties *)
(* ================================================================== *)

(** ** Lists, keys and groups *)

Lemma match_nil_map {A B} (f : A -> B) (l : list A) :
  match l with [] => [] | _ => map f l end = map f l.
Proof. now destruct l. Qed.

Lemma filter_filter {A} (p q : A -> bool) l :
  filter p (filter q l) = filter (fun x => q x && p x) l.
Proof.
  induction l as [|x l IH]; simpl; [reflexivity|].
  destruct (q x); simpl; [destruct (p x)|]; now rewrite IH.
Qed.

Lemma filter_map_comm {A B} (f : A -> B) (p : B -> bool) l :
  filter p (map f l) = map f (filter (fun x => p (f x)) l).
Proof.
  induction l as [|x l IH]; simpl; [reflexivity|].
  destruct (p (f x)); simpl; now rewrite IH.
Qed.

Lemma filter_ext_in' {A} (p q : A -> bool) l :
  (forall x, In x l -> p x = q x) -> filter p l = filter q l.
Proof.
  induction l as [|x l IH]; simpl; intros H; [reflexivity|].
  rewrite (H x (or_introl eq_refl)), IH; [reflexivity|].
  intros y Hy. apply H. now right.
Qed.

Section GroupFacts.
Context {A K : Type}.
Variable keqb : K -> K -> bool.
Variable kleb : K -> K -> bool.
Hypothesis keqb_eq : forall x y, keqb x y = true <-> x = y.

Lemma keqb_refl x : keqb x x = true.
Proof. now apply keqb_eq. Qed.

Lemma keqb_neq x y : x <> y -> keqb x y = false.
Proof.
  intros H. destruct (keqb x y) eqn:E; [|reflexivity].
  apply keqb_eq in E. contradiction.
Qed.

Lemma in_unique x l : In x (Pandas.unique keqb l) <-> In x l.
Proof using keqb_eq.
  induction l as [|y l IH]; simpl; [split; intros []|].
  rewrite filter_In, IH.
  split.
  - intros [H|[H _]]; auto.
  - intros [H|H]; auto.
    destruct (keqb y x) eqn:E.
    + left. now apply keqb_eq.
    + right. split; [assumption|reflexivity].
Qed.

Lemma NoDup_filter {B} (p : B -> bool) l : NoDup l -> NoDup (filter p l).
Proof.
  induction 1 as [|x l Hx Hl IH]; simpl; [constructor|].
  destruct (p x); [|assumption].
  constructor; [|assumption].
  rewrite filter_In. tauto.
Qed.

Lemma NoDup_unique l : NoDup (Pandas.unique keqb l).
Proof.
  induction l as [|y l IH]; simpl; constructor.
  - rewrite filter_In. intros [_ H]. now rewrite keqb_refl in H.
  - now apply NoDup_filter.
Qed.

Lemma insert_sorted_perm x l :
  Permutation (Pandas.insert_sorted kleb x l) (x :: l).
Proof.
  induction l as [|y l IH]; simpl; [reflexivity|].
  destruct (kleb x y); [reflexivity|].
  rewrite IH. apply perm_swap.
Qed.

Lemma sort_perm l : Permutation (Pandas.sort kleb l) l.
Proof.
  induction l as [|x l IH]; simpl; [reflexivity|].
  rewrite insert_sorted_perm. now constructor.
Qed.

Lemma in_keys (key : A -> K) (df : list A) k :
  In k (Pandas.group_keys keqb kleb key df) <-> exists r, In r df /\ key r = k.
Proof.
  unfold Pandas.group_keys. split.
  - intros H. apply (Permutation_in _ (sort_perm _)) in H.
    apply in_unique, in_map_iff in H. destruct H as [r [H1 H2]]. eauto.
  - intros [r [H1 H2]].
    apply (Permutation_in _ (Permutation_sym (sort_perm _))).
    apply in_unique, in_map_iff. eauto.
Qed.

Lemma NoDup_keys (key : A -> K) (df : list A) :
  NoDup (Pandas.group_keys keqb kleb key df).
Proof.
  unfold Pandas.group_keys.
  eapply Permutation_NoDup; [apply Permutation_sym, sort_perm|].
  apply NoDup_unique.
Qed.

Lemma groupby_keys key (df : list A) :
  Pandas.groupby keqb kleb key df =
  map (fun k => (k, filter (fun r => keqb (key r) k) df)) (Pandas.group_keys keqb kleb key df).
Proof. reflexivity. Qed.

(** Selecting one key in a duplicate-free list. *)
Lemma filter_key_NoDup (l : list K) a :
  NoDup l ->
  filter (fun k => keqb k a) l = if existsb (fun k => keqb k a) l then [a] else [].
Proof.
  induction 1 as [|x l Hx Hl IH]; simpl; [reflexivity|].
  destruct (keqb x a) eqn:E; simpl.
  - apply keqb_eq in E. subst x. f_equal.
    rewrite IH.
    destruct (existsb (fun k => keqb k a) l) eqn:Ex; [|reflexivity].
    apply existsb_exists in Ex. destruct Ex as [y [Hy Hya]].
    apply keqb_eq in Hya. subst y. contradiction.
  - exact IH.
Qed.

Lemma existsb_keys (key : A -> K) (df : list A) a :
  existsb (fun k => keqb k a) (Pandas.group_keys keqb kleb key df) =
  negb (Nat.eqb (List.length (filter (fun r => keqb (key r) a) df)) 0).
Proof.
  destruct (existsb (fun k => keqb k a) (Pandas.group_keys keqb kleb key df)) eqn:E.
  - apply existsb_exists in E. destruct E as [k [Hk Hka]].
    apply keqb_eq in Hka. subst k.
    apply in_keys in Hk. destruct Hk as [r [Hr Hra]].
    assert (In r (filter (fun r => keqb (key r) a) df)) as Hin.
    { apply filter_In. split; [assumption|]. now apply keqb_eq. }
    destruct (filter (fun r => keqb (key r) a) df); [destruct Hin|reflexivity].
  - destruct (filter (fun r => keqb (key r) a) df) as [|r l] eqn:F;
      [reflexivity|].
    assert (In r (filter (fun r => keqb (key r) a) df)) as Hin
        by (rewrite F; now left).
    apply filter_In in Hin. destruct Hin as [Hr Hra].
    apply keqb_eq in Hra.
    assert (existsb (fun k => keqb k a) (Pandas.group_keys keqb kleb key df) = true) as Ex.
    { apply existsb_exists. exists a. split; [|apply keqb_refl].
      apply in_keys. eauto. }
    congruence.
Qed.

(** The rows a frame built from the groups has for one key: the row of
    that key's group when the key occurs and passes the row filter. *)
Lemma select_group {B} (key : A -> K) (df : list A)
      (row : K -> list A -> B) (keep : B -> bool) (a : K) (rkey : B -> K) :
  (forall k g, rkey (row k g) = k) ->
  filter (fun b => keqb (rkey b) a)
    (filter keep
       (map (fun g => row (fst g) (snd g)) (Pandas.groupby keqb kleb key df)))
  = let g := filter (fun r => keqb (key r) a) df in
    if negb (Nat.eqb (List.length g) 0) && keep (row a g)
    then [row a g] else [].
Proof.
  intros Hrow. rewrite groupby_keys, map_map. cbn [fst snd].
  rewrite filter_filter.
  rewrite (filter_ext _ (fun b => keqb (rkey b) a && keep b))
    by (intros b; apply andb_comm).
  rewrite <- filter_filter, filter_map_comm.
  rewrite (filter_ext _ (fun k => keqb k a)) by (intros k; now rewrite Hrow).
  rewrite (filter_key_NoDup _ _ (NoDup_keys key df)), existsb_keys.
  cbv zeta.
  destruct (negb (Nat.eqb _ 0)); simpl; [|reflexivity].
  destruct (keep _); reflexivity.
Qed.
End GroupFacts.


(** ** Text keys *)

Lemma pair_eqb_eq (x y : string * string) : Pandas.pair_eqb x y = true <-> x = y.
Proof.
  destruct x as [a b], y as [c d]. unfold Pandas.pair_eqb. cbn [fst snd].
  rewrite andb_true_iff, !String.eqb_eq. split.
  - intros [-> ->]. reflexivity.
  - intros H. inversion H. auto.
Qed.

Lemma len_nonneg {A} (l : list A) : 0 <= Z.of_nat (List.length l).
Proof. lia. Qed.

(** ** Vulnerable-account rule *)

Section UnusualUsernames.
Import Pandas Detect Rules.

Lemma vulnerable_group df ip u :
  filter (fun e => pair_eqb (source_ip e, username e) (ip, u))
    (filter (fun e => isin String.eqb (username e) vulnerable_accounts
                      && is_failed_login e) df)
  = if isin String.eqb u vulnerable_accounts then pair_failures df ip u else [].
Proof.
  rewrite filter_filter. unfold pair_failures.
  destruct (isin String.eqb u vulnerable_accounts) eqn:V.
  - apply filter_ext_in'. intros e _. unfold pair_eqb. cbn [fst snd].
    destruct (String.eqb_spec (username e) u) as [->|Hu].
    + rewrite V.
      now destruct (is_failed_login e), (source_ip e =? ip)%string.
    + now rewrite !andb_false_r.
  - rewrite <- (filter_ext_in' (fun _ => false)).
    + induction df; simpl; auto.
    + intros e _. unfold pair_eqb. cbn [fst snd].
      destruct (String.eqb_spec (username e) u) as [->|Hu].
      * now rewrite V.
      * now rewrite !andb_false_r.
Qed.

(** C6. For every (address, user name) pair the table has exactly one row
    when the user name is one of the ten well-known accounts and the pair
    has at least 5 Failed events, with [attempts] that count and severity
    HIGH above 20 attempts and MEDIUM otherwise; it has no row for the pair
    in every other case, so Accepted events, other user names and pairs
    with fewer failures contribute nothing. *)
Theorem detect_unusual_usernames_rule (df : list Event) (ip u : string) :
  let attempts := Z.of_nat (List.length (pair_failures df ip u)) in
  filter (fun r => pair_eqb (va_source_ip r, va_username r) (ip, u))
         (detect_unusual_usernames df)
  = if isin String.eqb u vulnerable_accounts && (5 <=? attempts)
    then [mkVulnerable ip u attempts "VULNERABLE_ACCOUNT_TARGETING"
                       (if 20 <? attempts then HIGH else MEDIUM)]
    else [].
Proof.
  cbv zeta. unfold detect_unusual_usernames.
  destruct df as [|e0 df0]; [now rewrite andb_false_r|].
  set (df := e0 :: df0). rewrite match_nil_map, filter_map_comm.
  cbn [va_source_ip va_username].
  rewrite (filter_ext _ (fun r => pair_eqb (fst r) (ip, u))) by reflexivity.
  rewrite (select_group pair_eqb pair_leb pair_eqb_eq
             (fun e => (source_ip e, username e)) _
             (fun k g => (k, Z.of_nat (List.length g)))
             (fun r => 5 <=? snd r) (ip, u) fst) by reflexivity.
  cbv zeta. rewrite vulnerable_group. cbn [snd].
  destruct (isin String.eqb u vulnerable_accounts); cbn [andb].
  - destruct (5 <=? Z.of_nat (List.length (pair_failures df ip u))) eqn:E.
    + apply Z.leb_le in E.
      destruct (List.length (pair_failures df ip u)); [lia|]. reflexivity.
    + now rewrite andb_false_r.
  - reflexivity.
Qed.

End UnusualUsernames.

(** ** Brute-force rule *)

Section BruteForce.
Import Pandas Detect Rules.

Lemma col_min_spec l :
  l <> [] -> In (col_min l) l /\ forall x, In x l -> col_min l <= x.
Proof.
  unfold col_min. destruct l as [|a l]; [congruence|]. intros _. cbn [hd].
  induction l as [|b l IH].
  - cbn. split; [left; lia|]. intros x [<-|[]]. lia.
  - destruct IH as [IH1 IH2].
    assert (fold_right Z.min a (a :: b :: l)
            = Z.min b (fold_right Z.min a (a :: l))) as E by (cbn; lia).
    rewrite E. split.
    + destruct (Z.min_spec b (fold_right Z.min a (a :: l))) as [[_ ->]|[_ ->]].
      * right; now left.
      * destruct IH1 as [H|H]; [now left|right; now right].
    + intros x [<-|[<-|H]].
      * specialize (IH2 a (or_introl eq_refl)). lia.
      * lia.
      * specialize (IH2 x (or_intror H)). lia.
Qed.

Lemma col_max_spec l :
  l <> [] -> In (col_max l) l /\ forall x, In x l -> x <= col_max l.
Proof.
  unfold col_max. destruct l as [|a l]; [congruence|]. intros _. cbn [hd].
  induction l as [|b l IH].
  - cbn. split; [left; lia|]. intros x [<-|[]]. lia.
  - destruct IH as [IH1 IH2].
    assert (fold_right Z.max a (a :: b :: l)
            = Z.max b (fold_right Z.max a (a :: l))) as E by (cbn; lia).
    rewrite E. split.
    + destruct (Z.max_spec b (fold_right Z.max a (a :: l))) as [[_ ->]|[_ ->]].
      * destruct IH1 as [H|H]; [now left|right; now right].
      * right; now left.
    + intros x [<-|[<-|H]].
      * specialize (IH2 a (or_introl eq_refl)). lia.
      * lia.
      * specialize (IH2 x (or_intror H)). lia.
Qed.

Lemma Qpos_bool_dec (x : Q) :
  Qpos_bool x = if Qlt_le_dec 0 x then true else false.
Proof.
  unfold Qpos_bool. destruct (Qlt_le_dec 0 x) as [H|H].
  - destruct (Qle_bool x 0) eqn:E; [|reflexivity].
    apply Qle_bool_iff in E. exfalso. exact (Qlt_not_le _ _ H E).
  - apply Qle_bool_iff in H. now rewrite H.
Qed.

Lemma aggregate_figures ip F :
  g_failed_count (aggregate ip F) = Z.of_nat (List.length F) /\
  g_first_attempt (aggregate ip F) = earliest F /\
  g_last_attempt (aggregate ip F) = latest F /\
  g_duration_minutes (aggregate ip F) = duration_minutes F /\
  g_attempts_per_hour (aggregate ip F) = attempts_per_hour F.
Proof.
  repeat split. unfold aggregate, attempts_per_hour. cbn.
  fold (earliest F). fold (latest F). fold (duration_minutes F).
  rewrite Qpos_bool_dec. now destruct (Qlt_le_dec 0 (duration_minutes F)).
Qed.


(** The rows of the result for one address. *)
Lemma brute_force_rows self df ip :
  filter (fun r => (bf_source_ip r =? ip)%string) (detect_brute_force self df)
  = let F := ip_failures df ip in
    if negb (Nat.eqb (List.length F) 0) && is_brute_force self (aggregate ip F)
    then [classify (aggregate ip F)] else [].
Proof.
  assert (forall df0,
    filter (fun r => (bf_source_ip r =? ip)%string)
      (map classify
         (filter (is_brute_force self)
            (map (fun g => aggregate (fst g) (snd g))
               (groupby String.eqb String.leb source_ip
                  (filter is_failed_login df0)))))
    = let F := ip_failures df0 ip in
      if negb (Nat.eqb (List.length F) 0)
         && is_brute_force self (aggregate ip F)
      then [classify (aggregate ip F)] else []) as Main.
  { intros df0. rewrite filter_map_comm. cbn [bf_source_ip classify].
    rewrite (select_group String.eqb String.leb String.eqb_eq source_ip _
               aggregate (is_brute_force self) ip g_source_ip) by reflexivity.
    cbv zeta. rewrite filter_filter. fold (ip_failures df0 ip).
    now destruct (_ && _). }
  unfold detect_brute_force.
  destruct df as [|e0 df0]; [reflexivity|].
  destruct (filter is_failed_login (e0 :: df0)) as [|f0 fl] eqn:EF.
  - cbv zeta. unfold ip_failures. rewrite <- filter_filter, EF. reflexivity.
  - rewrite match_nil_map, <- EF. apply Main.
Qed.


End BruteForce.

(** ** Geographic rule *)

Section Geographic.
Import Pandas Detect Rules.

Lemma first_matching_range_spec ip table location :
  first_matching_range ip table = Some location <->
  first_match_in table ip location.
Proof.
  unfold first_match_in. induction table as [|[p l] table IH]; cbn.
  - split; [discriminate|]. intros (b & q & a & E & _). now destruct b.
  - destruct (String.prefix p ip) eqn:P.
    + split.
      * intros [= <-]. exists [], p, table. repeat split; auto.
        intros q [].
      * intros (b & q & a & E & Hq & Hb). destruct b as [|x b].
        -- cbn in E. now inversion E.
        -- cbn in E. inversion E; subst x.
           specialize (Hb (p, l) (or_introl eq_refl)). cbn in Hb. congruence.
    + rewrite IH. split.
      * intros (b & q & a & -> & Hq & Hb). exists ((p, l) :: b), q, a.
        repeat split; auto. intros x [<-|Hx]; auto.
      * intros (b & q & a & E & Hq & Hb). destruct b as [|x b].
        -- cbn in E. inversion E; subst. congruence.
        -- cbn in E. inversion E; subst. exists b, q, a.
           repeat split; auto. intros y Hy. apply Hb. now right.
Qed.

Lemma isin_false_iff x l : isin String.eqb x l = false <-> ~ In x l.
Proof.
  unfold isin. split.
  - intros H Hin. assert (existsb (String.eqb x) l = true); [|congruence].
    apply existsb_exists. exists x. split; [assumption|apply String.eqb_refl].
  - intros H. destruct (existsb (String.eqb x) l) eqn:E; [|reflexivity].
    apply existsb_exists in E. destruct E as [y [Hy Hxy]].
    apply String.eqb_eq in Hxy. subst y. contradiction.
Qed.

Lemma geo_loop df l : forall geo seen,
  NoDup l -> (forall x, In x l -> ~ In x seen) ->
  fst (fold_left (geo_step df) l (geo, seen))
  = (geo ++ flat_map (geo_rows df) l)%list.
Proof.
  induction l as [|ip l IH]; intros geo seen ND Hseen; cbn [fold_left flat_map].
  - now rewrite app_nil_r.
  - inversion ND as [|? ? Hip ND']; subst.
    unfold geo_step at 2.
    rewrite (proj2 (isin_false_iff ip seen)) by (apply Hseen; now left).
    unfold geo_rows at 1.
    destruct (first_matching_range ip suspicious_ranges) as [location|].
    + rewrite IH; [now rewrite <- app_assoc|assumption|].
      intros x Hx [<-|Hs]; [contradiction|].
      apply (Hseen x); [now right|assumption].
    + rewrite IH; [reflexivity|assumption|].
      intros x Hx. apply Hseen. now right.
Qed.

Lemma filter_flat_map_key {B} (f : string -> list B) (rkey : B -> string) a l :
  NoDup l -> (forall k b, In b (f k) -> rkey b = k) ->
  filter (fun b => (rkey b =? a)%string) (flat_map f l)
  = if existsb (fun k => (k =? a)%string) l then f a else [].
Proof.
  intros ND Hkey.
  assert (forall k, filter (fun b => (rkey b =? a)%string) (f k)
                    = if (k =? a)%string then f k else []) as One.
  { intros k. destruct (String.eqb_spec k a) as [->|Hk].
    - rewrite (filter_ext_in' _ (fun _ => true)).
      + induction (f a); cbn; congruence.
      + intros b Hb. rewrite (Hkey _ _ Hb). apply String.eqb_refl.
    - rewrite (filter_ext_in' _ (fun _ => false)).
      + induction (f k); cbn; congruence.
      + intros b Hb. rewrite (Hkey _ _ Hb). now apply String.eqb_neq. }
  induction ND as [|x l Hx ND IH]; cbn; [reflexivity|].
  rewrite filter_app, One, IH.
  destruct (String.eqb_spec x a) as [->|Hxa]; cbn; [|reflexivity].
  destruct (existsb (fun k => (k =? a)%string) l) eqn:E.
  - apply existsb_exists in E. destruct E as [y [Hy Hya]].
    apply String.eqb_eq in Hya. subst y. contradiction.
  - apply app_nil_r.
Qed.

Lemma existsb_external df ip :
  existsb (fun k => (k =? ip)%string)
    (unique String.eqb
       (map source_ip (filter (fun e => negb (is_internal_ip e)) df)))
  = existsb (fun e => negb (is_internal_ip e))
      (filter (fun e => (source_ip e =? ip)%string) df).
Proof.
  apply eq_true_iff_eq. rewrite !existsb_exists. split.
  - intros (k & Hk & E). apply String.eqb_eq in E. subst k.
    apply (in_unique String.eqb String.eqb_eq), in_map_iff in Hk.
    destruct Hk as (e & He & Hin). apply filter_In in Hin.
    exists e. split; [|tauto]. apply filter_In. split; [tauto|].
    now apply String.eqb_eq.
  - intros (e & Hin & He). apply filter_In in Hin.
    destruct Hin as [Hin Hip]. apply String.eqb_eq in Hip.
    exists ip. split; [|apply String.eqb_refl].
    apply (in_unique String.eqb String.eqb_eq), in_map_iff.
    exists e. split; [assumption|]. apply filter_In. tauto.
Qed.

(** C5. For every address the table has exactly one row when some event
    of the address is external and the address starts with a prefix of the
    table, however many events the address has; the row's label is that of
    the first matching prefix in table order, and its figures count all
    the events of the address: total_attempts their number,
    failed_attempts the Failed ones, success_attempts the difference,
    severity HIGH above 10 failures and MEDIUM otherwise. An address with
    internal events only, or one matching no prefix, has no row. *)
Theorem detect_geographic_anomalies_rule (df : list Event) (ip : string) :
  let events := filter (fun e => (source_ip e =? ip)%string) df in
  let total := Z.of_nat (List.length events) in
  let failed := Z.of_nat (List.length (filter is_failed_login events)) in
  let external := existsb (fun e => negb (is_internal_ip e)) events in
  (forall location,
     first_matching_range ip suspicious_ranges = Some location <->
     first_match_in suspicious_ranges ip location) /\
  filter (fun r => (geo_source_ip r =? ip)%string)
         (detect_geographic_anomalies df)
  = match first_matching_range ip suspicious_ranges with
    | Some location =>
        if external
        then [mkGeo ip location total failed (total - failed)
                    "GEOGRAPHIC_ANOMALY"
                    (if 10 <? failed then HIGH else MEDIUM)]
        else []
    | None => []
    end.
Proof.
  cbv zeta. split; [intros; apply first_matching_range_spec|].
  unfold detect_geographic_anomalies.
  destruct df as [|e0 df0];
    [now destruct (first_matching_range ip suspicious_ranges)|].
  set (df := e0 :: df0).
  rewrite geo_loop;
    [|apply (NoDup_unique String.eqb String.eqb_eq)|intros x _ []].
  cbn [app].
  rewrite (filter_flat_map_key (geo_rows df) geo_source_ip).
  - rewrite existsb_external. unfold geo_rows.
    destruct (first_matching_range ip suspicious_ranges);
      now destruct (existsb _ _).
  - apply (NoDup_unique String.eqb String.eqb_eq).
  - intros k b. unfold geo_rows.
    destruct (first_matching_range k suspicious_ranges);
      [intros [<-|[]]; reflexivity|intros []].
Qed.

End Geographic.

(** ** The report *)

Section ReportFacts.
Import Pandas Detect Rules.

(** C7. The collections of the report are the four detectors' results;
    [total_anomalies] is the sum of their sizes and [critical_threats] the
    number of breaches plus the number of brute-force rows of severity
    CRITICAL. On the empty event set the report has four empty
    collections, both figures are 0 and no detector is called. *)
Theorem generate_full_report_summary (self : IntrusionDetector)
    (df : list Event) :
  let report := fst (generate_full_report self df) in
  brute_force_attacks report = detect_brute_force self df /\
  vulnerable_account_targeting report = detect_unusual_usernames df /\
  geographic_anomalies report = detect_geographic_anomalies df /\
  possible_breaches report = detect_successful_after_many_failures df /\
  getitem (summary report) "total_anomalies"
  = Some (len (brute_force_attacks report)
          + len (vulnerable_account_targeting report)
          + len (geographic_anomalies report)
          + len (possible_breaches report)) /\
  getitem (summary report) "critical_threats"
  = Some (len (possible_breaches report)
          + len (filter (fun b => match bf_severity b with
                                  | Some CRITICAL => true
                                  | _ => false
                                  end) (brute_force_attacks report))) /\
  generate_full_report self []
  = (mkReport [] [] [] []
       [("total_anomalies", 0); ("critical_threats", 0)], []).
Proof.
  cbv zeta. destruct df as [|e0 df0].
  - cbn. repeat split; reflexivity.
  - set (df := e0 :: df0). unfold generate_full_report.
    cbn [bind call ret fst snd brute_force_attacks
         vulnerable_account_targeting geographic_anomalies possible_breaches
         summary].
    subst df. cbv beta iota.
    repeat split.
    cbn [getitem String.eqb Ascii.eqb Bool.eqb brute_force_attacks
         possible_breaches summary fst].
    destruct (detect_brute_force self (e0 :: df0)) eqn:E.
    + cbn. f_equal. unfold len. cbn. lia.
    + reflexivity.
Qed.

(** C8, on non-empty input: the summary has the four per-type counts,
    each the size of its collection; on the empty event set the summary
    has no per-type count (asking for one is a [KeyError]). *)
Theorem generate_full_report_per_type_counts (self : IntrusionDetector)
    (e0 : Event) (df0 : list Event) :
  let report := fst (generate_full_report self (e0 :: df0)) in
  let empty_report := fst (generate_full_report self []) in
  getitem (summary report) "brute_force_count"
  = Some (len (brute_force_attacks report)) /\
  getitem (summary report) "vulnerable_account_count"
  = Some (len (vulnerable_account_targeting report)) /\
  getitem (summary report) "geographic_count"
  = Some (len (geographic_anomalies report)) /\
  getitem (summary report) "breach_count"
  = Some (len (possible_breaches report)) /\
  getitem (summary empty_report) "brute_force_count" = None /\
  getitem (summary empty_report) "vulnerable_account_count" = None /\
  getitem (summary empty_report) "geographic_count" = None /\
  getitem (summary empty_report) "breach_count" = None.
Proof.
  cbv zeta. repeat split.
Qed.

End ReportFacts.

(** ** Order on text *)

Lemma ascii_compare_refl c : Ascii.compare c c = Eq.
Proof. unfold Ascii.compare. apply N.compare_refl. Qed.

Lemma string_compare_refl s : String.compare s s = Eq.
Proof.
  induction s as [|c s IH]; cbn; [reflexivity|].
  now rewrite ascii_compare_refl.
Qed.

Lemma ascii_compare_lt_trans a b c :
  Ascii.compare a b = Lt -> Ascii.compare b c = Lt -> Ascii.compare a c = Lt.
Proof.
  unfold Ascii.compare. rewrite !N.compare_lt_iff. lia.
Qed.

Lemma string_compare_lt_trans s1 : forall s2 s3,
  String.compare s1 s2 = Lt -> String.compare s2 s3 = Lt ->
  String.compare s1 s3 = Lt.
Proof.
  induction s1 as [|a s1 IH]; intros [|b s2] [|c s3]; cbn; try congruence.
  destruct (Ascii.compare a b) eqn:Eab; try discriminate;
    destruct (Ascii.compare b c) eqn:Ebc; try discriminate; intros H1 H2.
  - apply Ascii.compare_eq_iff in Eab, Ebc. subst.
    rewrite ascii_compare_refl. eauto.
  - apply Ascii.compare_eq_iff in Eab. subst. now rewrite Ebc.
  - apply Ascii.compare_eq_iff in Ebc. subst. now rewrite Eab.
  - now rewrite (ascii_compare_lt_trans _ _ _ Eab Ebc).
Qed.

Lemma string_ltb_irrefl s : String.ltb s s = false.
Proof. unfold String.ltb. now rewrite string_compare_refl. Qed.

Lemma string_ltb_trans a b c :
  String.ltb a b = true -> String.ltb b c = true -> String.ltb a c = true.
Proof.
  unfold String.ltb. intros H1 H2.
  destruct (String.compare a b) eqn:E1; try discriminate.
  destruct (String.compare b c) eqn:E2; try discriminate.
  now rewrite (string_compare_lt_trans _ _ _ E1 E2).
Qed.

Lemma string_trichotomy a b :
  String.ltb a b = true \/ a = b \/ String.ltb b a = true.
Proof.
  unfold String.ltb. rewrite (String.compare_antisym b a).
  destruct (String.compare a b) eqn:E; cbn; auto.
  right; left. now apply String.compare_eq_iff.
Qed.

Lemma string_ltb_asym a b :
  String.ltb a b = true -> String.ltb b a = false.
Proof.
  intros H. destruct (String.ltb b a) eqn:E; [|reflexivity].
  pose proof (string_ltb_trans _ _ _ H E) as T.
  now rewrite string_ltb_irrefl in T.
Qed.

(** ** Stable sorting *)

Lemma StronglySorted_impl {A} (R R' : A -> A -> Prop) l :
  (forall a b, R a b -> R' a b) -> StronglySorted R l -> StronglySorted R' l.
Proof.
  intros H. induction 1 as [|x l Hl IH Hx]; constructor; [assumption|].
  eapply Forall_impl; [|exact Hx]. intros b. apply H.
Qed.

Section SortFacts.
Context {A : Type}.
Variable le : A -> A -> bool.
Hypothesis le_trans :
  forall a b c, le a b = true -> le b c = true -> le a c = true.
Hypothesis le_total : forall a b, le a b = false -> le b a = true.

Lemma insert_sorted_strongly x l :
  StronglySorted (fun a b => le a b = true) l ->
  StronglySorted (fun a b => le a b = true) (Pandas.insert_sorted le x l).
Proof using le_trans le_total.
  induction 1 as [|y l Hl IH Hy]; cbn.
  - repeat constructor.
  - destruct (le x y) eqn:E.
    + constructor; [now constructor|].
      constructor; [exact E|].
      rewrite Forall_forall in *. intros z Hz.
      exact (le_trans _ _ _ E (Hy z Hz)).
    + constructor; [exact IH|].
      rewrite Forall_forall in *. intros z Hz.
      apply (Permutation_in _ (insert_sorted_perm le x l)) in Hz.
      destruct Hz as [<-|Hz]; [now apply le_total|now apply Hy].
Qed.

Lemma sort_strongly l :
  StronglySorted (fun a b => le a b = true) (Pandas.sort le l).
Proof using le_trans le_total.
  induction l as [|x l IH]; cbn; [constructor|].
  now apply insert_sorted_strongly.
Qed.

(** Insertion leaves the rows that do not pass a filter alone. *)
Lemma filter_insert_other (p : A -> bool) x l :
  p x = false ->
  filter p (Pandas.insert_sorted le x l) = filter p l.
Proof.
  intros Hx. induction l as [|y l IH]; cbn.
  - now rewrite Hx.
  - destruct (le x y); cbn.
    + now rewrite Hx.
    + now rewrite IH.
Qed.

(** A row no greater than every row of a list goes in front. *)
Lemma insert_sorted_front x l :
  (forall z, In z l -> le x z = true) -> Pandas.insert_sorted le x l = x :: l.
Proof.
  destruct l as [|y l]; cbn; [reflexivity|]. intros H.
  now rewrite (H y (or_introl eq_refl)).
Qed.
End SortFacts.

(** ** Breach rule *)

Section Breach.
Import Pandas Detect Rules.

Lemma ip_timestamp_leb_same a b :
  source_ip a = source_ip b -> ip_timestamp_leb a b = timestamp_leb a b.
Proof.
  intros E. unfold ip_timestamp_leb, timestamp_leb.
  now rewrite E, string_ltb_irrefl, String.eqb_refl.
Qed.

Lemma ip_timestamp_leb_trans a b c :
  ip_timestamp_leb a b = true -> ip_timestamp_leb b c = true ->
  ip_timestamp_leb a c = true.
Proof.
  unfold ip_timestamp_leb.
  rewrite !orb_true_iff, !andb_true_iff, !String.eqb_eq, !Z.leb_le.
  intros [H1|[H1 L1]] [H2|[H2 L2]].
  - left. eapply string_ltb_trans; eassumption.
  - left. now rewrite <- H2.
  - left. now rewrite H1.
  - right. split; [congruence|lia].
Qed.

Lemma ip_timestamp_leb_total a b :
  ip_timestamp_leb a b = false -> ip_timestamp_leb b a = true.
Proof.
  unfold ip_timestamp_leb.
  rewrite orb_false_iff, andb_false_iff, orb_true_iff, andb_true_iff.
  rewrite !String.eqb_eq, String.eqb_neq, !Z.leb_le, Z.leb_gt.
  intros [H1 H2].
  destruct (string_trichotomy (source_ip a) (source_ip b)) as [H|[H|H]].
  - congruence.
  - right. split; [congruence|]. destruct H2; [contradiction|lia].
  - now left.
Qed.

Lemma filter_insert_same ip x l :
  source_ip x = ip ->
  StronglySorted (fun a b => ip_timestamp_leb a b = true) l ->
  filter (fun e => (source_ip e =? ip)%string)
         (insert_sorted ip_timestamp_leb x l)
  = insert_sorted timestamp_leb x
      (filter (fun e => (source_ip e =? ip)%string) l).
Proof.
  intros Hx. induction 1 as [|y l Hl IH Hy].
  - cbn. rewrite (proj2 (String.eqb_eq _ _) Hx). reflexivity.
  - cbn [insert_sorted]. destruct (ip_timestamp_leb x y) eqn:E.
    + cbn [filter]. rewrite (proj2 (String.eqb_eq _ _) Hx).
      symmetry. apply insert_sorted_front.
      intros z Hz. change (In z (filter (fun e => (source_ip e =? ip)%string) (y :: l))) in Hz.
      apply filter_In in Hz. destruct Hz as [Hz Hip].
      apply String.eqb_eq in Hip.
      rewrite <- ip_timestamp_leb_same by congruence.
      destruct Hz as [<-|Hz]; [exact E|].
      rewrite Forall_forall in Hy.
      exact (ip_timestamp_leb_trans _ _ _ E (Hy z Hz)).
    + cbn [filter]. destruct (String.eqb_spec (source_ip y) ip) as [Hy'|Hy'].
      * rewrite IH. cbn [insert_sorted].
        rewrite <- ip_timestamp_leb_same by congruence. now rewrite E.
      * exact IH.
Qed.

(** Sorting the whole frame by address and time, then keeping one
    address, is sorting that address's rows by time. *)
Lemma filter_sort_ip ip df :
  filter (fun e => (source_ip e =? ip)%string) (sort ip_timestamp_leb df)
  = chronological df ip.
Proof.
  unfold chronological. induction df as [|x df IH]; cbn [sort filter];
    [reflexivity|].
  destruct (String.eqb_spec (source_ip x) ip) as [Hx|Hx].
  - rewrite filter_insert_same; [now rewrite IH|assumption|].
    apply sort_strongly;
      [apply ip_timestamp_leb_trans|apply ip_timestamp_leb_total].
  - rewrite filter_insert_other; [exact IH|]. now apply String.eqb_neq.
Qed.

(** Stability: rows with one timestamp keep their input order. *)
Lemma filter_insert_timestamp t x l :
  filter (fun e => timestamp e =? t) (insert_sorted timestamp_leb x l)
  = ((if timestamp x =? t then [x] else [])
     ++ filter (fun e => timestamp e =? t) l)%list.
Proof.
  induction l as [|y l IH]; cbn [insert_sorted];
    [cbn; now destruct (timestamp x =? t)|].
  unfold timestamp_leb at 1. destruct (Z.leb_spec (timestamp x) (timestamp y)).
  - cbn [filter]. now destruct (timestamp x =? t).
  - cbn [filter]. rewrite IH.
    destruct (Z.eqb_spec (timestamp x) t), (Z.eqb_spec (timestamp y) t);
      try reflexivity; lia.
Qed.

Lemma sort_timestamp_stable t l :
  filter (fun e => timestamp e =? t) (sort timestamp_leb l)
  = filter (fun e => timestamp e =? t) l.
Proof.
  induction l as [|x l IH]; cbn [sort]; [reflexivity|].
  rewrite filter_insert_timestamp, IH. cbn [filter].
  now destruct (timestamp x =? t).
Qed.

Lemma timestamp_leb_trans a b c :
  timestamp_leb a b = true -> timestamp_leb b c = true ->
  timestamp_leb a c = true.
Proof. unfold timestamp_leb. rewrite !Z.leb_le. lia. Qed.

Lemma timestamp_leb_total a b :
  timestamp_leb a b = false -> timestamp_leb b a = true.
Proof. unfold timestamp_leb. rewrite Z.leb_le, Z.leb_gt. lia. Qed.

(** The rows whose running count of successes is still 0. *)
Lemma pre_success_rows_ip ip rows : forall acc,
  (forall k, 0 <= acc k) ->
  filter (fun e => (source_ip e =? ip)%string) (pre_success_rows acc rows)
  = if acc ip =? 0
    then before_first_success
           (filter (fun e => (source_ip e =? ip)%string) rows)
    else [].
Proof.
  unfold pre_success_rows.
  induction rows as [|e rows IH]; intros acc Hacc.
  - cbn. now destruct (acc ip =? 0).
  - cbn [groupby_cumsum combine filter snd].
    set (c := acc (source_ip e) + (if is_failed_login e then 0 else 1)).
    set (acc' := fun k => if (k =? source_ip e)%string then c else acc k).
    assert (0 <= c) as Hc.
    { unfold c. specialize (Hacc (source_ip e)).
      destruct (is_failed_login e); lia. }
    assert (forall k, 0 <= acc' k) as Hacc'.
    { intros k. unfold acc'. destruct (k =? source_ip e)%string; auto. }
    specialize (IH acc' Hacc').
    assert (acc' ip = if (source_ip e =? ip)%string then c else acc ip) as Ea.
    { unfold acc'. rewrite String.eqb_sym. reflexivity. }
    assert (c = acc (source_ip e) + (if is_failed_login e then 0 else 1))
      as Ec by reflexivity.
    rewrite Ea in IH. clearbody c acc'. clear Ea Hacc'.
    pose proof (Hacc (source_ip e)) as Hip.
    cbn [filter before_first_success].
    destruct (String.eqb_spec (source_ip e) ip) as [He|He].
    + rewrite He in *. cbn [before_first_success].
      destruct (is_failed_login e).
      * assert (c = acc ip) as -> by lia.
        destruct (Z.eqb_spec (acc ip) 0) as [E0|E0]; [|exact IH].
        cbn [map fst filter].
        rewrite (proj2 (String.eqb_eq _ _) He). now rewrite IH.
      * destruct (Z.eqb_spec c 0) as [E1|E1]; [lia|].
        rewrite IH. now destruct (acc ip =? 0).
    + destruct (c =? 0); cbn [map fst filter]; [|exact IH].
      rewrite (proj2 (String.eqb_neq _ _) He). exact IH.
Qed.

Lemma loc_isin {B} ip (index : list (string * B)) :
  isin String.eqb ip (map fst index) = false -> loc ip index = None.
Proof.
  induction index as [|[k v] index IH]; cbn; [reflexivity|].
  rewrite String.eqb_sym. destruct (k =? ip)%string; cbn; [discriminate|].
  exact IH.
Qed.

Lemma loc_some_isin {B} ip (index : list (string * B)) v :
  loc ip index = Some v -> isin String.eqb ip (map fst index) = true.
Proof.
  intros H. destruct (isin String.eqb ip (map fst index)) eqn:E;
    [reflexivity|].
  rewrite (loc_isin _ _ E) in H. discriminate.
Qed.

Lemma hd_error_filter {B} (p : B -> bool) l : hd_error (filter p l) = find p l.
Proof.
  induction l as [|x l IH]; cbn; [reflexivity|]. now destruct (p x).
Qed.

(** Looking an address up in [groupby(source_ip).first()]. *)
Lemma loc_groupby_first ip df :
  loc ip (groupby_first df)
  = hd_error (filter (fun e => (source_ip e =? ip)%string) df).
Proof.
  unfold groupby_first. rewrite (groupby_keys String.eqb String.leb).
  rewrite flat_map_concat_map, map_map, <- flat_map_concat_map.
  cbn [fst snd].
  assert (forall ks,
    loc ip (flat_map
              (fun k => match filter (fun r => (source_ip r =? k)%string) df with
                        | [] => []
                        | r :: _ => [(k, r)]
                        end) ks)
    = if existsb (fun k => (k =? ip)%string) ks
      then hd_error (filter (fun e => (source_ip e =? ip)%string) df)
      else None) as L.
  { induction ks as [|k ks IH]; cbn [flat_map existsb]; [reflexivity|].
    destruct (String.eqb_spec k ip) as [->|Hk]; cbn [orb].
    - destruct (filter (fun r => (source_ip r =? ip)%string) df) eqn:F.
      + cbn [app]. rewrite IH. now destruct (existsb _ ks).
      + cbn. now rewrite String.eqb_refl.
    - destruct (filter (fun r => (source_ip r =? k)%string) df) eqn:F.
      + exact IH.
      + cbn. rewrite (proj2 (String.eqb_neq _ _) Hk). exact IH. }
  rewrite L, (existsb_keys String.eqb String.leb String.eqb_eq).
  destruct (filter (fun r => (source_ip r =? ip)%string) df); reflexivity.
Qed.

Lemma before_first_success_split l :
  exists rest,
    l = (before_first_success l ++ rest)%list /\
    Forall (fun e => is_failed_login e = true) (before_first_success l) /\
    hd_error rest = first_success l.
Proof.
  unfold first_success. induction l as [|e l (rest & E & F & H)]; cbn.
  - exists []. repeat split. constructor.
  - destruct (is_failed_login e) eqn:Ef; cbn.
    + exists rest. repeat split; [now rewrite <- E|now constructor|exact H].
    + exists (e :: l). repeat split. constructor.
Qed.

Lemma loc_successful_logins ip df :
  loc ip (groupby_first (filter (fun e => negb (is_failed_login e))
                                (sort ip_timestamp_leb df)))
  = first_success (chronological df ip).
Proof.
  rewrite loc_groupby_first, filter_filter.
  rewrite (filter_ext _ (fun e => (source_ip e =? ip)%string
                                  && negb (is_failed_login e)))
    by (intros e; apply andb_comm).
  rewrite <- filter_filter, filter_sort_ip. apply hd_error_filter.
Qed.

(** The rows of the result for one address. *)
Lemma breach_rows df ip :
  filter (fun r => (br_source_ip r =? ip)%string)
         (detect_successful_after_many_failures df)
  = let events := chronological df ip in
    let k := Z.of_nat (List.length (before_first_success events)) in
    match first_success events with
    | Some s =>
        if 5 <=? k
        then [mkBreach ip (username s) k (timestamp s) "POSSIBLE_BREACH"
                       (if 20 <? k then CRITICAL else HIGH)]
        else []
    | None => []
    end.
Proof.
  unfold detect_successful_after_many_failures.
  destruct df as [|e0 df0]; [reflexivity|]. set (df := e0 :: df0).
  cbv zeta. fold (pre_success_rows (fun _ => 0) (sort ip_timestamp_leb df)).
  set (SL := groupby_first _). set (PRE := pre_success_rows _ _).
  rewrite (groupby_keys String.eqb String.leb).
  rewrite flat_map_concat_map, !map_map, <- flat_map_concat_map.
  cbn [fst snd].
  set (f := fun k : string => if _ : bool then _ else []).
  assert (forall k b, In b (f k) -> br_source_ip b = k) as Hkey.
  { intros k b. unfold f. destruct (_ && _); [|intros []].
    destruct (loc k SL); [|intros []]. now intros [<-|[]]. }
  rewrite (filter_flat_map_key f br_source_ip ip _
             (NoDup_keys String.eqb String.leb String.eqb_eq source_ip PRE)
             Hkey).
  rewrite (existsb_keys String.eqb String.leb String.eqb_eq).
  assert (filter (fun r => (source_ip r =? ip)%string) PRE
          = before_first_success (chronological df ip)) as EP.
  { unfold PRE. rewrite pre_success_rows_ip by (intros; lia).
    cbv beta. change (0 =? 0) with true. cbv iota.
    now rewrite filter_sort_ip. }
  assert (loc ip SL = first_success (chronological df ip)) as EL
      by apply loc_successful_logins.
  unfold f. rewrite EP, EL.
  set (k := Z.of_nat (List.length (before_first_success (chronological df ip)))).
  destruct (first_success (chronological df ip)) as [s|] eqn:Es.
  - rewrite (loc_some_isin _ _ _ EL), andb_true_r.
    destruct (Z.leb_spec 5 k); [|now destruct (negb _)].
    destruct (List.length (before_first_success (chronological df ip)));
      [unfold k in *; cbn in *; lia|reflexivity].
  - destruct (_ && _); now destruct (negb _).
Qed.

(** C2. With the events of an address put in chronological order, equal
    timestamps staying in input order, and [k] the number of events before
    the first Accepted one (all of them Failed), the table has one row for
    the address exactly when the address has an Accepted event and
    [k >= 5]; the row carries the user name and timestamp of that first
    Accepted event, [k] as the number of failures, and severity CRITICAL
    above 20 failures and HIGH otherwise. An address without an Accepted
    event has no row. *)
Theorem detect_successful_after_many_failures_rule (df : list Event)
    (ip : string) :
  let own := filter (fun e => (source_ip e =? ip)%string) df in
  let events := chronological df ip in
  let before := before_first_success events in
  let k := Z.of_nat (List.length before) in
  (Permutation events own /\
   StronglySorted (fun a b => timestamp a <= timestamp b) events /\
   forall t, filter (fun e => timestamp e =? t) events
             = filter (fun e => timestamp e =? t) own) /\
  (exists rest,
     events = (before ++ rest)%list /\
     Forall (fun e => is_failed_login e = true) before /\
     hd_error rest = first_success events /\
     forall s, first_success events = Some s -> is_failed_login s = false) /\
  filter (fun r => (br_source_ip r =? ip)%string)
         (detect_successful_after_many_failures df)
  = match first_success events with
    | Some s =>
        if 5 <=? k
        then [mkBreach ip (username s) k (timestamp s) "POSSIBLE_BREACH"
                       (if 20 <? k then CRITICAL else HIGH)]
        else []
    | None => []
    end.
Proof.
  cbv zeta. split; [|split].
  - unfold chronological. split; [apply sort_perm|]. split.
    + eapply StronglySorted_impl;
        [|apply (sort_strongly timestamp_leb timestamp_leb_trans
                               timestamp_leb_total)].
      intros a b. unfold timestamp_leb. apply Z.leb_le.
    + intros t. apply sort_timestamp_stable.
  - destruct (before_first_success_split (chronological df ip))
      as (rest & E & F & H).
    exists rest. repeat split; try assumption.
    intros s Hs. unfold first_success in Hs. apply find_some in Hs.
    now apply negb_true_iff.
  - apply breach_rows.
Qed.

End Breach.

(** ** The address classifier *)

Section InternalIp.
Import Py Transform Rules.







Lemma int_raises_value_error s e :
  int s = Raise e -> exists msg, e = ValueError msg.
Proof.
  unfold int. destruct (match chars (strip s) with [] => _ | _ => _ end);
    [discriminate|].
  intros [= <-]. eauto.
Qed.

Lemma getitem_raises_index_error {A} (l : list A) i e :
  getitem l i = Raise e -> exists msg, e = IndexError msg.
Proof.
  unfold getitem. destruct (nth_error l i); [discriminate|].
  intros [= <-]. eauto.
Qed.

(** What the classifier computes, on any text. *)
Lemma is_internal_ip_value ip :
  _is_internal_ip ip
  = Ok (String.prefix "192.168." ip || String.prefix "10." ip
        || (String.prefix "172." ip
            && match nth_error (split "." ip) 1 with
               | Some part =>
                   match int part with
                   | Ok n => (16 <=? n) && (n <=? 31)
                   | Raise _ => false
                   end
               | None => false
               end)).
Proof.
  unfold _is_internal_ip.
  destruct (String.prefix "192.168." ip || String.prefix "10." ip) eqn:P;
    [reflexivity|].
  cbn [orb]. destruct (String.prefix "172." ip); [|reflexivity].
  cbn [andb]. unfold getitem.
  destruct (nth_error (split "." ip) 1) as [part|]; [|reflexivity].
  cbn [rbind]. destruct (int part) as [n|e] eqn:En; [reflexivity|].
  apply int_raises_value_error in En. destruct En as [msg ->]. reflexivity.
Qed.



End InternalIp.

(** ** The matcher and the words of a pattern *)

Section Matcher.
Import Py Re.

Lemma chars_text l : chars (text l) = l.
Proof. apply list_ascii_of_string_of_list_ascii. Qed.

Lemma text_chars s : text (chars s) = s.
Proof. apply string_of_list_ascii_of_string. Qed.

Lemma chars_app s t : chars (s ++ t) = (chars s ++ chars t)%list.
Proof.
  unfold chars. induction s as [|c s IH]; cbn; [reflexivity|]. now rewrite IH.
Qed.

Lemma strip_prefix_split eq t : forall s rest,
  strip_prefix eq t s = Some rest <->
  exists w, s = (w ++ rest)%list /\ strip_prefix eq t w = Some [].
Proof.
  induction t as [|a t IH]; intros s rest; cbn.
  - split.
    + intros [= <-]. exists []. auto.
    + intros (w & -> & [= ->]). reflexivity.
  - destruct s as [|b s].
    + split; [discriminate|]. intros (w & E & H).
      destruct w; [discriminate|discriminate].
    + destruct (eq a b) eqn:Eab.
      * rewrite IH. split.
        -- intros (w & -> & H). exists (b :: w). cbn. now rewrite Eab.
        -- intros (w & E & H). destruct w as [|b' w]; [discriminate|].
           cbn in E. inversion E; subst. rewrite Eab in H. eauto.
      * split; [discriminate|]. intros (w & E & H).
        destruct w as [|b' w]; [discriminate|].
        cbn in E. inversion E; subst. now rewrite Eab in H.
Qed.

Lemma strip_prefix_eqb t : forall w,
  strip_prefix Ascii.eqb t w = Some [] <-> w = t.
Proof.
  induction t as [|a t IH]; intros [|b w]; cbn; try (split; congruence).
  destruct (Ascii.eqb_spec a b) as [->|Hab].
  - rewrite IH. split; congruence.
  - split; congruence.
Qed.

Lemma in_plus_rests k rest : forall s,
  In rest (plus_rests k s) <->
  exists w, s = (w ++ rest)%list /\ w <> [] /\ forallb (in_set k) w = true.
Proof.
  induction s as [|c s IH]; cbn.
  - split; [intros []|]. intros ([|? ?] & E & H & _); [congruence|discriminate].
  - destruct (in_set k c) eqn:Ec.
    + rewrite in_app_iff, IH. cbn. split.
      * intros [(w & -> & Hw & Hf)|[<-|[]]].
        -- exists (c :: w). repeat split; [discriminate|]. cbn. now rewrite Ec.
        -- exists [c]. repeat split; [discriminate|]. cbn. now rewrite Ec.
      * intros (w & E & Hw & Hf). destruct w as [|c' w]; [congruence|].
        cbn in E. inversion E; subst. cbn in Hf. rewrite Ec in Hf.
        destruct w as [|c'' w]; [right; now left|].
        left. exists (c'' :: w). repeat split; [discriminate|assumption].
    + split; [intros []|]. intros (w & E & Hw & Hf).
      destruct w as [|c' w]; [congruence|].
      cbn in E. inversion E; subst. cbn in Hf. now rewrite Ec in Hf.
Qed.

Lemma consumed_app w rest : consumed (w ++ rest) rest = text w.
Proof.
  unfold consumed. rewrite length_app, Nat.add_sub.
  now rewrite firstn_app, Nat.sub_diag, firstn_all, app_nil_r.
Qed.

(** Every result of the matcher is a word of the pattern. *)
Lemma run_sound r : forall s c0 rest c1,
  In (rest, c1) (run r s c0) ->
  exists w, s = (w ++ rest)%list /\ matches r w c0 c1.
Proof.
  induction r as [t|t|k|k|r1 IH1 r2 IH2|r1 IH1 r2 IH2|n r IH];
    intros s c0 rest c1; cbn [run].
  - destruct (strip_prefix Ascii.eqb (chars t) s) as [rest'|] eqn:E;
      [|intros []].
    intros [[= <- <-]|[]]. apply strip_prefix_split in E.
    destruct E as (w & -> & H). apply strip_prefix_eqb in H. subst w.
    exists (chars t). split; [reflexivity|constructor].
  - destruct (strip_prefix eq_nocase (chars t) s) as [rest'|] eqn:E;
      [|intros []].
    intros [[= <- <-]|[]]. apply strip_prefix_split in E.
    destruct E as (w & -> & H). exists w. split; [reflexivity|now constructor].
  - destruct s as [|c s]; [intros []|].
    destruct (in_set k c) eqn:E; [|intros []].
    intros [[= <- <-]|[]]. exists [c]. split; [reflexivity|now constructor].
  - rewrite in_map_iff. intros (rest' & [= <- <-] & H).
    apply in_plus_rests in H. destruct H as (w & -> & Hw & Hf).
    exists w. split; [reflexivity|now constructor].
  - rewrite in_flat_map. intros ([rest1 cs1] & H1 & H2). cbn in H2.
    apply IH1 in H1. destruct H1 as (w1 & -> & M1).
    apply IH2 in H2. destruct H2 as (w2 & -> & M2).
    exists (w1 ++ w2)%list. rewrite <- app_assoc. split; [reflexivity|].
    econstructor; eassumption.
  - rewrite in_app_iff. intros [H|H].
    + apply IH1 in H. destruct H as (w & -> & M). eauto using matches.
    + apply IH2 in H. destruct H as (w & -> & M). eauto using matches.
  - rewrite in_map_iff. intros ([rest' cs'] & [= <- <-] & H).
    apply IH in H. destruct H as (w & -> & M).
    exists w. split; [reflexivity|]. cbn [fst snd]. rewrite consumed_app.
    now constructor.
Qed.


(** A group the pattern does not have keeps its text. *)
Lemma matches_other_group n r w c0 c1 :
  matches r w c0 c1 -> has_group n r = false -> lookup c1 n = lookup c0 n.
Proof.
  induction 1 as [t cs|t w cs H|k c cs H|k w cs Hw Hf
                  |r1 r2 w1 w2 c0 c1 c2 M1 IH1 M2 IH2
                  |r1 r2 w c0 c1 M IH|r1 r2 w c0 c1 M IH|m r w c0 c1 M IH];
    cbn [has_group]; try reflexivity.
  - intros H. apply orb_false_iff in H. destruct H as [H1 H2].
    now rewrite IH2, IH1.
  - intros H. apply orb_false_iff in H. now apply IH.
  - intros H. apply orb_false_iff in H. now apply IH.
  - intros H. apply orb_false_iff in H. destruct H as [H1 H2].
    cbn [lookup]. rewrite H1. now apply IH.
Qed.

Lemma match_sound r s m :
  match_ r s = Some m ->
  exists w, s = (w ++ m_rest m)%list /\ matches r w [] (m_groups m).
Proof.
  unfold match_. destruct (run r s []) as [|[rest cs] l] eqn:E; [discriminate|].
  intros [= <-]. cbn. apply run_sound. rewrite E. now left.
Qed.


Lemma search_from_sound r : forall s m,
  search_from r s = Some m ->
  exists before w, s = (before ++ w ++ m_rest m)%list
                   /\ matches r w [] (m_groups m).
Proof.
  induction s as [|c s IH]; intros m; cbn [search_from].
  - destruct (match_ r []) as [m'|] eqn:E; [|discriminate].
    intros [= <-]. apply match_sound in E. destruct E as (w & E & M).
    exists [], w. auto.
  - destruct (match_ r (c :: s)) as [m'|] eqn:E.
    + intros [= <-]. apply match_sound in E. destruct E as (w & E & M).
      exists [], w. auto.
    + intros H. apply IH in H. destruct H as (before & w & -> & M).
      exists (c :: before), w. auto.
Qed.



End Matcher.

(** ** Numerals *)

Section Numerals.
Import Py Rules.

Lemma digit_not_space c : is_digit c = true -> is_space c = false.
Proof.
  unfold is_digit, is_space. intros H.
  apply andb_true_iff in H. destruct H as [H1 H2].
  apply N.leb_le in H1, H2.
  destruct (N.leb_spec 9 (code c)), (N.leb_spec (code c) 13),
           (N.leb_spec 28 (code c)), (N.leb_spec (code c) 32);
    cbn; try reflexivity; lia.
Qed.

Lemma digit_not_sign c :
  is_digit c = true -> c <> "+"%char /\ c <> "-"%char /\ (code c =? 95)%N = false.
Proof.
  intros H. repeat split; try (intros ->; discriminate).
  unfold is_digit in H. apply andb_true_iff in H. destruct H as [H1 H2].
  apply N.leb_le in H1, H2. apply N.eqb_neq. lia.
Qed.

Lemma lstrip_digits l : forallb is_digit l = true -> lstrip l = l.
Proof.
  destruct l as [|c l]; cbn; [reflexivity|]. intros H.
  apply andb_true_iff in H. destruct H as [H _].
  now rewrite (digit_not_space c H).
Qed.

Lemma forallb_rev {A} (p : A -> bool) l : forallb p (rev l) = forallb p l.
Proof.
  induction l as [|x l IH]; cbn; [reflexivity|].
  rewrite forallb_app, IH. cbn. rewrite andb_true_r. apply andb_comm.
Qed.

Lemma strip_digits l : forallb is_digit l = true -> strip (text l) = text l.
Proof.
  intros H. unfold strip, rstrip.
  rewrite chars_text, (lstrip_digits l H), lstrip_digits, rev_involutive;
    [reflexivity|]. now rewrite forallb_rev.
Qed.

Lemma int_digits_value l : forall acc prev,
  forallb is_digit l = true -> l <> [] \/ prev = true ->
  int_digits acc prev l = Some (acc * weight l + digits_value l).
Proof.
  induction l as [|c l IH]; intros acc prev Hd Hne.
  - destruct Hne as [Hne| ->]; [congruence|]. cbn. f_equal. lia.
  - cbn in Hd. apply andb_true_iff in Hd. destruct Hd as [Hc Hl].
    cbn [int_digits weight digits_value]. rewrite Hc.
    rewrite IH by auto. f_equal. lia.
Qed.

(** [int] reads a numeral as the number it denotes. *)
Lemma int_numeral l :
  forallb is_digit l = true -> l <> [] -> int (text l) = Ok (digits_value l).
Proof.
  intros Hd Hne. unfold int. rewrite (strip_digits l Hd), chars_text.
  destruct l as [|c l]; [congruence|].
  assert (is_digit c = true) as Hc
      by (cbn in Hd; now apply andb_true_iff in Hd).
  destruct (digit_not_sign c Hc) as (Hp & Hm & _).
  assert (int_digits 0 false (c :: l) = Some (digits_value (c :: l))) as E.
  { rewrite int_digits_value by (auto; left; discriminate). reflexivity. }
  replace (match c :: l with
           | "+"%char :: l' => int_digits 0 false l'
           | "-"%char :: l' => option_map Z.opp (int_digits 0 false l')
           | _ => int_digits 0 false (c :: l)
           end) with (int_digits 0 false (c :: l)).
  - now rewrite E.
  - clear - Hp Hm.
    destruct c as [[] [] [] [] [] [] [] []]; try reflexivity; congruence.
Qed.

Lemma digit_char m :
  0 <= m < 10 ->
  is_digit (ascii_of_N (48 + Z.to_N m)) = true /\
  digit_val (ascii_of_N (48 + Z.to_N m)) = m.
Proof.
  intros H. unfold is_digit, digit_val, code.
  rewrite N_ascii_embedding by lia.
  split; [|lia].
  apply andb_true_iff. split; apply N.leb_le; lia.
Qed.

Lemma digits_of_spec fuel : forall n acc,
  0 <= n < Z.of_nat fuel -> forallb is_digit acc = true ->
  forallb is_digit (digits_of fuel n acc) = true /\
  digits_of fuel n acc <> [] /\
  digits_value (digits_of fuel n acc) = n * weight acc + digits_value acc.
Proof.
  induction fuel as [|fuel IH]; intros n acc Hn Hacc; [lia|].
  cbn [digits_of].
  assert (0 <= n mod 10 < 10) as Hm by (apply Z.mod_pos_bound; lia).
  destruct (digit_char (n mod 10) Hm) as [Hd Hv].
  destruct (Z.ltb_spec n 10) as [Hlt|Hge].
  - repeat split.
    + cbn [forallb]. now rewrite Hd.
    + discriminate.
    + cbn [digits_value]. rewrite Hv, Z.mod_small by lia. reflexivity.
  - destruct (IH (n / 10) (ascii_of_N (48 + Z.to_N (n mod 10)) :: acc))
      as (H1 & H2 & H3).
    + split; [apply Z.div_pos; lia|].
      assert (n / 10 < n) by (apply Z.div_lt; lia). lia.
    + cbn [forallb]. now rewrite Hd.
    + repeat split; try assumption.
      rewrite H3. cbn [weight digits_value]. rewrite Hv.
      pose proof (Z.div_mod n 10 ltac:(lia)). nia.
Qed.

(** [str] of a natural number is its numeral. *)
Lemma str_numeral y :
  0 <= y ->
  exists l, str y = text l /\ forallb is_digit l = true /\ l <> [] /\
            digits_value l = y.
Proof.
  intros Hy. unfold str. rewrite (proj2 (Z.ltb_ge y 0)) by lia.
  exists (digits_of (S (Z.to_nat y)) y []).
  destruct (digits_of_spec (S (Z.to_nat y)) y []) as (H1 & H2 & H3);
    [lia|reflexivity|].
  repeat split; try assumption. rewrite H3. cbn. lia.
Qed.

Lemma int_str y : 0 <= y -> int (str y) = Ok y.
Proof.
  intros Hy. destruct (str_numeral y Hy) as (l & -> & Hd & Hne & <-).
  now apply int_numeral.
Qed.

(** Two texts that agree up to their first non-digit have the same
    leading numeral. *)
Lemma numeral_prefix_unique (s p : list ascii) x q r1 r2 :
  forallb is_digit s = true -> forallb is_digit p = true ->
  is_digit x = false -> is_digit q = false ->
  (s ++ x :: r1 = p ++ q :: r2)%list -> s = p.
Proof.
  revert p. induction s as [|a s IH]; intros [|b p] Hs Hp Hx Hq E;
    cbn in *.
  - reflexivity.
  - inversion E; subst. apply andb_true_iff in Hp. destruct Hp. congruence.
  - inversion E; subst. apply andb_true_iff in Hs. destruct Hs. congruence.
  - inversion E; subst. apply andb_true_iff in Hs, Hp.
    f_equal. apply IH; tauto.
Qed.

End Numerals.

(** ** Reading a match *)

Section MatchInversion.
Import Py Re.

Lemma matches_seq_inv r1 r2 w c0 c2 :
  matches (Seq r1 r2) w c0 c2 ->
  exists w1 w2 c1,
    w = (w1 ++ w2)%list /\ matches r1 w1 c0 c1 /\ matches r2 w2 c1 c2.
Proof. inversion 1; subst. eauto 7. Qed.

Lemma matches_group_inv n r w c0 c :
  matches (Group n r) w c0 c ->
  exists c1, c = (n, text w) :: c1 /\ matches r w c0 c1.
Proof. inversion 1; subst. eauto. Qed.

Lemma matches_plus_inv k w c0 c :
  matches (Plus k) w c0 c ->
  c = c0 /\ w <> [] /\ forallb (in_set k) w = true.
Proof. inversion 1; subst. auto. Qed.

Lemma matches_one_inv k w c0 c :
  matches (One k) w c0 c -> c = c0 /\ exists ch, w = [ch] /\ in_set k ch = true.
Proof. inversion 1; subst. eauto. Qed.

Lemma matches_lit_inv t w c0 c :
  matches (Lit t) w c0 c -> c = c0 /\ w = chars t.
Proof. inversion 1; subst. auto. Qed.

Lemma matches_alt_inv r1 r2 w c0 c :
  matches (Alt r1 r2) w c0 c -> matches r1 w c0 c \/ matches r2 w c0 c.
Proof. inversion 1; subst; auto. Qed.

Lemma in_set_digit c : in_set d_ c = is_digit c.
Proof. cbn. apply orb_false_r. Qed.

Lemma in_set_space c : in_set s_ c = is_space c.
Proof. cbn. apply orb_false_r. Qed.

Lemma forallb_in_set_digit w : forallb (in_set d_) w = forallb is_digit w.
Proof.
  induction w as [|c w IH]; [reflexivity|].
  cbn [forallb]. now rewrite IH, in_set_digit.
Qed.

End MatchInversion.

Ltac inv_matches :=
  repeat match goal with
  | H : Re.matches (Re.Seq _ _) _ _ _ |- _ =>
      apply matches_seq_inv in H; destruct H as (? & ? & ? & ? & ? & ?)
  | H : Re.matches (Re.Group _ _) _ _ _ |- _ =>
      apply matches_group_inv in H; destruct H as (? & ? & ?)
  | H : Re.matches (Re.Plus _) _ _ _ |- _ =>
      apply matches_plus_inv in H; destruct H as (? & ? & ?)
  | H : Re.matches (Re.One _) _ _ _ |- _ =>
      apply matches_one_inv in H; destruct H as (? & ? & ? & ?)
  | H : Re.matches (Re.Lit _) _ _ _ |- _ =>
      apply matches_lit_inv in H; destruct H as (? & ?)
  end; subst.

(** ** [strptime] keeps the year it is given *)

Section Strptime.
Import Py Re Datetime Rules.

Lemma make_datetime_year y m d hh mm ss t :
  make_datetime y m d hh mm ss = Ok t -> dt_year t = y.
Proof.
  unfold make_datetime.
  destruct (_ || _); [discriminate|]. destruct (_ || _); [discriminate|].
  destruct (59 <? ss); [discriminate|]. now intros [= <-].
Qed.

(** The text group 1 of the format holds when the data starts with a
    year numeral followed by a blank. *)
Lemma format_year_group y rest found :
  match_ format_regex (chars (str y ++ " " ++ rest)) = Some found ->
  group found 1 = str y /\ 0 <= y.
Proof.
  intros EM. apply match_sound in EM. destruct EM as (w & Ew & M).
  unfold format_regex in M. cbn [seqs] in M.
  apply matches_seq_inv in M. destruct M as (w1 & w2 & c1 & -> & M1 & M2).
  apply matches_seq_inv in M2. destruct M2 as (wsp & w3 & c2 & -> & Msp & M3).
  apply (matches_other_group 1) in M3; [|reflexivity].
  inv_matches.
  unfold group. rewrite M3. cbn [lookup Nat.eqb].
  rewrite chars_app in Ew.
  change (chars (" " ++ rest)) with (" "%char :: chars rest) in Ew.
  destruct wsp as [|sp wsp]; [congruence|].
  repeat match goal with
         | H : in_set d_ _ = true |- _ => rewrite in_set_digit in H
         | H : forallb (in_set s_) _ = true |- _ =>
             cbn [forallb] in H; apply andb_true_iff in H; destruct H as [H _];
             rewrite in_set_space in H
         end.
  assert (is_digit sp = false) as Hsp.
  { destruct (is_digit sp) eqn:E; [|reflexivity].
    apply digit_not_space in E. congruence. }
  destruct (Z.ltb_spec y 0) as [Hneg|Hpos].
  - exfalso. unfold str in Ew. rewrite (proj2 (Z.ltb_lt y 0) Hneg) in Ew.
    cbn in Ew. inversion Ew; subst. discriminate.
  - destruct (str_numeral y Hpos) as (l & El & Hd & Hne & Hv).
    rewrite El, chars_text in Ew. split; [|assumption].
    rewrite El. f_equal. symmetry.
    apply (numeral_prefix_unique l _ " "%char sp (chars rest)
             ((wsp ++ w3) ++ m_rest found)%list);
      [exact Hd| |reflexivity|exact Hsp|exact Ew].
    cbn. now repeat match goal with H : is_digit _ = true |- _ =>
                      rewrite H; clear H end.
Qed.

Lemma strptime_year y rest t :
  strptime (str y ++ " " ++ rest) = Ok t -> dt_year t = y.
Proof.
  unfold strptime.
  destruct (match_ format_regex _) as [found|] eqn:EM; [|discriminate].
  destruct (m_rest found); [|discriminate].
  destruct (format_year_group y rest found EM) as [-> Hy].
  rewrite (int_str y Hy). cbn [rbind].
  destruct (index_from _ _ _); [|discriminate]. cbn [rbind].
  destruct (int (group found 3)); [|discriminate]. cbn [rbind].
  destruct (int (group found 4)); [|discriminate]. cbn [rbind].
  destruct (int (group found 5)); [|discriminate]. cbn [rbind].
  destruct (int (group found 6)); [|discriminate]. cbn [rbind].
  apply make_datetime_year.
Qed.

Lemma index_from_raises_value_error x l : forall i e,
  index_from i x l = Raise e -> exists msg, e = ValueError msg.
Proof.
  induction l as [|y l IH]; intros i e; cbn.
  - intros [= <-]. eauto.
  - destruct (y =? x)%string; [discriminate|apply IH].
Qed.

Lemma make_datetime_raises_value_error y m d hh mm ss e :
  make_datetime y m d hh mm ss = Raise e -> exists msg, e = ValueError msg.
Proof.
  unfold make_datetime.
  destruct (_ || _); [intros [= <-]; eauto|].
  destruct (_ || _); [intros [= <-]; eauto|].
  destruct (59 <? ss); [intros [= <-]; eauto|discriminate].
Qed.

Ltac raised E :=
  intros [= <-];
  first [eapply int_raises_value_error; exact E
        |eapply index_from_raises_value_error; exact E].

Lemma strptime_raises_value_error s e :
  strptime s = Raise e -> exists msg, e = ValueError msg.
Proof.
  unfold strptime.
  destruct (match_ format_regex _) as [found|]; [|intros [= <-]; eauto].
  destruct (m_rest found); [|intros [= <-]; eauto].
  destruct (int (group found 1)) eqn:E1; cbn [rbind]; [|raised E1].
  destruct (index_from _ _ _) eqn:E2; cbn [rbind]; [|raised E2].
  destruct (int (group found 3)) eqn:E3; cbn [rbind]; [|raised E3].
  destruct (int (group found 4)) eqn:E4; cbn [rbind]; [|raised E4].
  destruct (int (group found 5)) eqn:E5; cbn [rbind]; [|raised E5].
  destruct (int (group found 6)) eqn:E6; cbn [rbind]; [|raised E6].
  apply make_datetime_raises_value_error.
Qed.

End Strptime.

(** ** The log pattern *)

Section LogPattern.
Import Py Re Datetime Transform Rules.

(** The groups of a match of the log pattern: pid and port are numerals,
    the status is one of the two words. *)
Lemma log_pattern_groups w m :
  matches LOG_PATTERN w [] (m_groups m) ->
  (exists pid, group m 4 = text pid /\ forallb is_digit pid = true /\ pid <> [])
  /\ (exists port, group m 8 = text port /\ forallb is_digit port = true
                   /\ port <> [])
  /\ (group m 5 = "Accepted" \/ group m 5 = "Failed").
Proof.
  unfold LOG_PATTERN. cbn [seqs]. intros M. unfold group.
  inv_matches.
  match goal with H : matches (Alt _ _) _ _ _ |- _ =>
    apply matches_alt_inv in H; destruct H as [H|H] end;
    inv_matches;
    match goal with H : _ = m_groups m |- _ => rewrite <- H
                  | H : m_groups m = _ |- _ => rewrite H end;
    cbn [lookup Nat.eqb];
    (split; [|split]);
    try (eexists; split; [reflexivity|];
         split; [now rewrite <- forallb_in_set_digit|assumption]).
  - left. apply text_chars.
  - right. apply text_chars.
Qed.

Lemma search_groups line m :
  search LOG_PATTERN line = Some m ->
  (exists pid, group m 4 = text pid /\ forallb is_digit pid = true /\ pid <> [])
  /\ (exists port, group m 8 = text port /\ forallb is_digit port = true
                   /\ port <> [])
  /\ (group m 5 = "Accepted" \/ group m 5 = "Failed").
Proof.
  unfold search. intros H. apply search_from_sound in H.
  destruct H as (before & w & _ & M). eapply log_pattern_groups; eassumption.
Qed.

(** The [try] block after a successful search: the record when [strptime]
    accepts the assembled text, its [ValueError] otherwise. *)
Lemma build_record_value self line m :
  search LOG_PATTERN line = Some m ->
  exists port pid,
    int (group m 8) = Ok port /\ int (group m 4) = Ok pid /\
    build_record self m
    = match strptime (str (year self) ++ " " ++ group m 1 ++ " "
                      ++ group m 2 ++ " " ++ group m 3) with
      | Ok t => Ok (mkParsed t (group m 5) (group m 6) (group m 7) port pid)
      | Raise e => Raise e
      end.
Proof.
  intros H. destruct (search_groups line m H)
    as ((pid & Epid & Dpid & Npid) & (port & Eport & Dport & Nport) & _).
  exists (digits_value port), (digits_value pid).
  assert (int (group m 8) = Ok (digits_value port)) as I8
      by (rewrite Eport; now apply int_numeral).
  assert (int (group m 4) = Ok (digits_value pid)) as I4
      by (rewrite Epid; now apply int_numeral).
  repeat split; try assumption.
  unfold build_record. destruct (strptime _); cbn [rbind]; [|reflexivity].
  now rewrite I8, I4.
Qed.



(** What one call does to the transformer: nothing when the line parses,
    one stored sample (if the buffer has room) when it does not. *)
Lemma parse_log_line_effect self line :
  match outcome (year self) line with
  | Some p => parse_log_line self line = Ok (Some p, self)
  | None =>
      exists reason,
        diagnostic (year self) line = [strip line ++ reason] /\
        parse_log_line self line
        = Ok (None, store_sample self (strip line ++ reason))
  end.
Proof.
  unfold outcome, diagnostic, parse_log_line.
  destruct (search LOG_PATTERN line) as [m|] eqn:Es.
  - change (build_record (fresh (year self)) m) with (build_record self m).
    destruct (build_record self m) as [p|e] eqn:Eb; [reflexivity|].
    destruct (build_record_value self line m Es) as (port & pid & _ & _ & E).
    rewrite E in Eb. destruct (strptime _) as [t|e'] eqn:Et; [discriminate|].
    injection Eb as ->.
    destruct (strptime_raises_value_error _ _ Et) as [msg ->].
    cbn [fst snd]. eexists. split; reflexivity.
  - cbn [fst snd]. exists "". split.
    + unfold store_sample. cbn. f_equal.
      induction (strip line) as [|c t IH]; cbn; [reflexivity|].
      now rewrite <- IH at 1.
    + f_equal. f_equal. f_equal.
      induction (strip line) as [|c t IH]; cbn; [reflexivity|].
      now rewrite <- IH at 1.
Qed.




End LogPattern.

(** ** Runs of the transformer *)

Section Runs.
Import Py Re Datetime Transform Rules.

Lemma rows_of_total l :
  exists df, rows_of l = Ok df /\ Forall2 (fun p e => to_row p = Ok e) l df.
Proof.
  induction l as [|p l (df & E & F)]; cbn [rows_of].
  - exists []. split; [reflexivity|constructor].
  - assert (exists e, to_row p = Ok e) as [e Ee].
    { unfold to_row. rewrite is_internal_ip_value. cbn [rbind]. eauto. }
    rewrite Ee, E. cbn [rbind]. exists (e :: df). split; [reflexivity|].
    now constructor.
Qed.

(** The loop over the lines, from any state of the transformer. *)
Lemma parse_all_spec lines : forall self acc,
  exists self',
    parse_all self acc lines
    = Ok ((acc ++ parsed_records (year self) lines)%list, self') /\
    year self' = year self /\
    parsed_count self'
    = parsed_count self
      + Z.of_nat (List.length (parsed_records (year self) lines)) /\
    failed_count self'
    = failed_count self
      + Z.of_nat (List.length (filter (rejected (year self)) lines)) /\
    failed_samples self'
    = (failed_samples self
       ++ flat_map (diagnostic (year self))
            (firstn (Z.to_nat (5 - failed_count self))
                    (filter (rejected (year self)) lines)))%list.
Proof.
  induction lines as [|line lines IH]; intros self acc.
  - exists self. cbn. rewrite firstn_nil, !app_nil_r. repeat split; lia.
  - cbn [parse_all parsed_records flat_map filter].
    pose proof (parse_log_line_effect self line) as Eff.
    assert (rejected (year self) line
            = match outcome (year self) line with
              | Some _ => false
              | None => true
              end) as Er by reflexivity.
    destruct (outcome (year self) line) as [p|]; rewrite Er.
    + rewrite Eff. cbn [rbind fst snd].
      destruct (IH (mkTransformer (parsed_count self + 1) (failed_count self)
                                  (failed_samples self) (year self))
                   (acc ++ [p])%list) as (self' & E & Hy & Hp & Hf & Hs).
      cbn [year parsed_count failed_count failed_samples] in *.
      exists self'. rewrite E, <- app_assoc. fold (parsed_records (year self) lines).
      repeat split; try assumption.
      rewrite Hp, length_app. cbn [List.length]. lia.
    + cbn [app].
      destruct Eff as (reason & Ed & Eff). rewrite Eff. cbn [rbind fst snd].
      destruct (IH (mkTransformer
                      (parsed_count (store_sample self (strip line ++ reason)))
                      (failed_count (store_sample self (strip line ++ reason)) + 1)
                      (failed_samples (store_sample self (strip line ++ reason)))
                      (year (store_sample self (strip line ++ reason))))
                   acc) as (self' & E & Hy & Hp & Hf & Hs).
      assert (year (store_sample self (strip line ++ reason)) = year self
              /\ parsed_count (store_sample self (strip line ++ reason))
                 = parsed_count self
              /\ failed_count (store_sample self (strip line ++ reason))
                 = failed_count self) as (Y & P & C)
          by (unfold store_sample; destruct (failed_count self <? 5); auto).
      cbn [year parsed_count failed_count failed_samples] in E, Hy, Hp, Hf, Hs.
      rewrite Y, P, C in *.
      exists self'. fold (parsed_records (year self) lines).
      rewrite E. repeat split; try assumption.
      * cbn [List.length]. lia.
      * rewrite Hs. unfold store_sample.
        destruct (Z.ltb_spec (failed_count self) 5) as [Lt|Ge].
        -- cbn [failed_samples].
           replace (Z.to_nat (5 - failed_count self))
             with (S (Z.to_nat (5 - (failed_count self + 1)))) by lia.
           cbn [firstn flat_map]. rewrite Ed, <- app_assoc. reflexivity.
        -- replace (Z.to_nat (5 - failed_count self)) with O by lia.
           replace (Z.to_nat (5 - (failed_count self + 1))) with O by lia.
           reflexivity.
Qed.

Lemma diagnostic_rejected y line :
  rejected y line = true ->
  exists reason, diagnostic y line = [strip line ++ reason].
Proof.
  unfold rejected. intros H.
  pose proof (parse_log_line_effect (fresh y) line) as Eff.
  cbn [year fresh] in Eff. destruct (outcome y line); [discriminate|].
  destruct Eff as (reason & E & _). eauto.
Qed.

Lemma in_firstn {A} n (x : A) l : In x (firstn n l) -> In x l.
Proof.
  intros H. rewrite <- (firstn_skipn n l). apply in_or_app. now left.
Qed.

Lemma length_diagnostics y l :
  Forall (fun line => rejected y line = true) l ->
  List.length (flat_map (diagnostic y) l) = List.length l.
Proof.
  induction 1 as [|line l H F IH]; cbn; [reflexivity|].
  destruct (diagnostic_rejected y line H) as (reason & ->). cbn. now rewrite IH.
Qed.

(** C9. A run of [transform_logs] on a new transformer ends normally; the
    rows of the frame are those of the lines that parse, in input order,
    and no others; [parsed_count] and [failed_count] are the numbers of
    parsed and of rejected lines; the sample buffer holds at most 5
    entries, one for each of the first 5 rejected lines in input order,
    each made of the stripped text of its line followed by the reason
    (empty when the pattern is not found). *)
Theorem transform_logs_accounting (year_arg : option Z) (now_year : Z)
    (raw_logs : list string) :
  let self := init year_arg now_year in
  let rejects := filter (rejected (year self)) raw_logs in
  exists df self',
    transform_logs self raw_logs = Ok (df, self') /\
    Forall2 (fun p e => to_row p = Ok e)
            (parsed_records (year self) raw_logs) df /\
    parsed_count self'
    = Z.of_nat (List.length (parsed_records (year self) raw_logs)) /\
    failed_count self' = Z.of_nat (List.length rejects) /\
    (List.length (failed_samples self') <= 5)%nat /\
    failed_samples self'
    = flat_map (diagnostic (year self)) (firstn 5 rejects) /\
    Forall (fun line => exists reason,
                          diagnostic (year self) line = [strip line ++ reason])
           rejects.
Proof.
  cbv zeta. set (self := init year_arg now_year).
  destruct (parse_all_spec raw_logs self []) as (self' & E & Hy & Hp & Hf & Hs).
  assert (parsed_count self = 0 /\ failed_count self = 0
          /\ failed_samples self = []) as (P0 & F0 & S0) by (now unfold self).
  rewrite P0 in Hp. rewrite F0 in Hf, Hs. rewrite S0 in Hs.
  cbn [app Z.add] in E, Hp, Hf, Hs.
  change (Z.to_nat (5 - 0)) with 5%nat in Hs.
  assert (Forall (fun line => rejected (year self) line = true)
                 (filter (rejected (year self)) raw_logs)) as R.
  { apply Forall_forall. intros l Hl. now apply filter_In in Hl. }
  destruct (rows_of_total (parsed_records (year self) raw_logs))
    as (df & Edf & Fdf).
  exists df, self'. unfold transform_logs. rewrite E. cbn [rbind fst snd].
  split; [|split; [|split; [|split; [|split; [|split]]]]];
    try assumption.
  - destruct (parsed_records (year self) raw_logs) eqn:Ep.
    + cbn in Edf. now injection Edf as <-.
    + now rewrite Edf.
  - rewrite Hs, length_diagnostics.
    + apply firstn_le_length.
    + apply Forall_forall. intros l Hl. apply in_firstn in Hl.
      rewrite Forall_forall in R. auto.
  - eapply Forall_impl; [|exact R]. intros l. apply diagnostic_rejected.
Qed.

End Runs.

(** ** The scenarios of the specification *)

Section Scenarios.
Import Py Transform Detect Samples.

Example twelve_failures_in_five_minutes :
  map (fun r => (bf_source_ip r, bf_failed_count r, bf_severity r))
      (detect_brute_force default_detector (burst 12 25 "8.8.8.8"))
  = [("8.8.8.8", 12, Some MEDIUM)].
Proof. vm_compute. reflexivity. Qed.

Example sixty_failures_are_critical :
  map (fun r => (bf_failed_count r, bf_severity r))
      (detect_brute_force default_detector (burst 60 5 "8.8.8.8"))
  = [(60, Some CRITICAL)].
Proof. vm_compute. reflexivity. Qed.

Example same_second_failures_rate :
  map (fun r => (bf_failed_count r, bf_duration_minutes r,
                 bf_attempts_per_hour r))
      (detect_brute_force default_detector (burst 10 0 "8.8.8.8"))
  = [(10, (0 # 60)%Q, inject_Z 10)].
Proof. vm_compute. reflexivity. Qed.

Example six_failures_then_success :
  detect_successful_after_many_failures
    (burst 6 10 "8.8.8.8" ++ [event 100 "root" "8.8.8.8" false])%list
  = [mkBreach "8.8.8.8" "root" 6 100 "POSSIBLE_BREACH" HIGH].
Proof. vm_compute. reflexivity. Qed.

Example failures_only_no_breach :
  detect_successful_after_many_failures (burst 6 10 "8.8.8.8") = [].
Proof. vm_compute. reflexivity. Qed.

Example end_to_end_scenario :
  let report :=
    fst (generate_full_report default_detector (burst 15 40 "45.142.212.61")) in
  map (fun r => (bf_failed_count r, bf_severity r)) (brute_force_attacks report)
  = [(15, Some MEDIUM)] /\
  map (fun r => (va_username r, va_attempts r))
      (vulnerable_account_targeting report)
  = [("admin", 7); ("root", 8)] /\
  geographic_anomalies report
  = [mkGeo "45.142.212.61" "Eastern Europe" 15 15 0 "GEOGRAPHIC_ANOMALY" HIGH]
  /\ possible_breaches report = [] /\
  summary report
  = [("total_anomalies", 4); ("critical_threats", 0);
     ("brute_force_count", 1); ("vulnerable_account_count", 2);
     ("geographic_count", 1); ("breach_count", 0)].
Proof. vm_compute. repeat split. Qed.

Example self_test_of_the_transformer :
  match transform_logs transformer_2024 test_logs with
  | Ok (df, self') =>
      map (fun e => (username e, is_internal_ip e, is_failed_login e)) df
      = [("admin", false, true); ("john.doe", true, false);
         ("test_user", true, true)] /\
      parsed_count self' = 3 /\ failed_count self' = 1 /\
      failed_samples self' = ["MALFORMED LOG ENTRY"]
  | Raise _ => False
  end.
Proof. vm_compute. repeat split. Qed.

End Scenarios.

(* ================================================================== *)
(** * Part III: further properties *)
(* ================================================================== *)

(** ** Order of the rows *)

Section RowOrder.
Import Pandas Detect Rules.

Lemma string_leb_trans a b c :
  String.leb a b = true -> String.leb b c = true -> String.leb a c = true.
Proof.
  unfold String.leb. intros H1 H2.
  destruct (String.compare a b) eqn:E1; try discriminate;
    destruct (String.compare b c) eqn:E2; try discriminate.
  - apply String.compare_eq_iff in E1. subst. now rewrite E2.
  - apply String.compare_eq_iff in E1. subst. now rewrite E2.
  - apply String.compare_eq_iff in E2. subst. now rewrite E1.
  - now rewrite (string_compare_lt_trans _ _ _ E1 E2).
Qed.

Lemma string_leb_total a b : String.leb a b = false -> String.leb b a = true.
Proof.
  intros H. destruct (String.leb_total a b) as [H'|H']; congruence.
Qed.

Lemma string_leb_ltb a b : String.leb a b = true -> a <> b -> String.ltb a b = true.
Proof.
  unfold String.leb, String.ltb. intros H N.
  destruct (String.compare a b) eqn:E; try reflexivity; try discriminate.
  apply String.compare_eq_iff in E. contradiction.
Qed.

Lemma pair_leb_trans a b c :
  pair_leb a b = true -> pair_leb b c = true -> pair_leb a c = true.
Proof.
  unfold pair_leb.
  rewrite !orb_true_iff, !andb_true_iff, !String.eqb_eq.
  intros [H1|[H1 L1]] [H2|[H2 L2]].
  - left. eapply string_ltb_trans; eassumption.
  - left. now rewrite <- H2.
  - left. now rewrite H1.
  - right. split; [congruence|]. eapply string_leb_trans; eassumption.
Qed.

Lemma pair_leb_total a b : pair_leb a b = false -> pair_leb b a = true.
Proof.
  unfold pair_leb.
  rewrite orb_false_iff, andb_false_iff, orb_true_iff, andb_true_iff.
  rewrite String.eqb_eq, String.eqb_neq. intros [H1 H2].
  destruct (string_trichotomy (fst a) (fst b)) as [H|[H|H]].
  - congruence.
  - right. split; [congruence|]. destruct H2; [contradiction|].
    now apply string_leb_total.
  - now left.
Qed.

Lemma StronglySorted_strict {A} (R : A -> A -> Prop) l :
  StronglySorted R l -> NoDup l ->
  StronglySorted (fun a b => R a b /\ a <> b) l.
Proof.
  induction 1 as [|x l Hl IH Hx]; intros ND; constructor;
    inversion ND as [|? ? Hin ND']; subst.
  - now apply IH.
  - rewrite Forall_forall in *. intros y Hy. split; [now apply Hx|].
    intros ->. contradiction.
Qed.

Lemma StronglySorted_filter {A} (R : A -> A -> Prop) (p : A -> bool) l :
  StronglySorted R l -> StronglySorted R (filter p l).
Proof.
  induction 1 as [|x l Hl IH Hx]; cbn; [constructor|].
  destruct (p x); [|assumption]. constructor; [assumption|].
  rewrite Forall_forall in *. intros y Hy. apply filter_In in Hy.
  now apply Hx.
Qed.

(** The keys of [groupby] come in strictly ascending order. *)
Lemma group_keys_ascending {A K} (keqb kleb : K -> K -> bool)
    (key : A -> K) (df : list A) :
  (forall x y, keqb x y = true <-> x = y) ->
  (forall a b c, kleb a b = true -> kleb b c = true -> kleb a c = true) ->
  (forall a b, kleb a b = false -> kleb b a = true) ->
  StronglySorted (fun a b => kleb a b = true /\ a <> b)
                 (group_keys keqb kleb key df).
Proof.
  intros Heq Htrans Htotal. apply StronglySorted_strict.
  - apply sort_strongly; assumption.
  - now apply NoDup_keys.
Qed.

Lemma map_key_rows {K B} (row : K -> B) (rkey : B -> K) (keep : B -> bool) ks :
  (forall k, rkey (row k) = k) ->
  map rkey (filter keep (map row ks)) = filter (fun k => keep (row k)) ks.
Proof.
  intros H. induction ks as [|k ks IH]; cbn; [reflexivity|].
  destruct (keep (row k)); cbn; now rewrite ?H, IH.
Qed.

Lemma brute_force_addresses self df :
  map bf_source_ip (detect_brute_force self df)
  = filter (fun k => is_brute_force self
                       (aggregate k (filter (fun r => (source_ip r =? k)%string)
                                            (filter is_failed_login df))))
           (group_keys String.eqb String.leb source_ip
                       (filter is_failed_login df)).
Proof.
  unfold detect_brute_force.
  assert (forall l, map bf_source_ip (map classify l) = map g_source_ip l) as Mc
      by (intros l; rewrite map_map; reflexivity).
  destruct df as [|e0 df0]; [reflexivity|].
  destruct (filter is_failed_login (e0 :: df0)) as [|f0 fl] eqn:EF;
    [reflexivity|].
  rewrite match_nil_map, Mc, <- EF.
  rewrite (groupby_keys String.eqb String.leb), map_map. cbn [fst snd].
  apply (map_key_rows
           (fun k => aggregate k (filter (fun r => (source_ip r =? k)%string)
                                         (filter is_failed_login (e0 :: df0))))
           g_source_ip (is_brute_force self)).
  reflexivity.
Qed.

Lemma vulnerable_pairs df :
  map (fun r => (va_source_ip r, va_username r)) (detect_unusual_usernames df)
  = filter
      (fun k => 5 <=? Z.of_nat (List.length
                  (filter (fun e => pair_eqb (source_ip e, username e) k)
                     (filter (fun e => isin String.eqb (username e)
                                            vulnerable_accounts
                                       && is_failed_login e) df))))
      (group_keys pair_eqb pair_leb (fun e => (source_ip e, username e))
         (filter (fun e => isin String.eqb (username e) vulnerable_accounts
                           && is_failed_login e) df)).
Proof.
  unfold detect_unusual_usernames.
  destruct df as [|e0 df0]; [reflexivity|].
  rewrite match_nil_map, map_map. cbn [va_source_ip va_username].
  rewrite (groupby_keys pair_eqb pair_leb), map_map. cbn [fst snd].
  set (F := filter _ (e0 :: df0)).
  rewrite (map_ext _ fst) by (intros [[a b] n]; reflexivity).
  apply (map_key_rows
           (fun k => (k, Z.of_nat (List.length
                           (filter (fun e => pair_eqb (source_ip e, username e) k)
                                   F))))
           fst (fun r => 5 <=? snd r)).
  reflexivity.
Qed.

Lemma map_flat_map_key {K B} (f : K -> list B) (rkey : B -> K) ks :
  (forall k, f k = [] \/ exists b, f k = [b] /\ rkey b = k) ->
  map rkey (flat_map f ks)
  = filter (fun k => match f k with [] => false | _ => true end) ks.
Proof.
  intros H. induction ks as [|k ks IH]; cbn; [reflexivity|].
  rewrite map_app, IH.
  destruct (H k) as [E|(b & E & Eb)]; rewrite E; cbn; [reflexivity|].
  now rewrite Eb.
Qed.

(** X1. The three detectors that group their input return their rows in
    strictly ascending order of the key, so no key has two rows: the
    brute-force and breach tables by address, the vulnerable-account
    table by address and then user name. *)
Theorem grouped_detectors_ascending (self : IntrusionDetector)
    (df : list Event) :
  StronglySorted (fun a b => String.leb a b = true /\ a <> b)
                 (map bf_source_ip (detect_brute_force self df)) /\
  StronglySorted (fun a b => pair_leb a b = true /\ a <> b)
                 (map (fun r => (va_source_ip r, va_username r))
                      (detect_unusual_usernames df)) /\
  StronglySorted (fun a b => String.leb a b = true /\ a <> b)
                 (map br_source_ip (detect_successful_after_many_failures df)).
Proof.
  split; [|split].
  - rewrite brute_force_addresses. apply StronglySorted_filter.
    apply group_keys_ascending;
      [apply String.eqb_eq|apply string_leb_trans|apply string_leb_total].
  - rewrite vulnerable_pairs. apply StronglySorted_filter.
    apply group_keys_ascending;
      [apply pair_eqb_eq|apply pair_leb_trans|apply pair_leb_total].
  - unfold detect_successful_after_many_failures.
    destruct df as [|e0 df0]; [constructor|]. cbv zeta.
    rewrite (groupby_keys String.eqb String.leb).
    rewrite flat_map_concat_map, !map_map, <- flat_map_concat_map.
    cbn [fst snd].
    rewrite (map_flat_map_key _ br_source_ip).
    + apply StronglySorted_filter.
      apply group_keys_ascending;
        [apply String.eqb_eq|apply string_leb_trans|apply string_leb_total].
    + intros k. destruct (_ && _); [|now left].
      destruct (loc k _); [|now left]. right. eauto.
Qed.

End RowOrder.

(** ** The rows of the brute-force table *)

Section BruteForceRows.
Import Pandas Detect Rules.

Lemma in_own_rows {B} (rkey : B -> string) (r : B) l :
  In r l -> In r (filter (fun b => (rkey b =? rkey r)%string) l).
Proof. intros H. apply filter_In. split; [assumption|apply String.eqb_refl]. Qed.

(** Every row is the aggregate of the Failed events of its address. *)
Lemma brute_force_row_inv self df r :
  In r (detect_brute_force self df) ->
  let F := ip_failures df (bf_source_ip r) in
  F <> [] /\ r = classify (aggregate (bf_source_ip r) F) /\
  is_brute_force self (aggregate (bf_source_ip r) F) = true.
Proof.
  intros H. apply (in_own_rows bf_source_ip) in H.
  rewrite brute_force_rows in H. cbv zeta in *.
  destruct (ip_failures df (bf_source_ip r)) as [|f0 F'] eqn:EF;
    [destruct H|].
  cbn [List.length Nat.eqb negb andb] in H.
  destruct (is_brute_force self _) eqn:E; [|destruct H].
  destruct H as [<-|[]]. repeat split. discriminate.
Qed.

(** X2. Every row of the brute-force table has at least one failure and
    a severity, which its failed_count alone decides: MEDIUM up to 25
    failures, HIGH from 26 to 50, CRITICAL above 50. *)
Theorem brute_force_severity (self : IntrusionDetector) (df : list Event)
    (r : BruteForceAnomaly) :
  In r (detect_brute_force self df) ->
  1 <= bf_failed_count r /\
  bf_severity r
  = Some (if bf_failed_count r <=? 25 then MEDIUM
          else if bf_failed_count r <=? 50 then HIGH else CRITICAL).
Proof.
  intros H. destruct (brute_force_row_inv self df r H) as (NE & E & _).
  set (F := ip_failures df (bf_source_ip r)) in *. rewrite E.
  cbn [bf_failed_count bf_severity classify].
  destruct (aggregate_figures (bf_source_ip r) F) as (-> & _).
  assert (1 <= Z.of_nat (List.length F)) as L
      by (destruct F; [congruence|cbn [List.length]; lia]).
  split; [exact L|]. unfold cut_severity.
  destruct (Z.leb_spec (Z.of_nat (List.length F)) 0); [lia|].
  now destruct (Z.of_nat (List.length F) <=? 25),
               (Z.of_nat (List.length F) <=? 50).
Qed.

Lemma brute_force_severity_witness :
  In Samples.burst_row
     (detect_brute_force default_detector (Samples.burst 12 25 "8.8.8.8")) /\
  1 <= 12 /\ Some MEDIUM = Some MEDIUM.
Proof.
  split; [vm_compute; left; reflexivity|].
  apply (brute_force_severity default_detector
           (Samples.burst 12 25 "8.8.8.8")
           Samples.burst_row).
  vm_compute. left. reflexivity.
Defined.

(** X3. The targeted users of a row are the user names of the Failed
    events of its address, each listed once, and num_users_targeted is
    their number, which is at least 1 and at most failed_count. *)
Theorem brute_force_targeted_users (self : IntrusionDetector)
    (df : list Event) (r : BruteForceAnomaly) :
  In r (detect_brute_force self df) ->
  NoDup (bf_targeted_users r) /\
  (forall u, In u (bf_targeted_users r) <->
             exists e, In e df /\ is_failed_login e = true /\
                       source_ip e = bf_source_ip r /\ username e = u) /\
  bf_num_users_targeted r = List.length (bf_targeted_users r) /\
  (1 <= bf_num_users_targeted r)%nat /\
  Z.of_nat (bf_num_users_targeted r) <= bf_failed_count r.
Proof.
  intros H. destruct (brute_force_row_inv self df r H) as (NE & E & _).
  set (F := ip_failures df (bf_source_ip r)) in *.
  assert (bf_targeted_users r = unique String.eqb (map username F)) as EU
      by (rewrite E; reflexivity).
  assert (bf_num_users_targeted r = List.length (bf_targeted_users r)) as EN
      by (rewrite E; reflexivity).
  assert (bf_failed_count r = Z.of_nat (List.length F)) as EC
      by (rewrite E; reflexivity).
  assert (forall u, In u (bf_targeted_users r) <-> In u (map username F)) as M
      by (intros u; rewrite EU; apply (in_unique String.eqb String.eqb_eq)).
  split; [|split; [|split; [|split]]].
  - rewrite EU. apply (NoDup_unique String.eqb String.eqb_eq).
  - intros u. rewrite M, in_map_iff. unfold F, ip_failures. split.
    + intros (e & Eu & He). apply filter_In in He. destruct He as [He Hb].
      apply andb_true_iff in Hb. destruct Hb as [Hf Hip].
      apply String.eqb_eq in Hip. eauto.
    + intros (e & He & Hf & Hip & Eu). exists e. split; [assumption|].
      apply filter_In. split; [assumption|].
      rewrite Hf, Hip. apply String.eqb_refl.
  - exact EN.
  - rewrite EN. destruct F as [|f0 F'] eqn:EF; [congruence|].
    assert (In (username f0) (bf_targeted_users r)) as Hin
        by (apply M; now left).
    destruct (bf_targeted_users r); [destruct Hin|cbn; lia].
  - rewrite EN, EC, EU. apply inj_le.
    rewrite <- (length_map username F).
    apply NoDup_incl_length.
    + apply (NoDup_unique String.eqb String.eqb_eq).
    + intros u Hu.
      exact (proj1 (in_unique String.eqb String.eqb_eq u _) Hu).
Qed.

Lemma brute_force_targeted_users_witness :
  In Samples.burst_row
     (detect_brute_force default_detector (Samples.burst 12 25 "8.8.8.8")) /\
  NoDup ["root"; "admin"] /\ (2 = 2)%nat.
Proof.
  split; [vm_compute; left; reflexivity|].
  destruct (brute_force_targeted_users default_detector
              (Samples.burst 12 25 "8.8.8.8")
              Samples.burst_row)
    as (ND & _ & EN & _).
  - vm_compute. left. reflexivity.
  - split; [exact ND|exact EN].
Defined.

End BruteForceRows.

(** ** The geographic table, and what the tables say about each other *)

Section CrossDetector.
Import Pandas Detect Rules.

(** X4. The geographic table lists the external addresses that start
    with a prefix of the table in the order in which they first appear
    among the external events of the frame, each once. *)
Theorem geographic_rows_order (df : list Event) :
  map geo_source_ip (detect_geographic_anomalies df)
  = filter (fun ip => match first_matching_range ip suspicious_ranges with
                      | Some _ => true
                      | None => false
                      end)
           (unique String.eqb
              (map source_ip (filter (fun e => negb (is_internal_ip e)) df)))
  /\ NoDup (map geo_source_ip (detect_geographic_anomalies df)).
Proof.
  assert (map geo_source_ip (detect_geographic_anomalies df)
          = filter (fun ip => match first_matching_range ip suspicious_ranges with
                              | Some _ => true
                              | None => false
                              end)
              (unique String.eqb
                 (map source_ip
                      (filter (fun e => negb (is_internal_ip e)) df)))) as E.
  { unfold detect_geographic_anomalies.
    destruct df as [|e0 df0]; [reflexivity|].
    rewrite geo_loop;
      [|apply (NoDup_unique String.eqb String.eqb_eq)|intros x _ []].
    cbn [app]. rewrite (map_flat_map_key _ geo_source_ip).
    - apply filter_ext. intros ip. unfold geo_rows.
      now destruct (first_matching_range ip suspicious_ranges).
    - intros k. unfold geo_rows.
      destruct (first_matching_range k suspicious_ranges); [|now left].
      right. eauto. }
  split; [exact E|]. rewrite E. apply NoDup_filter.
  apply (NoDup_unique String.eqb String.eqb_eq).
Qed.

(** The rows of the vulnerable-account table for one pair. *)
Lemma vulnerable_rows df ip u :
  filter (fun r => pair_eqb (va_source_ip r, va_username r) (ip, u))
         (detect_unusual_usernames df)
  = let attempts := Z.of_nat (List.length (pair_failures df ip u)) in
    if isin String.eqb u vulnerable_accounts && (5 <=? attempts)
    then [mkVulnerable ip u attempts "VULNERABLE_ACCOUNT_TARGETING"
                       (if 20 <? attempts then HIGH else MEDIUM)]
    else [].
Proof.
  cbv zeta. unfold detect_unusual_usernames.
  destruct df as [|e0 df0]; [now rewrite andb_false_r|].
  set (df := e0 :: df0). rewrite match_nil_map, filter_map_comm.
  cbn [va_source_ip va_username].
  rewrite (filter_ext _ (fun r => pair_eqb (fst r) (ip, u))) by reflexivity.
  rewrite (select_group pair_eqb pair_leb pair_eqb_eq
             (fun e => (source_ip e, username e)) _
             (fun k g => (k, Z.of_nat (List.length g)))
             (fun r => 5 <=? snd r) (ip, u) fst) by reflexivity.
  cbv zeta. rewrite vulnerable_group. cbn [snd].
  destruct (isin String.eqb u vulnerable_accounts); cbn [andb];
    [|reflexivity].
  destruct (5 <=? Z.of_nat (List.length (pair_failures df ip u))) eqn:E;
    [|now rewrite andb_false_r].
  apply Z.leb_le in E.
  destruct (List.length (pair_failures df ip u)); [lia|]. reflexivity.
Qed.

(** The rows of the geographic table for one address. *)
Lemma geographic_rows df ip :
  filter (fun r => (geo_source_ip r =? ip)%string)
         (detect_geographic_anomalies df)
  = if existsb (fun e => negb (is_internal_ip e))
               (filter (fun e => (source_ip e =? ip)%string) df)
    then geo_rows df ip else [].
Proof.
  unfold detect_geographic_anomalies.
  destruct df as [|e0 df0]; [reflexivity|]. set (df := e0 :: df0).
  rewrite geo_loop;
    [|apply (NoDup_unique String.eqb String.eqb_eq)|intros x _ []].
  cbn [app]. rewrite (filter_flat_map_key (geo_rows df) geo_source_ip).
  - now rewrite existsb_external.
  - apply (NoDup_unique String.eqb String.eqb_eq).
  - intros k b. unfold geo_rows.
    destruct (first_matching_range k suspicious_ranges);
      [intros [<-|[]]; reflexivity|intros []].
Qed.

Lemma length_filter_le {A} (p : A -> bool) l :
  (List.length (filter p l) <= List.length l)%nat.
Proof.
  induction l as [|x l IH]; cbn; [lia|]. destruct (p x); cbn; lia.
Qed.

Lemma length_filter_weaker {A} (p q : A -> bool) l :
  (forall x, p x = true -> q x = true) ->
  (List.length (filter p l) <= List.length (filter q l))%nat.
Proof.
  intros H. induction l as [|x l IH]; cbn; [lia|].
  destruct (p x) eqn:P.
  - rewrite (H x P). cbn. lia.
  - destruct (q x); cbn; lia.
Qed.

Lemma filter_perm {A} (p : A -> bool) l l' :
  Permutation l l' -> Permutation (filter p l) (filter p l').
Proof.
  induction 1 as [|x l l' P IH|x y l|l l' l'' P1 IH1 P2 IH2]; cbn.
  - constructor.
  - destruct (p x); [now constructor|assumption].
  - destruct (p x), (p y); try reflexivity. apply perm_swap.
  - etransitivity; eassumption.
Qed.

Lemma before_first_success_failed l :
  before_first_success l = filter is_failed_login (before_first_success l).
Proof.
  induction l as [|e l IH]; cbn; [reflexivity|].
  destruct (is_failed_login e) eqn:E; cbn; [|reflexivity].
  now rewrite E, <- IH.
Qed.

Lemma before_first_success_le l :
  (List.length (before_first_success l)
   <= List.length (filter is_failed_login l))%nat.
Proof.
  induction l as [|e l IH]; cbn; [lia|].
  destruct (is_failed_login e); cbn; lia.
Qed.

(** An address with at least [threshold] failures, and at least one, has
    a brute-force row. *)
Lemma many_failures_flagged self df ip :
  (1 <= List.length (ip_failures df ip))%nat ->
  brute_force_threshold self <= Z.of_nat (List.length (ip_failures df ip)) ->
  In ip (map bf_source_ip (detect_brute_force self df)).
Proof.
  intros H1 H2.
  assert (In (classify (aggregate ip (ip_failures df ip)))
             (filter (fun r => (bf_source_ip r =? ip)%string)
                     (detect_brute_force self df))) as Hin.
  { rewrite brute_force_rows. cbv zeta.
    assert (is_brute_force self (aggregate ip (ip_failures df ip)) = true) as B.
    { unfold is_brute_force.
      destruct (aggregate_figures ip (ip_failures df ip)) as (-> & _).
      apply orb_true_iff. left. now apply Z.leb_le. }
    rewrite B. destruct (ip_failures df ip); [cbn in H1; lia|]. now left. }
  apply filter_In in Hin. destruct Hin as [Hin _].
  apply in_map_iff. eexists. split; [|exact Hin]. reflexivity.
Qed.

(** X5. The failure counts the other three tables report are failures of
    the same address, so whenever one of them reports at least
    [brute_force_threshold] failures for an address (and at least one),
    the brute-force table has a row for that address. *)
Theorem reported_failures_in_brute_force (self : IntrusionDetector)
    (df : list Event) :
  (forall v, In v (detect_unusual_usernames df) ->
     va_attempts v
     <= Z.of_nat (List.length (ip_failures df (va_source_ip v))) /\
     (brute_force_threshold self <= va_attempts v ->
      In (va_source_ip v) (map bf_source_ip (detect_brute_force self df)))) /\
  (forall b, In b (detect_successful_after_many_failures df) ->
     br_failed_attempts_before_success b
     <= Z.of_nat (List.length (ip_failures df (br_source_ip b))) /\
     (brute_force_threshold self <= br_failed_attempts_before_success b ->
      In (br_source_ip b) (map bf_source_ip (detect_brute_force self df)))) /\
  (forall g, In g (detect_geographic_anomalies df) ->
     geo_failed_attempts g
     = Z.of_nat (List.length (ip_failures df (geo_source_ip g))) /\
     (1 <= geo_failed_attempts g ->
      brute_force_threshold self <= geo_failed_attempts g ->
      In (geo_source_ip g) (map bf_source_ip (detect_brute_force self df)))).
Proof.
  split; [|split].
  - intros v Hv.
    assert (In v (filter (fun r => pair_eqb (va_source_ip r, va_username r)
                                            (va_source_ip v, va_username v))
                         (detect_unusual_usernames df))) as Hin.
    { apply filter_In. split; [assumption|]. now apply pair_eqb_eq. }
    rewrite vulnerable_rows in Hin. cbv zeta in Hin.
    destruct (isin String.eqb _ _ && _) eqn:C; [|destruct Hin].
    apply andb_true_iff in C. destruct C as [_ C]. apply Z.leb_le in C.
    destruct Hin as [E|[]].
    assert (va_attempts v
            = Z.of_nat (List.length (pair_failures df (va_source_ip v)
                                                   (va_username v)))) as EA
        by (rewrite <- E at 1; reflexivity).
    assert (va_attempts v
            <= Z.of_nat (List.length (ip_failures df (va_source_ip v)))) as LE.
    { rewrite EA. apply inj_le. unfold pair_failures, ip_failures.
      apply length_filter_weaker. intros e He.
      now apply andb_true_iff in He. }
    split; [exact LE|]. intros T. apply many_failures_flagged; lia.
  - intros b Hb. apply (in_own_rows br_source_ip) in Hb.
    rewrite breach_rows in Hb. cbv zeta in Hb.
    set (ip := br_source_ip b) in *.
    destruct (first_success (chronological df ip)) as [s|]; [|destruct Hb].
    destruct (5 <=? _) eqn:C; [|destruct Hb]. apply Z.leb_le in C.
    destruct Hb as [E|[]].
    assert (br_failed_attempts_before_success b
            = Z.of_nat (List.length
                          (before_first_success (chronological df ip)))) as EA
        by (rewrite <- E at 1; reflexivity).
    assert (br_failed_attempts_before_success b
            <= Z.of_nat (List.length (ip_failures df ip))) as LE.
    { rewrite EA. apply inj_le.
      etransitivity; [apply before_first_success_le|].
      unfold chronological.
      rewrite (Permutation_length
                 (filter_perm is_failed_login _ _ (sort_perm timestamp_leb _))).
      rewrite filter_filter. unfold ip_failures.
      apply length_filter_weaker. intros e He. now rewrite andb_comm. }
    split; [exact LE|]. intros T. apply many_failures_flagged; lia.
  - intros g Hg. apply (in_own_rows geo_source_ip) in Hg.
    rewrite geographic_rows in Hg. set (ip := geo_source_ip g) in *.
    destruct (existsb _ _); [|destruct Hg]. unfold geo_rows in Hg.
    destruct (first_matching_range ip suspicious_ranges); [|destruct Hg].
    destruct Hg as [E|[]].
    assert (geo_failed_attempts g
            = Z.of_nat (List.length (ip_failures df ip))) as EA.
    { rewrite <- E at 1. cbn [geo_failed_attempts]. f_equal. f_equal.
      rewrite filter_filter. unfold ip_failures.
      apply filter_ext. intros e. apply andb_comm. }
    split; [exact EA|]. intros P T. apply many_failures_flagged; lia.
Qed.

Lemma reported_failures_in_brute_force_witness :
  In Samples.geo_row
     (detect_geographic_anomalies (Samples.burst 15 40 "45.142.212.61")) /\
  1 <= geo_failed_attempts Samples.geo_row /\
  brute_force_threshold default_detector
  <= geo_failed_attempts Samples.geo_row /\
  In (geo_source_ip Samples.geo_row)
     (map bf_source_ip
          (detect_brute_force default_detector
                              (Samples.burst 15 40 "45.142.212.61"))).
Proof.
  assert (In Samples.geo_row
             (detect_geographic_anomalies
                (Samples.burst 15 40 "45.142.212.61"))) as Hin
      by (vm_compute; left; reflexivity).
  split; [exact Hin|]. split; [vm_compute; discriminate|].
  split; [vm_compute; discriminate|].
  destruct (reported_failures_in_brute_force default_detector
              (Samples.burst 15 40 "45.142.212.61")) as (_ & _ & G).
  destruct (G Samples.geo_row Hin) as [_ F].
  apply F; vm_compute; discriminate.
Defined.

End CrossDetector.

(** ** The figures of the report *)

Section ReportFigures.
Import Pandas Detect Rules.

Lemma len_filter_le {A} (p : A -> bool) (l : list A) :
  0 <= len (filter p l) <= len l.
Proof.
  unfold len. pose proof (length_filter_le p l). lia.
Qed.

(** X6. In every report the two summary figures are present,
    critical_threats lies between 0 and total_anomalies, and
    total_anomalies is 0 exactly when the four tables are empty; on a
    non-empty event set the four detectors are called once each, in the
    order brute force, vulnerable accounts, geographic, breaches. *)
Theorem report_figures (self : IntrusionDetector) (df : list Event) :
  let report := fst (generate_full_report self df) in
  exists total critical,
    getitem (summary report) "total_anomalies" = Some total /\
    getitem (summary report) "critical_threats" = Some critical /\
    0 <= critical <= total /\
    (total = 0 <->
     brute_force_attacks report = [] /\
     vulnerable_account_targeting report = [] /\
     geographic_anomalies report = [] /\
     possible_breaches report = []) /\
    snd (generate_full_report self df)
    = match df with
      | [] => []
      | _ => [CallBruteForce; CallUnusualUsernames; CallGeographic; CallBreach]
      end.
Proof.
  cbv zeta. destruct df as [|e0 df0].
  - exists 0, 0. cbn. repeat split; try reflexivity; lia.
  - set (df := e0 :: df0). unfold generate_full_report.
    cbn [bind call ret fst snd brute_force_attacks
         vulnerable_account_targeting geographic_anomalies possible_breaches
         summary app].
    subst df. cbv beta iota.
    set (bf := detect_brute_force self (e0 :: df0)).
    set (va := detect_unusual_usernames (e0 :: df0)).
    set (geo := detect_geographic_anomalies (e0 :: df0)).
    set (br := detect_successful_after_many_failures (e0 :: df0)).
    exists (len bf + len va + len geo + len br),
           (len br + len (filter is_critical bf)).
    pose proof (len_filter_le is_critical bf) as Hc.
    assert (forall B (l : list B), 0 <= len l) as Pos
        by (intros; unfold len; lia).
    assert (forall B (l : list B), len l = 0 <-> l = []) as Zero.
    { intros B l. unfold len. destruct l; cbn [List.length]; split;
        try discriminate; auto; lia. }
    pose proof (Pos _ bf). pose proof (Pos _ va).
    pose proof (Pos _ geo). pose proof (Pos _ br).
    split; [reflexivity|]. split.
    { cbn [getitem String.eqb Ascii.eqb Bool.eqb].
      destruct bf; [|reflexivity]. cbn. f_equal. unfold len. cbn. lia. }
    split; [lia|]. split; [|reflexivity].
    cbn [fst brute_force_attacks vulnerable_account_targeting
         geographic_anomalies possible_breaches].
    split.
    + intros T. repeat split; apply Zero; lia.
    + intros (B1 & B2 & B3 & B4).
      apply Zero in B1, B2, B3, B4. lia.
Qed.

End ReportFigures.

(** ** Counters and buffer of the transformer *)

Section TransformerState.
Import Py Re Datetime Transform Rules.

Lemma parsed_or_rejected y lines :
  (List.length (parsed_records y lines)
   + List.length (filter (rejected y) lines))%nat = List.length lines.
Proof.
  induction lines as [|l lines IH]; [reflexivity|].
  cbn [parsed_records flat_map filter]. fold (parsed_records y lines).
  unfold rejected at 1. destruct (outcome y l); cbn [app List.length]; lia.
Qed.

(** A run from any state of the transformer. *)
Lemma transform_logs_spec self raw_logs :
  exists df self',
    transform_logs self raw_logs = Ok (df, self') /\
    Forall2 (fun p e => to_row p = Ok e)
            (parsed_records (year self) raw_logs) df /\
    year self' = year self /\
    parsed_count self'
    = parsed_count self
      + Z.of_nat (List.length (parsed_records (year self) raw_logs)) /\
    failed_count self'
    = failed_count self
      + Z.of_nat (List.length (filter (rejected (year self)) raw_logs)) /\
    failed_samples self'
    = (failed_samples self
       ++ flat_map (diagnostic (year self))
            (firstn (Z.to_nat (5 - failed_count self))
                    (filter (rejected (year self)) raw_logs)))%list.
Proof.
  destruct (parse_all_spec raw_logs self []) as (self' & E & Hy & Hp & Hf & Hs).
  destruct (rows_of_total (parsed_records (year self) raw_logs))
    as (df & Edf & Fdf).
  exists df, self'. unfold transform_logs. rewrite E. cbn [rbind fst snd app].
  repeat split; try assumption.
  destruct (parsed_records (year self) raw_logs) eqn:Ep.
  - cbn in Edf. now injection Edf as <-.
  - now rewrite Edf.
Qed.

(** X7. From any state of the transformer, [transform_logs] ends
    normally and accounts for every line once: the frame has one row per
    parsed line, [parsed_count] grows by the number of rows,
    [parsed_count] and [failed_count] together grow by the number of
    lines, and the year is unchanged. *)
Theorem transform_logs_counts (self : LogTransformer)
    (raw_logs : list string) :
  exists df self',
    transform_logs self raw_logs = Ok (df, self') /\
    year self' = year self /\
    parsed_count self' = parsed_count self + Z.of_nat (List.length df) /\
    0 <= failed_count self' - failed_count self /\
    (parsed_count self' - parsed_count self)
    + (failed_count self' - failed_count self)
    = Z.of_nat (List.length raw_logs).
Proof.
  destruct (transform_logs_spec self raw_logs)
    as (df & self' & E & F & Hy & Hp & Hf & _).
  exists df, self'. pose proof (Forall2_length F) as L.
  pose proof (parsed_or_rejected (year self) raw_logs) as S.
  repeat split; try assumption; lia.
Qed.

(** X8. If the sample buffer holds min(failed_count, 5) entries before a
    run, it does so after the run: however many runs one transformer
    makes, its buffer never exceeds 5 entries, and entries are only ever
    added at the end. *)
Theorem sample_buffer_invariant (self self' : LogTransformer)
    (raw_logs : list string) (df : list Event) :
  0 <= failed_count self ->
  Z.of_nat (List.length (failed_samples self)) = Z.min (failed_count self) 5 ->
  transform_logs self raw_logs = Ok (df, self') ->
  0 <= failed_count self' /\
  Z.of_nat (List.length (failed_samples self')) = Z.min (failed_count self') 5
  /\ (List.length (failed_samples self') <= 5)%nat /\
  exists added, failed_samples self' = (failed_samples self ++ added)%list.
Proof.
  intros H0 HI HT.
  destruct (transform_logs_spec self raw_logs)
    as (df' & self'' & E & _ & _ & _ & Hf & Hs).
  rewrite E in HT. injection HT as <- <-.
  set (rej := filter (rejected (year self)) raw_logs) in *.
  assert (List.length (flat_map (diagnostic (year self))
                                (firstn (Z.to_nat (5 - failed_count self)) rej))
          = List.length (firstn (Z.to_nat (5 - failed_count self)) rej)) as L.
  { apply length_diagnostics. apply Forall_forall. intros l Hl.
    apply in_firstn in Hl. unfold rej in Hl. now apply filter_In in Hl. }
  assert (Z.of_nat (List.length (failed_samples self''))
          = Z.min (failed_count self'') 5) as Inv.
  { rewrite Hs, length_app, L, length_firstn, Hf. lia. }
  repeat split; try lia. eauto.
Qed.

Lemma sample_buffer_invariant_witness :
  0 <= failed_count Samples.transformer_2024 /\
  Z.of_nat (List.length (failed_samples Samples.transformer_2024))
  = Z.min (failed_count Samples.transformer_2024) 5 /\
  exists df self',
    transform_logs Samples.transformer_2024 Samples.test_logs
    = Ok (df, self') /\
    Z.of_nat (List.length (failed_samples self'))
    = Z.min (failed_count self') 5.
Proof.
  split; [vm_compute; discriminate|]. split; [reflexivity|].
  destruct (transform_logs Samples.transformer_2024 Samples.test_logs)
    as [[df self']|e] eqn:E; [|vm_compute in E; discriminate].
  exists df, self'. split; [reflexivity|].
  apply (sample_buffer_invariant Samples.transformer_2024 self'
           Samples.test_logs df).
  - vm_compute. discriminate.
  - reflexivity.
  - exact E.
Defined.

(** X9. One call of [parse_log_line] never changes [parsed_count],
    [failed_count] or the year. When it returns a record it leaves the
    buffer alone; when it returns None it appends one entry if
    [failed_count] is below 5, whatever the length of the buffer: the cap
    reads the counter, which only [transform_logs] advances. *)
Theorem parse_log_line_counters (self : LogTransformer) (line : string) :
  exists result self',
    parse_log_line self line = Ok (result, self') /\
    parsed_count self' = parsed_count self /\
    failed_count self' = failed_count self /\
    year self' = year self /\
    match result with
    | Some _ => failed_samples self' = failed_samples self
    | None =>
        exists reason,
          failed_samples self'
          = if failed_count self <? 5
            then (failed_samples self ++ [(strip line ++ reason)%string])%list
            else failed_samples self
    end.
Proof.
  pose proof (parse_log_line_effect self line) as Eff.
  destruct (outcome (year self) line) as [p|].
  - exists (Some p), self. auto.
  - destruct Eff as (reason & _ & E).
    exists None, (store_sample self (strip line ++ reason)).
    split; [exact E|]. unfold store_sample.
    destruct (failed_count self <? 5); cbn; repeat split; eauto.
Qed.

End TransformerState.

(** ** What a group holds *)

Section GroupContents.
Import Py Re.

(** After a match a group either keeps its text or holds a word of one
    of its bodies. *)
Lemma group_captured n r w c0 c1 :
  matches r w c0 c1 ->
  lookup c1 n = lookup c0 n \/
  exists body w' ca cb,
    In body (group_bodies n r) /\ matches body w' ca cb /\
    lookup c1 n = text w'.
Proof.
  induction 1 as [t cs|t w cs H|k c cs H|k w cs Hw Hf
                  |r1 r2 w1 w2 c0 c1 c2 M1 IH1 M2 IH2
                  |r1 r2 w c0 c1 M IH|r1 r2 w c0 c1 M IH|m r w c0 c1 M IH];
    cbn [group_bodies]; try (now left).
  - destruct IH2 as [E2|(body & w' & ca & cb & Hin & Mb & E2)].
    + destruct IH1 as [E1|(body & w' & ca & cb & Hin & Mb & E1)].
      * left. congruence.
      * right. exists body, w', ca, cb. repeat split; try assumption.
        -- apply in_or_app. now left.
        -- congruence.
    + right. exists body, w', ca, cb. repeat split; try assumption.
      apply in_or_app. now right.
  - destruct IH as [E|(body & w' & ca & cb & Hin & Mb & E)]; [now left|].
    right. exists body, w', ca, cb. repeat split; try assumption.
    apply in_or_app. now left.
  - destruct IH as [E|(body & w' & ca & cb & Hin & Mb & E)]; [now left|].
    right. exists body, w', ca, cb. repeat split; try assumption.
    apply in_or_app. now right.
  - cbn [lookup]. destruct (Nat.eqb m n) eqn:Emn.
    + right. exists r, w, c0, c1. repeat split; try assumption. now left.
    + destruct IH as [E|(body & w' & ca & cb & Hin & Mb & E)]; [now left|].
      right. exists body, w', ca, cb. repeat split; assumption.
Qed.

(** A group every match goes through holds a word of one of its
    bodies. *)
Lemma group_set n r w c0 c1 :
  matches r w c0 c1 -> always_sets n r = true ->
  exists body w' ca cb,
    In body (group_bodies n r) /\ matches body w' ca cb /\
    lookup c1 n = text w'.
Proof.
  induction 1 as [t cs|t w cs H|k c cs H|k w cs Hw Hf
                  |r1 r2 w1 w2 c0 c1 c2 M1 IH1 M2 IH2
                  |r1 r2 w c0 c1 M IH|r1 r2 w c0 c1 M IH|m r w c0 c1 M IH];
    cbn [always_sets group_bodies]; try discriminate.
  - intros A. destruct (always_sets n r2) eqn:A2.
    + destruct (IH2 eq_refl) as (body & w' & ca & cb & Hin & Mb & E).
      exists body, w', ca, cb. repeat split; try assumption.
      apply in_or_app. now right.
    + rewrite orb_false_r in A.
      destruct (IH1 A) as (body & w' & ca & cb & Hin & Mb & E).
      destruct (group_captured n _ _ _ _ M2)
        as [E2|(body2 & w2' & ca2 & cb2 & Hin2 & Mb2 & E2)].
      * exists body, w', ca, cb. repeat split; try assumption.
        -- apply in_or_app. now left.
        -- congruence.
      * exists body2, w2', ca2, cb2. repeat split; try assumption.
        apply in_or_app. now right.
  - intros A. apply andb_true_iff in A. destruct A as [A _].
    destruct (IH A) as (body & w' & ca & cb & Hin & Mb & E).
    exists body, w', ca, cb. repeat split; try assumption.
    apply in_or_app. now left.
  - intros A. apply andb_true_iff in A. destruct A as [_ A].
    destruct (IH A) as (body & w' & ca & cb & Hin & Mb & E).
    exists body, w', ca, cb. repeat split; try assumption.
    apply in_or_app. now right.
  - intros A. cbn [lookup]. destruct (Nat.eqb m n) eqn:Emn.
    + exists r, w, c0, c1. repeat split; try assumption. now left.
    + cbn [orb] in A. destruct (IH A) as (body & w' & ca & cb & Hin & Mb & E).
      exists body, w', ca, cb. repeat split; assumption.
Qed.

End GroupContents.

(** ** The records of the parser *)

Section ParsedRecords.
Import Py Re Datetime Transform Rules.

Lemma digit_bounds c : is_digit c = true -> 0 <= digit_val c <= 9.
Proof.
  unfold is_digit, digit_val. intros H. apply andb_true_iff in H.
  destruct H as [H1 H2]. apply N.leb_le in H1, H2. lia.
Qed.

Lemma range_digit lo hi a b c :
  in_set [IRange lo hi] c = true ->
  is_digit lo = true -> is_digit hi = true ->
  digit_val lo = a -> digit_val hi = b ->
  is_digit c = true /\ a <= digit_val c <= b.
Proof.
  cbn [in_set existsb in_item]. rewrite orb_false_r.
  unfold is_digit, digit_val. intros H Hlo Hhi <- <-.
  apply andb_true_iff in H, Hlo, Hhi.
  destruct H as [H1 H2], Hlo as [L1 L2], Hhi as [U1 U2].
  apply N.leb_le in H1, H2, L1, L2, U1, U2.
  split; [apply andb_true_iff; split; apply N.leb_le; lia|lia].
Qed.

Lemma int_one c : is_digit c = true -> int (text [c]) = Ok (digit_val c).
Proof.
  intros H. rewrite int_numeral; [|cbn; now rewrite H|discriminate].
  cbn [digits_value weight]. f_equal. lia.
Qed.

Lemma int_two c1 c2 :
  is_digit c1 = true -> is_digit c2 = true ->
  int (text [c1; c2]) = Ok (10 * digit_val c1 + digit_val c2).
Proof.
  intros H1 H2. rewrite int_numeral; [|cbn; now rewrite H1, H2|discriminate].
  cbn [digits_value weight]. f_equal. lia.
Qed.

Lemma matches_alts_inv l w c0 c1 :
  l <> [] -> matches (alts l) w c0 c1 -> exists r, In r l /\ matches r w c0 c1.
Proof.
  induction l as [|r l IH]; [congruence|]. intros _.
  destruct l as [|r' l].
  - cbn. intros M. exists r. auto.
  - change (alts (r :: r' :: l)) with (Alt r (alts (r' :: l))).
    intros M. apply matches_alt_inv in M. destruct M as [M|M].
    + exists r. split; [now left|assumption].
    + destruct (IH ltac:(discriminate) M) as (r0 & Hin & M0).
      exists r0. split; [now right|assumption].
Qed.

Lemma lower_text w : lower (text w) = text (map to_lower w).
Proof.
  unfold text. induction w as [|c w IH]; cbn; [reflexivity|]. now rewrite IH.
Qed.

Lemma strip_prefix_nocase t : forall w,
  strip_prefix eq_nocase t w = Some [] -> map to_lower w = map to_lower t.
Proof.
  induction t as [|a t IH]; intros [|b w]; cbn; try congruence.
  unfold eq_nocase at 1. destruct (Ascii.eqb_spec (to_lower a) (to_lower b)) as [E|E];
    [|discriminate].
  intros H. rewrite (IH w H). now rewrite E.
Qed.

Lemma matches_liti_inv t w c0 c :
  matches (LitI t) w c0 c ->
  c = c0 /\ strip_prefix eq_nocase (chars t) w = Some [].
Proof. inversion 1; subst. auto. Qed.

Lemma make_datetime_ok y m d hh mm ss t :
  make_datetime y m d hh mm ss = Ok t ->
  t = mkDatetime y m d hh mm ss /\
  1 <= y <= 9999 /\ 1 <= d <= days_in_month y m /\ ss <= 59.
Proof.
  unfold make_datetime.
  destruct (Z.ltb_spec y 1); [discriminate|].
  destruct (Z.ltb_spec 9999 y); [discriminate|]. cbn [orb].
  destruct (Z.ltb_spec d 1); [discriminate|].
  destruct (Z.ltb_spec (days_in_month y m) d); [discriminate|]. cbn [orb].
  destruct (Z.ltb_spec 59 ss); [discriminate|].
  intros [= <-]. repeat split; lia.
Qed.

Ltac inv_alts :=
  repeat match goal with
  | H : matches (Alt _ _) _ _ _ |- _ =>
      apply matches_alt_inv in H; destruct H as [H|H]
  end.

Ltac digit_facts :=
  repeat match goal with
  | H : in_set [IRange ?lo ?hi] ?c = true |- _ =>
      let a := eval vm_compute in (digit_val lo) in
      let b := eval vm_compute in (digit_val hi) in
      apply (fun H => range_digit lo hi a b c H eq_refl eq_refl eq_refl
                                  eq_refl) in H;
      destruct H
  | H : in_set [IDigit] ?c = true |- _ =>
      change [IDigit] with d_ in H; rewrite in_set_digit in H;
      pose proof (digit_bounds c H)
  end.

Ltac literal_digits :=
  repeat match goal with
  | |- context [digit_val (Ascii ?a ?b ?c ?d ?e ?f ?g ?h)] =>
      let v := eval vm_compute in (digit_val (Ascii a b c d e f g h)) in
      change (digit_val (Ascii a b c d e f g h)) with v
  end.

Ltac read_numeral :=
  inv_alts; inv_matches; digit_facts;
  cbn [chars list_ascii_of_string app];
  eexists; (split;
    [first [apply int_two; first [reflexivity|assumption]
           |apply int_one; assumption]
    |literal_digits; lia]).

(** What the groups of the format hold after a match. *)
Lemma format_groups w c :
  matches format_regex w [] c ->
  (exists m, index_from 0 (lower (lookup c 2)) a_month = Ok m /\ 1 <= m <= 12) /\
  (exists hh, int (lookup c 4) = Ok hh /\ 0 <= hh <= 23) /\
  (exists mm, int (lookup c 5) = Ok mm /\ 0 <= mm <= 59) /\
  (exists ss, int (lookup c 6) = Ok ss /\ 0 <= ss).
Proof.
  intros M. repeat split.
  - destruct (group_set 2 _ _ _ _ M eq_refl)
      as (body & w' & ca & cb & Hin & Mb & ->).
    vm_compute in Hin. destruct Hin as [<-|[]].
    inv_alts; apply matches_liti_inv in Mb; destruct Mb as [_ Mb];
      apply strip_prefix_nocase in Mb; rewrite lower_text, Mb;
      eexists; (split; [vm_compute; reflexivity|lia]).
  - destruct (group_set 4 _ _ _ _ M eq_refl)
      as (body & w' & ca & cb & Hin & Mb & ->).
    vm_compute in Hin. destruct Hin as [<-|[]]. read_numeral.
  - destruct (group_set 5 _ _ _ _ M eq_refl)
      as (body & w' & ca & cb & Hin & Mb & ->).
    vm_compute in Hin. destruct Hin as [<-|[]]. read_numeral.
  - destruct (group_set 6 _ _ _ _ M eq_refl)
      as (body & w' & ca & cb & Hin & Mb & ->).
    vm_compute in Hin. destruct Hin as [<-|[]]. read_numeral.
Qed.

(** Every date and time [strptime] returns is one of the calendar. *)
Lemma strptime_valid s t : strptime s = Ok t -> valid_datetime t.
Proof.
  unfold strptime.
  destruct (match_ format_regex _) as [found|] eqn:EM; [|discriminate].
  destruct (m_rest found); [|discriminate].
  apply match_sound in EM. destruct EM as (w & _ & M).
  destruct (format_groups w _ M)
    as ((m & Em & Hm) & (hh & Eh & Hh) & (mm & Emm & Hmm) & (ss & Es & Hs)).
  unfold group. rewrite Em, Eh, Emm, Es.
  destruct (int (lookup (m_groups found) 1)) as [y|]; [|discriminate].
  cbn [rbind].
  destruct (int (lookup (m_groups found) 3)) as [d|]; [|discriminate].
  cbn [rbind]. intros H. apply make_datetime_ok in H.
  destruct H as (-> & Hy & Hd & Hss). unfold valid_datetime. cbn.
  repeat split; lia.
Qed.

Lemma weight_pos l : 0 < weight l.
Proof. induction l as [|c l IH]; cbn [weight]; lia. Qed.

Lemma digits_value_bounds l :
  forallb is_digit l = true -> 0 <= digits_value l < weight l.
Proof.
  induction l as [|c l IH]; cbn [forallb digits_value weight]; [lia|].
  intros H. apply andb_true_iff in H. destruct H as [Hc Hl].
  pose proof (digit_bounds c Hc). pose proof (weight_pos l).
  specialize (IH Hl). nia.
Qed.

Lemma in_set_username c :
  in_set [IWord; IChar "."; IChar "-"; IChar "_"] c = username_char c.
Proof.
  unfold username_char. cbn [in_set existsb in_item]. rewrite orb_false_r.
  destruct (Ascii.eqb_spec c "_") as [->|_]; [reflexivity|].
  now rewrite orb_false_r, !orb_assoc.
Qed.

Lemma in_set_address c : in_set [IDigit; IChar "."] c = address_char c.
Proof.
  unfold address_char. cbn [in_set existsb in_item]. now rewrite orb_false_r.
Qed.

Lemma forallb_ext_eq {A} (p q : A -> bool) l :
  (forall x, p x = q x) -> forallb p l = forallb q l.
Proof.
  intros H. induction l as [|x l IH]; cbn; [reflexivity|]. now rewrite H, IH.
Qed.

Lemma text_nonempty w : w <> [] -> text w <> "".
Proof. destruct w; [congruence|discriminate]. Qed.

(** The user name and the address of a match of the log pattern. *)
Lemma log_pattern_names w c :
  matches LOG_PATTERN w [] c ->
  (exists u, lookup c 6 = text u /\ u <> [] /\
             forallb username_char u = true) /\
  (exists a, lookup c 7 = text a /\ a <> [] /\
             forallb address_char a = true).
Proof.
  intros M. split.
  - destruct (group_set 6 _ _ _ _ M eq_refl)
      as (body & w' & ca & cb & Hin & Mb & ->).
    vm_compute in Hin. destruct Hin as [<-|[]]. inv_matches.
    eexists. repeat split; [assumption|].
    erewrite forallb_ext_eq; [eassumption|]. intros x. symmetry.
    apply in_set_username.
  - destruct (group_set 7 _ _ _ _ M eq_refl)
      as (body & w' & ca & cb & Hin & Mb & ->).
    vm_compute in Hin. destruct Hin as [<-|[]]. inv_matches.
    eexists. repeat split; [assumption|].
    erewrite forallb_ext_eq; [eassumption|]. intros x. symmetry.
    apply in_set_address.
Qed.

(** A returned record is the one built from a match of the pattern. *)
Lemma parsed_from_match self line p self' :
  parse_log_line self line = Ok (Some p, self') ->
  exists m w,
    matches LOG_PATTERN w [] (m_groups m) /\ build_record self m = Ok p.
Proof.
  unfold parse_log_line.
  destruct (search LOG_PATTERN line) as [m|] eqn:Es; [|discriminate].
  unfold search in Es. apply search_from_sound in Es.
  destruct Es as (before & w & _ & M).
  destruct (build_record self m) as [p'|e] eqn:Eb.
  - intros [= <- _]. eauto.
  - destruct e; discriminate.
Qed.

(** The fields of a record built from a match. *)
Lemma build_record_fields self m w p :
  matches LOG_PATTERN w [] (m_groups m) -> build_record self m = Ok p ->
  valid_datetime (p_timestamp p) /\
  dt_year (p_timestamp p) = year self /\
  (p_status p = "Accepted" \/ p_status p = "Failed") /\
  0 <= p_port p /\ 0 <= p_pid p /\
  p_username p = group m 6 /\ p_source_ip p = group m 7.
Proof.
  intros M. destruct (log_pattern_groups w m M)
    as ((pid & Epid & Dpid & Npid) & (port & Eport & Dport & Nport) & St).
  unfold build_record.
  destruct (strptime _) as [t|e] eqn:Et; cbn [rbind]; [|discriminate].
  rewrite Eport, Epid, !int_numeral by assumption. cbn [rbind].
  intros [= <-]. cbn [p_timestamp p_status p_username p_source_ip p_port
                      p_pid].
  split; [exact (strptime_valid _ _ Et)|].
  split; [eapply strptime_year; exact Et|].
  split; [exact St|].
  split; [apply digits_value_bounds; assumption|].
  split; [apply digits_value_bounds; assumption|].
  split; reflexivity.
Qed.

(** X10. Every record [parse_log_line] returns is well formed: its
    timestamp is a date and time of the calendar in the year of the
    transformer (which is then between 1 and 9999), its status is one of
    the two words, port and pid are not negative, the user name is a
    non-empty text of letters, digits, underscores, dots and hyphens and
    the address a non-empty text of digits and dots. *)
Theorem parse_log_line_record (self self' : LogTransformer) (line : string)
    (p : Parsed) :
  parse_log_line self line = Ok (Some p, self') ->
  valid_datetime (p_timestamp p) /\
  dt_year (p_timestamp p) = year self /\
  (p_status p = "Accepted" \/ p_status p = "Failed") /\
  0 <= p_port p /\ 0 <= p_pid p /\
  p_username p <> "" /\
  forallb username_char (chars (p_username p)) = true /\
  p_source_ip p <> "" /\
  forallb address_char (chars (p_source_ip p)) = true.
Proof.
  intros H. destruct (parsed_from_match self line p self' H) as (m & w & M & Eb).
  destruct (build_record_fields self m w p M Eb)
    as (Hv & Hy & Hst & Hport & Hpid & Eu & Ea).
  destruct (log_pattern_names w _ M)
    as ((u & Eu' & Nu & Du) & (a & Ea' & Na & Da)).
  unfold group in Eu, Ea. rewrite Eu' in Eu. rewrite Ea' in Ea.
  rewrite Eu, Ea, !chars_text.
  split; [exact Hv|]. split; [exact Hy|]. split; [exact Hst|].
  split; [exact Hport|]. split; [exact Hpid|].
  split; [now apply text_nonempty|]. split; [exact Du|].
  split; [now apply text_nonempty|exact Da].
Qed.

Lemma parse_log_line_record_witness :
  parse_log_line Samples.transformer_2024 Samples.shape_text
  = Ok (Some Samples.shape_record, Samples.transformer_2024) /\
  valid_datetime (p_timestamp Samples.shape_record) /\
  dt_year (p_timestamp Samples.shape_record) = year Samples.transformer_2024 /\
  (p_status Samples.shape_record = "Accepted" \/
   p_status Samples.shape_record = "Failed") /\
  0 <= p_port Samples.shape_record /\ 0 <= p_pid Samples.shape_record /\
  p_username Samples.shape_record <> "" /\
  forallb username_char (chars (p_username Samples.shape_record)) = true /\
  p_source_ip Samples.shape_record <> "" /\
  forallb address_char (chars (p_source_ip Samples.shape_record)) = true.
Proof.
  split; [vm_compute; reflexivity|].
  apply (parse_log_line_record Samples.transformer_2024
           Samples.transformer_2024 Samples.shape_text).
  vm_compute. reflexivity.
Defined.

End ParsedRecords.

(** ** The rows of the frame *)

Section Rows.
Import Py Re Datetime Transform Pandas Detect Rules.

(** The hour and the day of the week read off the stored seconds. *)
Lemma epoch_fields t :
  valid_datetime t ->
  dt_hour t = (to_epoch t / 3600) mod 24 /\
  dayofweek t = (to_epoch t / 86400 + 3) mod 7.
Proof.
  intros (_ & _ & _ & Hh & Hm & Hs). unfold to_epoch, dayofweek.
  set (days := days_from_civil (dt_year t) (dt_month t) (dt_day t)).
  assert ((days * 86400 + dt_hour t * 3600 + dt_minute t * 60 + dt_second t)
          / 3600 = days * 24 + dt_hour t) as E1.
  { symmetry. apply (Z.div_unique_pos _ _ _ (dt_minute t * 60 + dt_second t));
      lia. }
  assert ((days * 86400 + dt_hour t * 3600 + dt_minute t * 60 + dt_second t)
          / 86400 = days) as E2.
  { symmetry.
    apply (Z.div_unique_pos _ _ _
             (dt_hour t * 3600 + dt_minute t * 60 + dt_second t)); lia. }
  rewrite E1, E2. split; [|reflexivity].
  apply (Z.mod_unique_pos _ _ days); lia.
Qed.

(** Every row of the frame comes from a line that parses. *)
Lemma rows_from_lines self raw_logs df self' e :
  transform_logs self raw_logs = Ok (df, self') -> In e df ->
  exists line p,
    In line raw_logs /\ outcome (year self) line = Some p /\ to_row p = Ok e.
Proof.
  intros HT He.
  destruct (transform_logs_spec self raw_logs)
    as (df' & self'' & E & F & _).
  rewrite E in HT. injection HT as <- <-.
  assert (exists p, In p (parsed_records (year self) raw_logs)
                    /\ to_row p = Ok e) as (p & Hp & Hr).
  { clear E. induction F as [|p e' ps es Hpe F IH]; [destruct He|].
    destruct He as [<-|He].
    - exists p. split; [now left|assumption].
    - destruct (IH He) as (p' & Hp' & Hr'). exists p'. split; [now right|].
      assumption. }
  unfold parsed_records in Hp. apply in_flat_map in Hp.
  destruct Hp as (line & Hl & Hp).
  destruct (outcome (year self) line) as [p'|] eqn:Eo; [|destruct Hp].
  destruct Hp as [<-|[]]. eauto.
Qed.

(** X11. The derived columns of every row [transform_logs] returns agree
    with its parsed columns: the status is one of the two words and
    [is_failed_login] tells which, [is_internal_ip] is the value of
    [_is_internal_ip] on the address, the hour and the day of the week are
    those of the stored seconds and lie in 0..23 and 0..6, the name of the
    day is the entry of that number, the date is in the year of the
    transformer, and port and pid are not negative. *)
Theorem transform_logs_rows (self self' : LogTransformer)
    (raw_logs : list string) (df : list Event) (e : Event) :
  transform_logs self raw_logs = Ok (df, self') -> In e df ->
  (status e = "Accepted" /\ is_failed_login e = false \/
   status e = "Failed" /\ is_failed_login e = true) /\
  _is_internal_ip (source_ip e) = Ok (is_internal_ip e) /\
  hour_of_day e = (timestamp e / 3600) mod 24 /\
  0 <= hour_of_day e <= 23 /\
  day_of_week e = (timestamp e / 86400 + 3) mod 7 /\
  0 <= day_of_week e <= 6 /\
  nth_error day_names (Z.to_nat (day_of_week e)) = Some (weekday_name e) /\
  fst (fst (date e)) = year self /\
  0 <= port e /\ 0 <= pid e.
Proof.
  intros HT He.
  destruct (rows_from_lines self raw_logs df self' e HT He)
    as (line & p & _ & Eo & Er).
  unfold outcome in Eo.
  destruct (parse_log_line (fresh (year self)) line) as [[r s]|] eqn:Ep;
    [|discriminate].
  cbn [fst] in Eo. subst r.
  destruct (parsed_from_match _ _ _ _ Ep) as (m & w & M & Eb).
  destruct (build_record_fields _ m w p M Eb)
    as (Hv & Hy & Hst & Hport & Hpid & _).
  destruct (epoch_fields _ Hv) as [Eh Ed].
  unfold to_row in Er.
  destruct (_is_internal_ip (p_source_ip p)) as [b|] eqn:Ei; [|discriminate].
  cbn [rbind] in Er. injection Er as <-.
  cbn [status is_failed_login source_ip is_internal_ip hour_of_day timestamp
       day_of_week weekday_name date port pid fst].
  assert (0 <= dayofweek (p_timestamp p) <= 6) as Hd.
  { unfold dayofweek. pose proof (Z.mod_pos_bound
      (days_from_civil (dt_year (p_timestamp p)) (dt_month (p_timestamp p))
                       (dt_day (p_timestamp p)) + 3) 7 ltac:(lia)). lia. }
  split; [destruct Hst as [-> | ->]; [left|right]; split; reflexivity|].
  split; [exact Ei|].
  split; [exact Eh|].
  split; [apply Hv|].
  split; [exact Ed|].
  split; [exact Hd|].
  split.
  { unfold day_name.
    assert (exists k, dayofweek (p_timestamp p) = Z.of_nat k /\ (k < 7)%nat)
      as (k & Ek & Hk) by (exists (Z.to_nat (dayofweek (p_timestamp p))); lia).
    rewrite Ek, Nat2Z.id.
    do 7 (destruct k as [|k]; [reflexivity|]). lia. }
  split; [exact Hy|]. split; assumption.
Qed.

Lemma transform_logs_rows_witness :
  let e := Samples.shape_row in
  transform_logs Samples.transformer_2024 [Samples.shape_text]
  = Ok ([e], Samples.shape_state) /\ In e [e] /\
  (status e = "Accepted" /\ is_failed_login e = false \/
   status e = "Failed" /\ is_failed_login e = true) /\
  _is_internal_ip (source_ip e) = Ok (is_internal_ip e) /\
  hour_of_day e = (timestamp e / 3600) mod 24 /\
  0 <= hour_of_day e <= 23 /\
  day_of_week e = (timestamp e / 86400 + 3) mod 7 /\
  0 <= day_of_week e <= 6 /\
  nth_error day_names (Z.to_nat (day_of_week e)) = Some (weekday_name e) /\
  fst (fst (date e)) = year Samples.transformer_2024 /\
  0 <= port e /\ 0 <= pid e.
Proof.
  cbv zeta. split; [vm_compute; reflexivity|]. split; [now left|].
  apply (transform_logs_rows Samples.transformer_2024 Samples.shape_state
           [Samples.shape_text] [Samples.shape_row]).
  - vm_compute. reflexivity.
  - now left.
Defined.

Lemma prefix_comparable p : forall q s,
  String.prefix p s = true -> String.prefix q s = true ->
  String.prefix p q = true \/ String.prefix q p = true.
Proof.
  induction p as [|a p IH]; intros q s Hp Hq; [left; now destruct q|].
  destruct q as [|b q]; [now right|].
  destruct s as [|c s]; [discriminate|].
  cbn [String.prefix] in *.
  destruct (ascii_dec a c) as [->|]; [|discriminate].
  destruct (ascii_dec b c) as [->|]; [|discriminate].
  destruct (ascii_dec c c) as [_|N]; [|congruence].
  eapply IH; eassumption.
Qed.

(** An address that starts with a prefix of the table is not internal. *)
Lemma suspicious_not_internal ip location :
  first_matching_range ip suspicious_ranges = Some location ->
  _is_internal_ip ip = Ok false.
Proof.
  intros H.
  assert (exists p, In p (map fst suspicious_ranges)
                    /\ String.prefix p ip = true) as (p & Hin & Hp).
  { revert H. generalize suspicious_ranges as table.
    induction table as [|[q l] table IH]; cbn [first_matching_range];
      [discriminate|].
    destruct (String.prefix q ip) eqn:E.
    - intros _. exists q. split; [now left|assumption].
    - intros H. destruct (IH H) as (p & Hin & Hp). exists p.
      split; [now right|assumption]. }
  assert (forall q, In q ["192.168."; "10."; "172."] ->
                    String.prefix q ip = false) as N.
  { intros q Hq. destruct (String.prefix q ip) eqn:E; [|reflexivity].
    destruct (prefix_comparable p q ip Hp E) as [C|C]; exfalso;
      cbn in Hin, Hq;
      repeat (destruct Hin as [<-|Hin]; [
        repeat (destruct Hq as [<-|Hq]; [discriminate C|]); destruct Hq|]);
      destruct Hin. }
  rewrite is_internal_ip_value.
  rewrite (N "192.168."), (N "10."), (N "172."); cbn; auto.
Qed.

(** X12. On a frame [transform_logs] returns, no address that starts
    with a prefix of the table is internal, so the geographic table has
    the row of every such address that occurs in the frame: the filter
    on external events removes none of them. *)
Theorem pipeline_geographic (self self' : LogTransformer)
    (raw_logs : list string) (df : list Event) :
  transform_logs self raw_logs = Ok (df, self') ->
  (forall e, In e df ->
     first_matching_range (source_ip e) suspicious_ranges <> None ->
     is_internal_ip e = false) /\
  forall ip,
    filter (fun r => (geo_source_ip r =? ip)%string)
           (detect_geographic_anomalies df)
    = if existsb (fun e => (source_ip e =? ip)%string) df
      then geo_rows df ip else [].
Proof.
  intros HT.
  assert (forall e, In e df ->
            first_matching_range (source_ip e) suspicious_ranges <> None ->
            is_internal_ip e = false) as Ext.
  { intros e He Hs.
    destruct (rows_from_lines self raw_logs df self' e HT He)
      as (line & p & _ & _ & Er).
    unfold to_row in Er.
    destruct (_is_internal_ip (p_source_ip p)) as [b|] eqn:Ei; [|discriminate].
    cbn [rbind] in Er. injection Er as <-.
    cbn [source_ip is_internal_ip] in *.
    destruct (first_matching_range (p_source_ip p) suspicious_ranges)
      as [location|] eqn:Ef; [|congruence].
    rewrite (suspicious_not_internal _ _ Ef) in Ei. congruence. }
  split; [exact Ext|]. intros ip. rewrite geographic_rows.
  unfold geo_rows.
  destruct (first_matching_range ip suspicious_ranges) as [location|] eqn:Ef;
    [|now destruct (existsb _ _), (existsb _ _)].
  replace (existsb (fun e => negb (is_internal_ip e))
             (filter (fun e => (source_ip e =? ip)%string) df))
    with (existsb (fun e => (source_ip e =? ip)%string) df); [reflexivity|].
  apply eq_true_iff_eq. rewrite !existsb_exists. split.
  - intros (e & He & Eip). exists e. split; [now apply filter_In|].
    apply String.eqb_eq in Eip. rewrite Ext; [reflexivity|assumption|].
    rewrite Eip, Ef. discriminate.
  - intros (e & He & _). apply filter_In in He. exists e. tauto.
Qed.

Lemma pipeline_geographic_witness :
  transform_logs Samples.transformer_2024 [Samples.shape_text]
  = Ok ([Samples.shape_row], Samples.shape_state) /\
  (forall e, In e [Samples.shape_row] ->
     first_matching_range (source_ip e) suspicious_ranges <> None ->
     is_internal_ip e = false) /\
  forall ip,
    filter (fun r => (geo_source_ip r =? ip)%string)
           (detect_geographic_anomalies [Samples.shape_row])
    = if existsb (fun e => (source_ip e =? ip)%string) [Samples.shape_row]
      then geo_rows [Samples.shape_row] ip else [].
Proof.
  split; [vm_compute; reflexivity|].
  apply (pipeline_geographic Samples.transformer_2024 Samples.shape_state
           [Samples.shape_text]).
  vm_compute. reflexivity.
Defined.

End Rows.

(** ** The first match of the backtracking engine *)

Section FirstMatch.
Import Py Re.

Lemma first_lit t rest cs :
  first_run (Lit t) (chars t ++ rest) cs = Some (rest, cs).
Proof.
  unfold first_run. cbn [run].
  assert (strip_prefix Ascii.eqb (chars t) (chars t ++ rest) = Some rest) as E.
  { apply strip_prefix_split. exists (chars t). split; [reflexivity|].
    now apply strip_prefix_eqb. }
  now rewrite E.
Qed.

Lemma plus_rests_stop k rest : stops k rest = true -> plus_rests k rest = [].
Proof.
  destruct rest as [|c rest]; [reflexivity|]. cbn.
  now destruct (in_set k c).
Qed.

Lemma first_plus k w rest cs :
  w <> [] -> forallb (in_set k) w = true -> stops k rest = true ->
  first_run (Plus k) (w ++ rest) cs = Some (rest, cs).
Proof.
  intros Hw Hf Hs. unfold first_run. cbn [run].
  assert (hd_error (plus_rests k (w ++ rest)) = Some rest) as E.
  { induction w as [|c w IH]; [congruence|].
    cbn [forallb] in Hf. apply andb_true_iff in Hf. destruct Hf as [Hc Hf].
    cbn [app plus_rests]. rewrite Hc.
    destruct w as [|c' w].
    - cbn [app]. now rewrite (plus_rests_stop k rest Hs).
    - specialize (IH ltac:(discriminate) Hf).
      destruct (plus_rests k ((c' :: w) ++ rest)); [discriminate|].
      exact IH. }
  destruct (plus_rests k (w ++ rest)); [discriminate|].
  cbn in *. now injection E as ->.
Qed.

Lemma first_one k c rest cs :
  in_set k c = true -> first_run (One k) (c :: rest) cs = Some (rest, cs).
Proof. intros H. unfold first_run. cbn [run]. now rewrite H. Qed.

Lemma first_seq r1 r2 s cs s1 c1 x :
  first_run r1 s cs = Some (s1, c1) -> first_run r2 s1 c1 = Some x ->
  first_run (Seq r1 r2) s cs = Some x.
Proof.
  unfold first_run. cbn [run]. intros H1 H2.
  destruct (run r1 s cs) as [|m l]; [discriminate|].
  injection H1 as ->. cbn [flat_map fst snd].
  destruct (run r2 s1 c1); [discriminate|]. exact H2.
Qed.

Lemma first_group n r w rest s cs c1 :
  s = (w ++ rest)%list -> first_run r s cs = Some (rest, c1) ->
  first_run (Group n r) s cs = Some (rest, (n, text w) :: c1).
Proof.
  unfold first_run. cbn [run]. intros -> H.
  destruct (run r (w ++ rest) cs) as [|m l]; [discriminate|].
  injection H as ->. cbn [map hd_error fst snd]. now rewrite consumed_app.
Qed.

Lemma first_alt_left r1 r2 s cs x :
  first_run r1 s cs = Some x -> first_run (Alt r1 r2) s cs = Some x.
Proof.
  unfold first_run. cbn [run]. now destruct (run r1 s cs).
Qed.

Lemma first_alt_right r1 r2 s cs :
  run r1 s cs = [] -> first_run (Alt r1 r2) s cs = first_run r2 s cs.
Proof. unfold first_run. cbn [run]. now intros ->. Qed.

Lemma match_first r s rest c :
  first_run r s [] = Some (rest, c) -> match_ r s = Some (mkMatch rest c).
Proof.
  unfold first_run, match_. destruct (run r s []); [discriminate|].
  now intros [= ->].
Qed.

Lemma search_first r s m : match_ r s = Some m -> search_from r s = Some m.
Proof. intros H. destruct s; cbn [search_from]; now rewrite H. Qed.

Lemma stops_class k (p : ascii -> bool) w rest :
  w <> [] -> forallb p w = true ->
  (forall c, p c = true -> in_set k c = false) ->
  stops k (w ++ rest) = true.
Proof.
  destruct w as [|c w]; [congruence|]. intros _ H Hp. cbn in *.
  apply andb_true_iff in H. destruct H as [H _]. now rewrite (Hp c H).
Qed.

End FirstMatch.

(** ** Reading back the lines of the generator *)

Section GeneratedLines.
Import Py Re Datetime Transform Rules.

Lemma word_not_space c : username_char c = true -> in_set s_ c = false.
Proof.
  rewrite in_set_space. unfold username_char, is_word, is_upper, is_lower,
    is_digit, is_space.
  destruct (Ascii.eqb_spec c ".") as [->|_]; [reflexivity|].
  destruct (Ascii.eqb_spec c "-") as [->|_]; [reflexivity|].
  rewrite !orb_false_r. intros H.
  repeat match goal with
         | |- context [(?a <=? ?b)%N] => destruct (N.leb_spec a b)
         | |- context [(?a =? ?b)%N] => destruct (N.eqb_spec a b)
         | H : context [(?a <=? ?b)%N] |- _ => destruct (N.leb_spec a b)
         | H : context [(?a =? ?b)%N] |- _ => destruct (N.eqb_spec a b)
         end; cbn in *; try reflexivity; try discriminate; lia.
Qed.

Lemma address_not_space c : address_char c = true -> in_set s_ c = false.
Proof.
  intros H. apply word_not_space. unfold address_char in H.
  unfold username_char, is_word. apply orb_true_iff in H.
  destruct H as [H|H]; rewrite H; cbn; now rewrite ?orb_true_r.
Qed.

Lemma digit_set_not_space c : in_set d_ c = true -> in_set s_ c = false.
Proof. rewrite in_set_digit, in_set_space. apply digit_not_space. Qed.

Ltac stop_step :=
  first [assumption
        |reflexivity
        |apply (stops_class _ (in_set d_));
         [assumption|assumption|exact digit_set_not_space]
        |apply (stops_class _ username_char);
         [assumption|assumption|exact word_not_space]
        |apply (stops_class _ address_char);
         [assumption|assumption|exact address_not_space]].

Ltac plus_step :=
  apply first_plus;
  [first [assumption|discriminate]|first [assumption|reflexivity]|stop_step].

(** The first match of the log pattern on a text made of the fields of a
    line, and its groups. *)
Lemma log_pattern_first mon pad ds hh mm ss pid st user ip port tail :
  mon <> [] -> forallb (in_set w_) mon = true ->
  forallb (in_set s_) pad = true ->
  ds <> [] -> forallb (in_set d_) ds = true ->
  hh <> [] -> forallb (in_set d_) hh = true ->
  mm <> [] -> forallb (in_set d_) mm = true ->
  ss <> [] -> forallb (in_set d_) ss = true ->
  pid <> [] -> forallb (in_set d_) pid = true ->
  st = "Accepted" \/ st = "Failed" ->
  user <> [] -> forallb username_char user = true ->
  ip <> [] -> forallb address_char ip = true ->
  port <> [] -> forallb (in_set d_) port = true ->
  stops d_ tail = true ->
  first_run LOG_PATTERN
    (mon ++ (" "%char :: pad) ++ ds ++ chars " "
     ++ hh ++ chars ":" ++ mm ++ chars ":" ++ ss ++ chars " "
     ++ chars "server" ++ chars " " ++ chars "sshd[" ++ pid ++ chars "]:"
     ++ chars " " ++ chars st ++ chars " " ++ chars "password" ++ chars " "
     ++ chars "for" ++ chars " " ++ user ++ chars " " ++ chars "from"
     ++ chars " " ++ ip ++ chars " " ++ chars "port" ++ chars " "
     ++ port ++ tail)%list []
  = Some (tail,
          [(8%nat, text port); (7%nat, text ip); (6%nat, text user);
           (5%nat, st); (4%nat, text pid);
           (3%nat, text (hh ++ chars ":" ++ mm ++ chars ":" ++ ss)%list);
           (2%nat, text ds); (1%nat, text mon)]).
Proof.
  intros Nmon Fmon Fpad Nds Fds Nhh Fhh Nmm Fmm Nss Fss Npid Fpid Hst
         Nuser Fuser Nip Fip Nport Fport Htail.
  assert (forallb (in_set [IWord; IChar "."; IChar "-"; IChar "_"]) user
          = true) as Fuser'.
  { erewrite forallb_ext_eq; [exact Fuser|]. apply in_set_username. }
  assert (forallb (in_set [IDigit; IChar "."]) ip = true) as Fip'.
  { erewrite forallb_ext_eq; [exact Fip|]. apply in_set_address. }
  unfold LOG_PATTERN. cbn [seqs].
  destruct Hst as [-> | ->].
  all: eapply first_seq; [eapply first_group; [reflexivity|plus_step]|].
  all: eapply first_seq; [plus_step|].
  all: eapply first_seq; [eapply first_group; [reflexivity|plus_step]|].
  all: eapply first_seq; [plus_step|].
  all: eapply first_seq;
    [eapply (first_group 3 _ (hh ++ chars ":" ++ mm ++ chars ":" ++ ss)%list);
       [now rewrite <- !app_assoc|];
     eapply first_seq; [plus_step|];
     eapply first_seq; [apply first_lit|];
     eapply first_seq; [plus_step|];
     eapply first_seq; [apply first_lit|];
     plus_step|].
  all: eapply first_seq; [plus_step|].
  all: eapply first_seq; [plus_step|].
  all: eapply first_seq; [plus_step|].
  all: eapply first_seq; [apply first_lit|].
  all: eapply first_seq; [eapply first_group; [reflexivity|plus_step]|].
  all: eapply first_seq; [apply first_lit|].
  all: eapply first_seq; [plus_step|].
  all: eapply first_seq;
    [eapply first_group; [reflexivity|];
     first [apply first_alt_left, first_lit
           |rewrite first_alt_right by reflexivity; apply first_lit]|].
  all: eapply first_seq; [plus_step|].
  all: eapply first_seq; [apply first_lit|].
  all: eapply first_seq; [plus_step|].
  all: eapply first_seq; [apply first_lit|].
  all: eapply first_seq; [plus_step|].
  all: eapply first_seq; [eapply first_group; [reflexivity|plus_step]|].
  all: eapply first_seq; [plus_step|].
  all: eapply first_seq; [apply first_lit|].
  all: eapply first_seq; [plus_step|].
  all: eapply first_seq; [eapply first_group; [reflexivity|plus_step]|].
  all: eapply first_seq; [plus_step|].
  all: eapply first_seq; [apply first_lit|].
  all: eapply first_seq; [plus_step|].
  all: eapply first_group; [reflexivity|plus_step].
Qed.

Ltac enumerate n lo len tac :=
  let H := fresh "H" in
  assert (In n (map Z.of_nat (seq lo len))) as H
    by (apply in_map_iff; exists (Z.to_nat n); split;
        [lia|apply in_seq; lia]);
  vm_compute in H;
  repeat (destruct H as [H|H]; [subst n; tac|]); destruct H.

(** The fields of a date and time, as [strftime] writes them and as the
    format of [strptime] reads them. *)
Lemma month_field i :
  1 <= i <= 12 ->
  let mon := nth (Z.to_nat (i - 1)) Generate.month_abbr "" in
  chars mon <> [] /\ forallb (in_set w_) (chars mon) = true /\
  (forall rest, stops s_ (chars mon ++ rest) = true) /\
  index_from 0 (lower mon) a_month = Ok i /\
  forall rest cs,
    first_run (alts (map LitI (tl a_month))) (chars mon ++ rest) cs
    = Some (rest, cs).
Proof.
  intros Hi.
  enumerate i 1%nat 12%nat
    ltac:(cbv zeta; repeat split; try discriminate; intros; reflexivity).
Qed.

Lemma day_field_digits d :
  1 <= d <= 31 ->
  let ds := Generate.lstrip_zeros (Generate.two_digits d) in
  ds <> [] /\ forallb (in_set d_) ds = true /\
  forallb (in_set s_) (repeat " "%char (2 - List.length ds)) = true /\
  int (text ds) = Ok d /\
  forall rest cs,
    first_run
      (alts [Seq (Lit "3") (One [IRange "0" "1"]);
             Seq (One [IRange "1" "2"]) (One d_);
             Seq (Lit "0") (One [IRange "1" "9"]);
             One [IRange "1" "9"];
             Seq (Lit " ") (One [IRange "1" "9"])])
      (ds ++ chars " " ++ rest) cs
    = Some ((chars " " ++ rest)%list, cs).
Proof.
  intros Hd.
  enumerate d 1%nat 31%nat
    ltac:(cbv zeta; repeat split; try discriminate; intros; reflexivity).
Qed.

Lemma hour_field h :
  0 <= h <= 23 ->
  let hh := Generate.two_digits h in
  hh <> [] /\ forallb (in_set d_) hh = true /\ int (text hh) = Ok h /\
  forall rest cs,
    first_run
      (alts [Seq (Lit "2") (One [IRange "0" "3"]);
             Seq (One [IRange "0" "1"]) (One d_);
             One d_])
      (hh ++ rest) cs
    = Some (rest, cs).
Proof.
  intros Hh.
  enumerate h 0%nat 24%nat
    ltac:(cbv zeta; repeat split; try discriminate; intros; reflexivity).
Qed.

Lemma minute_field m :
  0 <= m <= 59 ->
  let mm := Generate.two_digits m in
  mm <> [] /\ forallb (in_set d_) mm = true /\ int (text mm) = Ok m /\
  forall rest cs,
    first_run (alts [Seq (One [IRange "0" "5"]) (One d_); One d_])
              (mm ++ rest) cs
    = Some (rest, cs).
Proof.
  intros Hm.
  enumerate m 0%nat 60%nat
    ltac:(cbv zeta; repeat split; try discriminate; intros; reflexivity).
Qed.

Lemma second_field s :
  0 <= s <= 59 ->
  let ss := Generate.two_digits s in
  ss <> [] /\ forallb (in_set d_) ss = true /\ int (text ss) = Ok s /\
  forall rest cs,
    first_run
      (alts [Seq (Lit "6") (One [IRange "0" "1"]);
             Seq (One [IRange "0" "5"]) (One d_);
             One d_])
      (ss ++ rest) cs
    = Some (rest, cs).
Proof.
  intros Hs.
  enumerate s 0%nat 60%nat
    ltac:(cbv zeta; repeat split; try discriminate; intros; reflexivity).
Qed.

(** The numeral of a year of four digits. *)
Lemma str_four_digits y :
  1000 <= y <= 9999 ->
  exists a b c d,
    chars (str y) = [a; b; c; d] /\
    is_digit a = true /\ is_digit b = true /\ is_digit c = true /\
    is_digit d = true.
Proof.
  intros Hy. unfold str. rewrite (proj2 (Z.ltb_ge y 0)) by lia.
  rewrite chars_text.
  destruct (Z.to_nat y) as [|[|[|f]]] eqn:E; try lia.
  assert (10 <= y / 10) by (Z.div_mod_to_equations; lia).
  assert (10 <= y / 10 / 10) by (Z.div_mod_to_equations; lia).
  assert (0 <= y / 10 / 10 / 10 < 10) by (Z.div_mod_to_equations; lia).
  cbn [digits_of].
  rewrite (proj2 (Z.ltb_ge y 10)) by lia.
  rewrite (proj2 (Z.ltb_ge (y / 10) 10)) by lia.
  rewrite (proj2 (Z.ltb_ge (y / 10 / 10) 10)) by lia.
  rewrite (proj2 (Z.ltb_lt (y / 10 / 10 / 10) 10)) by lia.
  do 4 eexists. split; [reflexivity|].
  repeat split; apply digit_char; apply Z.mod_pos_bound; lia.
Qed.

(** [strptime] on the text [parse_log_line] makes of the year and of the
    fields of a written date and time. *)
Lemma strptime_fields y i d h m s :
  1000 <= y <= 9999 -> 1 <= i <= 12 -> 1 <= d <= 31 ->
  0 <= h <= 23 -> 0 <= m <= 59 -> 0 <= s <= 59 ->
  strptime (str y ++ " " ++ nth (Z.to_nat (i - 1)) Generate.month_abbr ""
            ++ " " ++ text (Generate.lstrip_zeros (Generate.two_digits d))
            ++ " "
            ++ text (Generate.two_digits h ++ chars ":"
                     ++ Generate.two_digits m ++ chars ":"
                     ++ Generate.two_digits s)%list)
  = make_datetime y i d h m s.
Proof.
  intros Hy Hi Hd Hh Hm Hs.
  destruct (str_four_digits y Hy) as (a & b & c & e & Ey & Da & Db & Dc & De).
  destruct (month_field i Hi) as (Nmon & Fmon & Smon & Imon & Rmon).
  destruct (day_field_digits d Hd) as (Nds & Fds & _ & Ids & Rds).
  destruct (hour_field h Hh) as (Nhh & Fhh & Ihh & Rhh).
  destruct (minute_field m Hm) as (Nmm & Fmm & Imm & Rmm).
  destruct (second_field s Hs) as (Nss & Fss & Iss & Rss).
  cbv zeta in *.
  set (mon := nth (Z.to_nat (i - 1)) Generate.month_abbr "") in *.
  set (ds := Generate.lstrip_zeros (Generate.two_digits d)) in *.
  set (hh := Generate.two_digits h) in *.
  set (mm := Generate.two_digits m) in *.
  set (ss := Generate.two_digits s) in *.
  assert (first_run format_regex
            (chars (str y ++ " " ++ mon ++ " " ++ text ds ++ " "
                    ++ text (hh ++ chars ":" ++ mm ++ chars ":" ++ ss)%list))
            []
          = Some ([], [(6%nat, text ss); (5%nat, text mm); (4%nat, text hh);
                       (3%nat, text ds); (2%nat, text (chars mon));
                       (1%nat, text [a; b; c; e])])) as F.
  { rewrite !chars_app, !chars_text, Ey.
    unfold format_regex. cbn [seqs].
    eapply first_seq.
    { eapply (first_group 1 _ [a; b; c; e]); [reflexivity|].
      eapply first_seq; [apply first_one; now rewrite in_set_digit|].
      eapply first_seq; [apply first_one; now rewrite in_set_digit|].
      eapply first_seq; [apply first_one; now rewrite in_set_digit|].
      apply first_one. now rewrite in_set_digit. }
    eapply first_seq; [apply first_plus; [discriminate|reflexivity|apply Smon]|].
    eapply first_seq; [eapply first_group; [reflexivity|apply Rmon]|].
    eapply first_seq; [plus_step|].
    eapply first_seq; [eapply first_group; [reflexivity|apply Rds]|].
    eapply first_seq; [plus_step|].
    eapply first_seq; [eapply first_group; [reflexivity|apply Rhh]|].
    eapply first_seq; [apply first_lit|].
    eapply first_seq; [eapply first_group; [reflexivity|apply Rmm]|].
    eapply first_seq; [apply first_lit|].
    eapply (first_group 6 _ ss []); [symmetry; apply app_nil_r|].
    rewrite <- (app_nil_r ss) at 1. apply Rss. }
  unfold strptime. rewrite (match_first _ _ _ _ F).
  cbn [m_rest]. unfold group. cbn [m_groups lookup Nat.eqb].
  rewrite <- Ey, !text_chars, int_str by lia. cbn [rbind].
  rewrite Imon. cbn [rbind]. rewrite Ids. cbn [rbind].
  rewrite Ihh. cbn [rbind]. rewrite Imm. cbn [rbind]. rewrite Iss.
  reflexivity.
Qed.

Lemma days_in_month_le y m : days_in_month y m <= 31.
Proof.
  unfold days_in_month. destruct (m =? 2); [destruct (is_leap y); lia|].
  destruct (_ || _); lia.
Qed.

(** The search on a written line finds the fields it was made of. *)
Lemma search_generated t status user ip pid port :
  valid_datetime t ->
  status = "Accepted" \/ status = "Failed" ->
  user <> "" -> forallb username_char (chars user) = true ->
  ip <> "" -> forallb address_char (chars ip) = true ->
  0 <= pid -> 0 <= port ->
  search LOG_PATTERN (Generate.log_line t status user ip pid port)
  = Some (mkMatch
            (chars (" ssh2" ++ Generate.newline))
            [(8%nat, str port); (7%nat, ip); (6%nat, user); (5%nat, status);
             (4%nat, str pid);
             (3%nat, text (Generate.two_digits (dt_hour t) ++ chars ":"
                           ++ Generate.two_digits (dt_minute t) ++ chars ":"
                           ++ Generate.two_digits (dt_second t))%list);
             (2%nat,
              text (Generate.lstrip_zeros (Generate.two_digits (dt_day t))));
             (1%nat, Generate.strftime_b t)]).
Proof.
  intros (_ & Hi & Hd & Hh & Hm & Hs) Hst Nuser Fuser Nip Fip Hpid Hport.
  pose proof (days_in_month_le (dt_year t) (dt_month t)) as Hd31.
  destruct (month_field (dt_month t) Hi) as (Nmon & Fmon & _).
  destruct (day_field_digits (dt_day t) ltac:(lia)) as (Nds & Fds & Fpad & _).
  destruct (hour_field (dt_hour t) Hh) as (Nhh & Fhh & _).
  destruct (minute_field (dt_minute t) Hm) as (Nmm & Fmm & _).
  destruct (second_field (dt_second t) Hs) as (Nss & Fss & _).
  destruct (str_numeral pid Hpid) as (lpid & Epid & Dpid & Npid & _).
  destruct (str_numeral port Hport) as (lport & Eport & Dport & Nport & _).
  rewrite <- forallb_in_set_digit in Dpid, Dport.
  cbv zeta in *. fold (Generate.strftime_b t) in *.
  set (mon := Generate.strftime_b t) in *.
  set (ds := Generate.lstrip_zeros (Generate.two_digits (dt_day t))) in *.
  set (hh := Generate.two_digits (dt_hour t)) in *.
  set (mm := Generate.two_digits (dt_minute t)) in *.
  set (ss := Generate.two_digits (dt_second t)) in *.
  set (pad := repeat " "%char (2 - List.length ds)) in *.
  assert (chars user <> []) as Nuser'
      by (destruct user; [congruence|discriminate]).
  assert (chars ip <> []) as Nip'
      by (destruct ip; [congruence|discriminate]).
  pose proof (log_pattern_first (chars mon) pad ds hh mm ss lpid status
                (chars user) (chars ip) lport
                (chars (" ssh2" ++ Generate.newline))
                Nmon Fmon Fpad Nds Fds Nhh Fhh Nmm Fmm Nss Fss Npid Dpid Hst
                Nuser' Fuser Nip' Fip Nport Dport eq_refl) as F.
  rewrite <- Epid, <- Eport, !text_chars in F.
  unfold search. apply search_first, match_first.
  refine (eq_trans _ F). f_equal.
  unfold Generate.log_line, Generate.day_field, Generate.time_field,
    Generate.rjust.
  fold mon ds hh mm ss pad. rewrite Epid, Eport.
  destruct Hst as [-> | ->]; cbn [String.eqb Ascii.eqb Bool.eqb];
    rewrite !chars_app, !chars_text;
    repeat (rewrite <- app_assoc; cbn [app]); reflexivity.
Qed.

(** X13. A line written in the format of [generate_logs.py] is read back
    by [parse_log_line]: for a date and time of the calendar, a status of
    the two, a user name and an address of the characters the pattern
    allows and non-negative pid and port, the parser returns the record
    with the same month, day, time, status, user name, address, port and
    pid, dated in the year of the transformer, provided that year has
    four digits and has that day in that month; when the year of the
    transformer lacks the day (February 29) the line is rejected. *)
Theorem generated_line_parses (self : LogTransformer) (t : datetime)
    (status user ip : string) (pid port : Z) :
  valid_datetime t -> 1000 <= year self <= 9999 ->
  status = "Accepted" \/ status = "Failed" ->
  user <> "" -> forallb username_char (chars user) = true ->
  ip <> "" -> forallb address_char (chars ip) = true ->
  0 <= pid -> 0 <= port ->
  exists self',
    parse_log_line self (Generate.log_line t status user ip pid port)
    = Ok (if dt_day t <=? days_in_month (year self) (dt_month t)
          then Some (mkParsed
                       (mkDatetime (year self) (dt_month t) (dt_day t)
                                   (dt_hour t) (dt_minute t) (dt_second t))
                       status user ip port pid)
          else None, self') /\
    (dt_day t <= days_in_month (year self) (dt_month t) -> self' = self).
Proof.
  intros Hv Hy Hst Nuser Fuser Nip Fip Hpid Hport.
  pose proof (search_generated t status user ip pid port Hv Hst Nuser Fuser
                Nip Fip Hpid Hport) as Es.
  destruct Hv as (_ & Hi & Hd & Hh & Hm & Hs).
  pose proof (days_in_month_le (dt_year t) (dt_month t)) as Hd31.
  unfold parse_log_line. rewrite Es. unfold build_record, group.
  cbn [m_groups lookup Nat.eqb]. unfold Generate.strftime_b.
  rewrite strptime_fields by lia.
  unfold make_datetime.
  rewrite (proj2 (Z.ltb_ge (year self) 1)) by lia.
  rewrite (proj2 (Z.ltb_ge 9999 (year self))) by lia.
  rewrite (proj2 (Z.ltb_ge (dt_day t) 1)) by lia.
  rewrite (proj2 (Z.ltb_ge 59 (dt_second t))) by lia.
  cbn [orb].
  destruct (Z.ltb_spec (days_in_month (year self) (dt_month t)) (dt_day t))
    as [Lt|Ge].
  - rewrite (proj2 (Z.leb_gt _ _) Lt). cbn [rbind].
    eexists. split; [reflexivity|lia].
  - rewrite (proj2 (Z.leb_le _ _) Ge). cbn [rbind].
    rewrite !int_str by assumption. cbn [rbind].
    exists self. split; reflexivity.
Qed.

Lemma generated_line_parses_witness :
  exists self',
    parse_log_line Samples.transformer_2024
      (Generate.log_line Samples.written_time "Failed" "admin"
                         "45.142.212.61" 1234 54321)
    = Ok (if dt_day Samples.written_time
             <=? days_in_month (year Samples.transformer_2024)
                               (dt_month Samples.written_time)
          then Some (mkParsed
                       (mkDatetime (year Samples.transformer_2024)
                                   (dt_month Samples.written_time)
                                   (dt_day Samples.written_time)
                                   (dt_hour Samples.written_time)
                                   (dt_minute Samples.written_time)
                                   (dt_second Samples.written_time))
                       "Failed" "admin" "45.142.212.61" 54321 1234)
          else None, self') /\
    (dt_day Samples.written_time
     <= days_in_month (year Samples.transformer_2024)
                      (dt_month Samples.written_time) ->
     self' = Samples.transformer_2024).
Proof.
  apply (generated_line_parses Samples.transformer_2024 Samples.written_time
           "Failed" "admin" "45.142.212.61" 1234 54321).
  - unfold valid_datetime. cbn. lia.
  - cbn. lia.
  - right. reflexivity.
  - discriminate.
  - vm_compute. reflexivity.
  - discriminate.
  - vm_compute. reflexivity.
  - lia.
  - lia.
Defined.

(** The numeral of a number below 1000 has at most three digits. *)
Lemma str_short y : 0 <= y < 1000 -> (List.length (chars (str y)) <= 3)%nat.
Proof.
  intros Hy. unfold str. rewrite (proj2 (Z.ltb_ge y 0)) by lia.
  rewrite chars_text. cbn [digits_of].
  destruct (Z.ltb_spec y 10) as [L1|G1]; [cbn; lia|].
  destruct (Z.to_nat y) as [|f] eqn:E; [lia|]. cbn [digits_of].
  destruct (Z.ltb_spec (y / 10) 10) as [L2|G2]; [cbn; lia|].
  destruct f as [|f]; [lia|]. cbn [digits_of].
  assert (y / 10 / 10 < 10) as L3 by (Z.div_mod_to_equations; lia).
  rewrite (proj2 (Z.ltb_lt _ _) L3). cbn. lia.
Qed.

(** X14. Whatever the line, [parse_log_line] returns a record only when
    the year of the transformer has four digits: a transformer whose
    year is below 1000 or above 9999 rejects every line. *)
Theorem parse_log_line_year_range (self self' : LogTransformer)
    (line : string) (p : Parsed) :
  parse_log_line self line = Ok (Some p, self') ->
  1000 <= year self <= 9999.
Proof.
  intros H. destruct (parsed_from_match self line p self' H) as (m & w & M & Eb).
  unfold build_record in Eb.
  destruct (strptime _) as [t|] eqn:Et; [|discriminate]. clear Eb.
  pose proof (strptime_valid _ _ Et) as (Hy & _).
  rewrite (strptime_year _ _ _ Et) in Hy.
  split; [|lia].
  unfold strptime in Et.
  destruct (match_ format_regex _) as [found|] eqn:EM; [|discriminate].
  destruct (format_year_group _ _ _ EM) as [E1 _].
  apply match_sound in EM. destruct EM as (w' & _ & M').
  destruct (group_set 1 _ _ _ _ M' eq_refl)
    as (body & w1 & ca & cb & Hin & Mb & E).
  vm_compute in Hin. destruct Hin as [<-|[]]. inv_matches.
  unfold group in E1. rewrite E1 in E.
  destruct (Z.ltb_spec (year self) 1000) as [Lt|Ge]; [|exact Ge].
  pose proof (str_short (year self) ltac:(lia)) as L.
  rewrite E, chars_text in L. cbn in L. lia.
Qed.

Lemma parse_log_line_year_range_witness :
  parse_log_line Samples.transformer_2024 Samples.shape_text
  = Ok (Some Samples.shape_record, Samples.transformer_2024) /\
  1000 <= year Samples.transformer_2024 <= 9999.
Proof.
  split; [vm_compute; reflexivity|].
  apply (parse_log_line_year_range Samples.transformer_2024
           Samples.transformer_2024 Samples.shape_text Samples.shape_record).
  vm_compute. reflexivity.
Defined.

(** What [possible] says of an entry. *)
Lemma possible_fields en :
  Generate.possible en = true ->
  In (Generate.en_ip en) (ip_pool (Generate.event_type en)) /\
  In (Generate.en_user en) (user_pool (Generate.event_type en)) /\
  (Generate.en_status en = "Accepted" \/ Generate.en_status en = "Failed") /\
  (Generate.event_type en = Generate.brute_force \/
   Generate.event_type en = Generate.failed_normal ->
   Generate.en_status en = "Failed") /\
  1000 <= Generate.en_pid en <= 9999 /\
  40000 <= Generate.en_port en <= 60000.
Proof.
  assert (forall x l, Generate.isin x l = true -> In x l) as I.
  { intros x l H. unfold Generate.isin in H. apply existsb_exists in H.
    destruct H as (y & Hy & E). apply String.eqb_eq in E. now subst y. }
  unfold Generate.possible, ip_pool, user_pool. intros H.
  repeat (apply andb_true_iff in H; destruct H as [H ?]).
  repeat match goal with
         | H : (_ <=? _) = true |- _ => apply Z.leb_le in H
         end.
  destruct (Generate.event_type en);
    repeat (apply andb_true_iff in H; destruct H as [H ?]);
    repeat match goal with
           | H : (_ =? _)%string = true |- _ => apply String.eqb_eq in H
           | H : Generate.isin _ _ = true |- _ => apply I in H
           end;
    repeat match goal with
           | H : In _ ["Accepted"; "Failed"] |- _ =>
               destruct H as [H|[H|[]]]; symmetry in H
           | H : In _ ["Failed"; "Accepted"] |- _ =>
               destruct H as [H|[H|[]]]; symmetry in H
           end;
    repeat split; auto; try lia; intuition congruence.
Qed.

Ltac pool := repeat constructor; vm_compute; intuition congruence.

(** The pools of the generator: every user name and address is read back
    whole, the normal addresses are internal and match no prefix of the
    table, the others are external and match one. *)
Lemma user_pool_ok ty : Forall user_ok (user_pool ty).
Proof. destruct ty; pool. Qed.

Lemma ip_pool_ok ty :
  Forall (fun a => address_ok a /\
                   _is_internal_ip a = Ok (uses_normal_ips ty) /\
                   (Detect.first_matching_range a Detect.suspicious_ranges
                    = None <-> uses_normal_ips ty = true))
         (ip_pool ty).
Proof. destruct ty; pool. Qed.

(** X15. Every entry [generate_logs.py] can write meets the conditions
    under which its line is read back: a status of the two, a user name
    and an address of the characters the pattern allows, pid and port not
    negative. Its address is internal for the normal and failed_normal
    entries and external with a prefix of the table of suspicious ranges
    for the brute_force and suspicious_geo entries, and the brute_force
    and failed_normal entries are Failed. *)
Theorem generated_entries (en : Generate.Entry) :
  Generate.possible en = true ->
  (Generate.en_status en = "Accepted" \/ Generate.en_status en = "Failed") /\
  Generate.en_user en <> "" /\
  forallb username_char (chars (Generate.en_user en)) = true /\
  Generate.en_ip en <> "" /\
  forallb address_char (chars (Generate.en_ip en)) = true /\
  0 <= Generate.en_pid en /\ 0 <= Generate.en_port en /\
  match Generate.event_type en with
  | Generate.normal =>
      _is_internal_ip (Generate.en_ip en) = Ok true /\
      Detect.first_matching_range (Generate.en_ip en)
                                  Detect.suspicious_ranges = None
  | Generate.failed_normal =>
      _is_internal_ip (Generate.en_ip en) = Ok true /\
      Detect.first_matching_range (Generate.en_ip en)
                                  Detect.suspicious_ranges = None /\
      Generate.en_status en = "Failed"
  | Generate.brute_force =>
      _is_internal_ip (Generate.en_ip en) = Ok false /\
      Detect.first_matching_range (Generate.en_ip en)
                                  Detect.suspicious_ranges <> None /\
      Generate.en_status en = "Failed"
  | Generate.suspicious_geo =>
      _is_internal_ip (Generate.en_ip en) = Ok false /\
      Detect.first_matching_range (Generate.en_ip en)
                                  Detect.suspicious_ranges <> None
  end.
Proof.
  intros H.
  destruct (possible_fields en H) as (Hip & Hu & Hst & Hf & Hpid & Hport).
  pose proof (user_pool_ok (Generate.event_type en)) as U.
  pose proof (ip_pool_ok (Generate.event_type en)) as I.
  rewrite Forall_forall in U, I.
  destruct (U _ Hu) as [Nu Fu].
  destruct (I _ Hip) as ([Na Fa] & Ei & Em).
  split; [exact Hst|]. split; [exact Nu|]. split; [exact Fu|].
  split; [exact Na|]. split; [exact Fa|]. split; [lia|]. split; [lia|].
  destruct (Generate.event_type en); cbn [uses_normal_ips] in *.
  - split; [exact Ei|]. now apply Em.
  - split; [exact Ei|]. split.
    + intros E. apply Em in E. discriminate.
    + apply Hf. now left.
  - split; [exact Ei|]. intros E. apply Em in E. discriminate.
  - split; [exact Ei|]. split; [now apply Em|]. apply Hf. now right.
Qed.

Lemma generated_entries_witness :
  let en := Samples.attack_entry in
  Generate.possible en = true /\
  (Generate.en_status en = "Accepted" \/ Generate.en_status en = "Failed") /\
  Generate.en_user en <> "" /\
  forallb username_char (chars (Generate.en_user en)) = true /\
  Generate.en_ip en <> "" /\
  forallb address_char (chars (Generate.en_ip en)) = true /\
  0 <= Generate.en_pid en /\ 0 <= Generate.en_port en /\
  _is_internal_ip (Generate.en_ip en) = Ok false /\
  Detect.first_matching_range (Generate.en_ip en) Detect.suspicious_ranges
  <> None /\
  Generate.en_status en = "Failed".
Proof.
  cbv zeta. split; [vm_compute; reflexivity|].
  apply (generated_entries Samples.attack_entry).
  vm_compute. reflexivity.
Defined.

(** The parser on the line of an entry, under a year that has the day. *)
Lemma outcome_generated y t en :
  1000 <= y <= 9999 -> valid_datetime t ->
  dt_day t <= days_in_month y (dt_month t) ->
  Generate.possible en = true ->
  outcome y (Generate.entry_line t en) = Some (written_record y t en).
Proof.
  intros Hy Hv Hd Hp.
  destruct (possible_fields en Hp) as (Hip & Hu & Hst & _ & Hpid & Hport).
  pose proof (user_pool_ok (Generate.event_type en)) as U.
  pose proof (ip_pool_ok (Generate.event_type en)) as I.
  rewrite Forall_forall in U, I.
  destruct (U _ Hu) as [Nu Fu]. destruct (I _ Hip) as ([Na Fa] & _).
  unfold outcome, Generate.entry_line, parse_log_line.
  assert (0 <= Generate.en_pid en /\ 0 <= Generate.en_port en) as [P1 P2]
      by lia.
  rewrite (search_generated t _ _ _ _ _ Hv Hst Nu Fu Na Fa P1 P2).
  destruct Hv as (_ & Hi & Hday & Hh & Hm & Hs).
  pose proof (days_in_month_le y (dt_month t)) as Hd31.
  unfold build_record, group.
  cbn [m_groups lookup Nat.eqb year fresh]. unfold Generate.strftime_b.
  rewrite strptime_fields by lia.
  unfold make_datetime.
  rewrite (proj2 (Z.ltb_ge y 1)) by lia.
  rewrite (proj2 (Z.ltb_ge 9999 y)) by lia.
  rewrite (proj2 (Z.ltb_ge (dt_day t) 1)) by lia.
  rewrite (proj2 (Z.ltb_ge (days_in_month y (dt_month t)) (dt_day t))) by lia.
  rewrite (proj2 (Z.ltb_ge 59 (dt_second t))) by lia.
  cbn [orb rbind]. rewrite !int_str by lia. reflexivity.
Qed.

(** X16. A file of lines of the generator is read whole by
    [transform_logs] when the year of the transformer has four digits and
    has the day of every line: the frame has one row per line, in order,
    no line is counted as failed and no sample is stored; each row has the
    address, user name, status, port and pid of its entry, the month, day
    and hour of its line under the year of the transformer, and is
    flagged internal exactly for the normal and failed_normal entries. *)
Theorem generated_file_rows (self : LogTransformer)
    (entries : list (datetime * Generate.Entry)) :
  1000 <= year self <= 9999 ->
  Forall (fun te => valid_datetime (fst te) /\
                    dt_day (fst te)
                    <= days_in_month (year self) (dt_month (fst te)) /\
                    Generate.possible (snd te) = true) entries ->
  exists df self',
    transform_logs self
      (map (fun te => Generate.entry_line (fst te) (snd te)) entries)
    = Ok (df, self') /\
    Transform.parsed_count self'
    = Transform.parsed_count self + Z.of_nat (List.length entries) /\
    failed_count self' = failed_count self /\
    failed_samples self' = failed_samples self /\
    Forall2 (fun te e =>
               source_ip e = Generate.en_ip (snd te) /\
               username e = Generate.en_user (snd te) /\
               status e = Generate.en_status (snd te) /\
               port e = Generate.en_port (snd te) /\
               pid e = Generate.en_pid (snd te) /\
               is_internal_ip e
               = uses_normal_ips (Generate.event_type (snd te)) /\
               date e = (year self, dt_month (fst te), dt_day (fst te)) /\
               hour_of_day e = dt_hour (fst te))
            entries df.
Proof.
  intros Hy Hall.
  set (lines := map (fun te => Generate.entry_line (fst te) (snd te)) entries).
  assert (parsed_records (year self) lines
          = map (fun te => written_record (year self) (fst te) (snd te))
                entries
          /\ filter (rejected (year self)) lines = []) as [Ep Er].
  { unfold lines. clear lines.
    induction Hall as [|[t en] entries (Hv & Hd & Hp) Hall [IH1 IH2]];
      [split; reflexivity|].
    cbn [map parsed_records flat_map filter fst snd].
    fold (parsed_records (year self)
            (map (fun te => Generate.entry_line (fst te) (snd te)) entries)).
    unfold rejected at 1.
    rewrite (outcome_generated (year self) t en Hy Hv Hd Hp).
    cbn [app]. rewrite IH1. split; [reflexivity|exact IH2]. }
  destruct (transform_logs_spec self lines)
    as (df & self' & E & F & _ & Hp & Hf & Hs).
  rewrite Ep in F, Hp. rewrite Er in Hf, Hs.
  rewrite firstn_nil in Hs. cbn [flat_map List.length] in Hf, Hs.
  rewrite app_nil_r in Hs. rewrite length_map in Hp.
  exists df, self'. split; [exact E|]. split; [exact Hp|].
  split; [lia|]. split; [exact Hs|].
  clear E Hp Hf Hs Ep Er lines. revert df F.
  induction Hall as [|[t en] entries (Hv & Hd & Hp) Hall IH]; intros df F;
    cbn [map] in F; inversion F as [|p e ps es Hrow Hrest]; subst;
    constructor; [|now apply IH].
  cbn [fst snd] in *.
  destruct (possible_fields en Hp) as (Hip & _).
  pose proof (ip_pool_ok (Generate.event_type en)) as I.
  rewrite Forall_forall in I. destruct (I _ Hip) as (_ & Ei & _).
  unfold to_row, written_record in Hrow.
  cbn [p_source_ip p_timestamp p_status p_username p_port p_pid] in Hrow.
  rewrite Ei in Hrow. cbn [rbind] in Hrow. injection Hrow as <-.
  repeat split.
Qed.

Lemma generated_file_rows_witness :
  exists df self',
    transform_logs Samples.transformer_2024
      (map (fun te => Generate.entry_line (fst te) (snd te))
           [(Samples.written_time, Samples.attack_entry)])
    = Ok (df, self') /\
    Transform.parsed_count self'
    = Transform.parsed_count Samples.transformer_2024
      + Z.of_nat (List.length [(Samples.written_time, Samples.attack_entry)])
    /\
    failed_count self' = failed_count Samples.transformer_2024 /\
    failed_samples self' = failed_samples Samples.transformer_2024 /\
    Forall2 (fun te e =>
               source_ip e = Generate.en_ip (snd te) /\
               username e = Generate.en_user (snd te) /\
               status e = Generate.en_status (snd te) /\
               port e = Generate.en_port (snd te) /\
               pid e = Generate.en_pid (snd te) /\
               is_internal_ip e
               = uses_normal_ips (Generate.event_type (snd te)) /\
               date e = (year Samples.transformer_2024,
                         dt_month (fst te), dt_day (fst te)) /\
               hour_of_day e = dt_hour (fst te))
            [(Samples.written_time, Samples.attack_entry)] df.
Proof.
  apply (generated_file_rows Samples.transformer_2024
           [(Samples.written_time, Samples.attack_entry)]).
  - cbn. lia.
  - constructor; [|constructor]. cbn [fst snd].
    split; [unfold valid_datetime; cbn; lia|].
    split; [vm_compute; discriminate|vm_compute; reflexivity].
Defined.

End GeneratedLines.

(** ** Loading, and a run of the pipeline *)

Section Loader.
Import Py Transform Pandas Detect Rules.

Lemma rint_bounds a b x :
  (inject_Z a <= x <= inject_Z b)%Q -> a <= Load.rint x <= b.
Proof.
  intros [Ha Hb]. unfold Load.rint.
  pose proof (Qfloor_le x) as F1. pose proof (Qlt_floor x) as F2.
  assert (a <= Qfloor x) as La.
  { assert (inject_Z a < inject_Z (Qfloor x + 1))%Q as L by lra.
    rewrite <- Zlt_Qlt in L. lia. }
  assert (Qfloor x <= b) as Lb.
  { assert (inject_Z (Qfloor x) <= inject_Z b)%Q as L by lra.
    now rewrite <- Zle_Qle in L. }
  assert ((1 # 2 <= x - inject_Z (Qfloor x))%Q -> Qfloor x + 1 <= b) as Up.
  { intros H. assert (inject_Z (Qfloor x) < inject_Z b)%Q as L by lra.
    rewrite <- Zlt_Qlt in L. lia. }
  destruct (x - inject_Z (Qfloor x) ?= 1 # 2)%Q eqn:C.
  - apply Qeq_alt in C. assert (Qfloor x + 1 <= b) by (apply Up; lra).
    destruct (Z.even (Qfloor x)); lia.
  - lia.
  - apply Qgt_alt in C. assert (Qfloor x + 1 <= b) by (apply Up; lra). lia.
Qed.

Lemma round2_bounds x : (0 <= x <= 100)%Q -> (0 <= Load.round2 x <= 100)%Q.
Proof.
  intros H. unfold Load.round2.
  destruct (rint_bounds 0 10000 (x * 100)) as [L U].
  { change (inject_Z 0) with 0%Q. change (inject_Z 10000) with 10000%Q. lra. }
  rewrite Zle_Qle in L, U.
  change (inject_Z 0) with 0%Q in L. change (inject_Z 10000) with 10000%Q in U.
  split.
  - apply Qle_shift_div_l; lra.
  - apply Qle_shift_div_r; lra.
Qed.

Lemma round2_nonneg x : (0 <= x)%Q -> (0 <= Load.round2 x)%Q.
Proof.
  intros H. unfold Load.round2, Load.rint.
  assert (0 <= Qfloor (x * 100)) as F.
  { change 0 with (Qfloor 0). apply Qfloor_resp_le. lra. }
  assert (0 <= match (x * 100 - inject_Z (Qfloor (x * 100)) ?= 1 # 2)%Q with
               | Eq => if Z.even (Qfloor (x * 100)) then Qfloor (x * 100)
                       else Qfloor (x * 100) + 1
               | Lt => Qfloor (x * 100)
               | Gt => Qfloor (x * 100) + 1
               end) as R.
  { destruct (_ ?= _)%Q; [destruct (Z.even _)| |]; lia. }
  rewrite Zle_Qle in R. change (inject_Z 0) with 0%Q in R.
  apply Qle_shift_div_l; lra.
Qed.

Lemma mean_bounds column : column <> [] -> (0 <= Load.mean column <= 1)%Q.
Proof.
  intros N. unfold Load.mean.
  pose proof (len_filter_le (fun b : bool => b) column) as [L U].
  assert (0 < len column) as P.
  { unfold len. destruct column; [congruence|]. cbn [List.length]. lia. }
  rewrite Zle_Qle in L, U. rewrite Zlt_Qlt in P.
  change (inject_Z 0) with 0%Q in L, P.
  split.
  - apply Qle_shift_div_l; lra.
  - apply Qle_shift_div_r; lra.
Qed.

Lemma len_unique (l : list string) :
  l <> [] -> 1 <= len (unique String.eqb l) <= len l.
Proof.
  intros N. unfold len. split.
  - destruct l as [|x l]; [congruence|].
    assert (In x (unique String.eqb (x :: l))) as H
        by (apply (proj2 (in_unique String.eqb String.eqb_eq x (x :: l)));
            now left).
    destruct (unique String.eqb (x :: l)); [destruct H|]. cbn [List.length]. lia.
  - apply inj_le. apply NoDup_incl_length.
    + apply (NoDup_unique String.eqb String.eqb_eq).
    + intros x H. exact (proj1 (in_unique String.eqb String.eqb_eq x l) H).
Qed.

Lemma filter_map_id {A} (p : A -> bool) l :
  List.length (filter (fun b : bool => b) (map p l)) = List.length (filter p l).
Proof.
  induction l as [|x l IH]; cbn; [reflexivity|]. destruct (p x); cbn; lia.
Qed.

(** X17. [create_summary_stats] always returns one row. For a frame with
    rows the counts are consistent: between 1 and total_logs distinct
    addresses and user names, failed_logins the number of Failed rows, both
    percentages between 0 and 100, the date range made of the earliest and
    the latest timestamp of the frame, a time span that is not negative,
    and no error entry. For no frame or an empty one the row has zero
    counts and an error entry, and it has no time_span_hours: the two rows
    do not have the same keys. *)
Theorem summary_stats_figures (df : option (list Event)) :
  exists s,
    Load.create_summary_stats df = [s] /\
    match df with
    | None | Some [] =>
        Load.total_logs s = 0 /\ Load.unique_ips s = 0 /\
        Load.unique_users s = 0 /\ Load.failed_logins s = 0 /\
        Load.error s <> None /\ Load.time_span_hours s = None /\
        Load.date_range_start s = None /\ Load.date_range_end s = None
    | Some rows =>
        Load.total_logs s = len rows /\
        1 <= Load.unique_ips s <= Load.total_logs s /\
        1 <= Load.unique_users s <= Load.total_logs s /\
        Load.failed_logins s = len (filter is_failed_login rows) /\
        0 <= Load.failed_logins s <= Load.total_logs s /\
        (0 <= Load.success_rate s <= 100)%Q /\
        (0 <= Load.internal_traffic_pct s <= 100)%Q /\
        Load.error s = None /\
        exists first last span,
          Load.date_range_start s = Some first /\
          Load.date_range_end s = Some last /\
          Load.time_span_hours s = Some span /\
          first <= last /\ (0 <= span)%Q /\
          (forall e, In e rows -> first <= timestamp e <= last) /\
          (exists e, In e rows /\ timestamp e = first) /\
          (exists e, In e rows /\ timestamp e = last)
    end.
Proof.
  destruct df as [[|e0 rows0]|];
    [eexists; split; [reflexivity|]; cbn; repeat split; discriminate|
    |eexists; split; [reflexivity|]; cbn; repeat split; discriminate].
  set (rows := e0 :: rows0).
  assert (rows <> []) as N by discriminate.
  eexists. split; [reflexivity|].
  cbn [Load.total_logs Load.unique_ips Load.unique_users Load.failed_logins
       Load.success_rate Load.internal_traffic_pct Load.error
       Load.date_range_start Load.date_range_end Load.time_span_hours].
  fold rows.
  assert (map source_ip rows <> []) as N1 by discriminate.
  assert (map username rows <> []) as N2 by discriminate.
  assert (map is_failed_login rows <> []) as N3 by discriminate.
  assert (map is_internal_ip rows <> []) as N4 by discriminate.
  assert (map timestamp rows <> []) as N5 by discriminate.
  pose proof (len_unique _ N1) as U1. pose proof (len_unique _ N2) as U2.
  assert (len (map source_ip rows) = len rows) as L1
      by (unfold len; now rewrite length_map).
  assert (len (map username rows) = len rows) as L2
      by (unfold len; now rewrite length_map).
  pose proof (mean_bounds _ N3) as M3. pose proof (mean_bounds _ N4) as M4.
  destruct (col_min_spec _ N5) as [Imin Hmin].
  destruct (col_max_spec _ N5) as [Imax Hmax].
  apply in_map_iff in Imin, Imax.
  destruct Imin as (emin & Emin & Inmin). destruct Imax as (emax & Emax & Inmax).
  split; [reflexivity|]. split; [lia|]. split; [lia|].
  split; [unfold len; now rewrite filter_map_id|].
  split.
  { unfold len. rewrite filter_map_id.
    pose proof (length_filter_le is_failed_login rows). lia. }
  split; [apply round2_bounds; lra|].
  split; [apply round2_bounds; lra|].
  split; [reflexivity|].
  do 3 eexists. split; [reflexivity|]. split; [reflexivity|].
  split; [reflexivity|].
  assert (col_min (map timestamp rows) <= col_max (map timestamp rows)) as Le.
  { apply Hmax. rewrite <- Emin. now apply in_map. }
  split; [exact Le|].
  split.
  { apply round2_nonneg. apply Qle_shift_div_l; [lra|].
    rewrite Qmult_0_l. change 0%Q with (inject_Z 0). rewrite <- Zle_Qle. lia. }
  split.
  { intros e He. split; [apply Hmin|apply Hmax]; now apply in_map. }
  split; [exists emin|exists emax]; auto.
Qed.

Lemma table_len_nonneg t : 0 <= Load.table_len t.
Proof. destruct t; unfold Load.table_len, len; lia. Qed.

(** Saving a frame that is not empty writes one file. *)
Lemma save_table_ok stamp t filename :
  Load.empty t = false ->
  Load.save_table stamp t filename
  = Ok (filename, [Load.mkWritten filename (Load.table_len t)]).
Proof.
  unfold Load.empty. intros H. apply Z.eqb_neq in H.
  destruct t as [rows|rows|rows|rows]; destruct rows; cbn in *;
    try congruence; reflexivity.
Qed.

(** The loop of [load_anomalies], from any pair of accumulators. *)
Lemma save_each_spec stamp anomaly_dict types : forall saved_files written,
  Load.save_each stamp anomaly_dict types saved_files written
  = Ok ((saved_files
         ++ map (fun x => (fst (fst x), snd (fst x)))
                (saved_tables anomaly_dict types))%list,
        (written
         ++ map (fun x => Load.mkWritten (snd (fst x)) (snd x))
                (saved_tables anomaly_dict types))%list).
Proof.
  induction types as [|[key filename] types IH]; intros saved_files written.
  - cbn. now rewrite !app_nil_r.
  - cbn [Load.save_each saved_tables flat_map fst snd].
    fold (saved_tables anomaly_dict types).
    destruct (Load.get anomaly_dict key) as [t|]; [|apply IH].
    destruct (Load.empty t) eqn:E; cbn [negb]; [apply IH|].
    rewrite (save_table_ok stamp t filename E). cbn [rbind fst snd].
    rewrite IH. cbn [app map fst snd]. now rewrite <- !app_assoc.
Qed.

(** X18. [load_anomalies] never raises, whatever dict it is given: the
    check of [load_to_csv] on empty frames cannot fail behind the emptiness
    test of the loop. It saves one file for each of the four keys that is
    in the dict with a frame that has rows, in the order of the table of
    types, under the file name of the key, and returns these keys with
    these names. *)
Theorem load_anomalies_saves (stamp : string)
    (anomaly_dict : list (string * Load.Table)) :
  let saved := saved_tables anomaly_dict Load.anomaly_types in
  Load.load_anomalies stamp anomaly_dict
  = Ok (map (fun x => (fst (fst x), snd (fst x))) saved,
        map (fun x => Load.mkWritten (snd (fst x)) (snd x)) saved) /\
  (List.length saved <= 4)%nat /\
  forall key filename rows,
    In (key, filename, rows) saved <->
    In (key, filename) Load.anomaly_types /\
    exists t, Load.get anomaly_dict key = Some t /\
              rows = Load.table_len t /\ 1 <= rows.
Proof.
  cbv zeta. split; [|split].
  - unfold Load.load_anomalies. now rewrite save_each_spec.
  - unfold saved_tables, Load.anomaly_types. cbn [flat_map fst snd].
    rewrite !length_app. cbn [List.length].
    repeat match goal with
           | |- context [Load.get anomaly_dict ?k] =>
               destruct (Load.get anomaly_dict k) as [?t|]
           end;
      repeat match goal with
             | |- context [Load.empty ?t] => destruct (Load.empty t)
             end; cbn [List.length]; lia.
  - intros key filename rows. unfold saved_tables. rewrite in_flat_map.
    split.
    + intros ([k f] & Hin & H). cbn [fst snd] in H.
      destruct (Load.get anomaly_dict k) as [t|] eqn:G; [|destruct H].
      destruct (Load.empty t) eqn:E; [destruct H|].
      destruct H as [[= <- <- <-]|[]]. split; [assumption|].
      exists t. repeat split; [assumption|].
      unfold Load.empty in E. apply Z.eqb_neq in E.
      pose proof (table_len_nonneg t). lia.
    + intros (Hin & t & G & -> & Hr). exists (key, filename).
      split; [assumption|]. cbn [fst snd]. rewrite G.
      assert (Load.empty t = false) as E
          by (unfold Load.empty; apply Z.eqb_neq; lia).
      rewrite E. now left.
Qed.

(** Every file saved has rows. *)
Lemma saved_rows_positive anomaly_dict types :
  Forall (fun x => 1 <= snd x) (saved_tables anomaly_dict types).
Proof.
  apply Forall_forall. intros [[k f] rows] H. unfold saved_tables in H.
  apply in_flat_map in H. destruct H as ([k' f'] & _ & H). cbn [fst snd] in *.
  destruct (Load.get anomaly_dict k') as [t|]; [|destruct H].
  destruct (Load.empty t) eqn:E; [destruct H|].
  destruct H as [[= <- <- <-]|[]].
  unfold Load.empty in E. apply Z.eqb_neq in E.
  pose proof (table_len_nonneg t). lia.
Qed.

Lemma rows_written_zero (written : list Load.Written) :
  Forall (fun w => 1 <= Load.w_rows w) written ->
  (written = [] <-> rows_written written = 0).
Proof.
  intros F. split; [now intros ->|].
  destruct F as [|w l Hw F]; [reflexivity|].
  assert (0 <= rows_written l) as P.
  { clear Hw. induction F as [|w' l' Hw' F' IH]; cbn; [lia|].
    unfold rows_written in IH. lia. }
  unfold rows_written in *. cbn [map fold_right]. lia.
Qed.

(** The rows of the files saved for a report. *)
Lemma report_rows self df :
  let report := fst (generate_full_report self df) in
  getitem (summary report) "total_anomalies"
  = Some (rows_written
            (map (fun x => Load.mkWritten (snd (fst x)) (snd x))
                 (saved_tables (Load.tables report) Load.anomaly_types))).
Proof.
  cbv zeta. set (report := fst (generate_full_report self df)).
  assert (getitem (summary report) "total_anomalies"
          = Some (len (brute_force_attacks report)
                  + len (vulnerable_account_targeting report)
                  + len (geographic_anomalies report)
                  + len (possible_breaches report))) as T.
  { unfold report. destruct df; reflexivity. }
  rewrite T. clear T.
  unfold saved_tables, Load.anomaly_types, Load.tables.
  cbn [flat_map fst snd Load.get String.eqb Ascii.eqb Bool.eqb].
  unfold Load.empty. cbn [Load.table_len].
  generalize (brute_force_attacks report) as b,
             (vulnerable_account_targeting report) as v,
             (geographic_anomalies report) as g,
             (possible_breaches report) as p.
  intros b v g p.
  destruct b as [|b0 b], v as [|v0 v], g as [|g0 g], p as [|p0 p];
    cbn [len List.length Z.of_nat Z.eqb Pos.eqb app map fst snd];
    unfold len, rows_written; cbn [List.length map fold_right Load.w_rows];
    f_equal; lia.
Qed.

(** X19. The files [load_anomalies] saves for a report of
    [generate_full_report] hold as many rows as the report counts
    anomalies: the rows written add up to total_anomalies, and no file is
    written exactly when total_anomalies is 0. *)
Theorem report_files (stamp : string) (self : IntrusionDetector)
    (df : list Event) :
  let report := fst (generate_full_report self df) in
  exists saved_files written,
    Load.load_anomalies stamp (Load.tables report)
    = Ok (saved_files, written) /\
    map snd saved_files = map Load.w_name written /\
    getitem (summary report) "total_anomalies"
    = Some (rows_written written) /\
    (written = [] <-> rows_written written = 0).
Proof.
  cbv zeta.
  set (report := fst (generate_full_report self df)).
  unfold Load.load_anomalies. rewrite save_each_spec. cbn [app].
  do 2 eexists. split; [reflexivity|].
  split; [now rewrite !map_map|].
  split; [apply report_rows|].
  apply rows_written_zero. apply Forall_map.
  eapply Forall_impl; [|apply saved_rows_positive]. intros x H. exact H.
Qed.




(** The loop of [extract_multiple_logs], from any accumulator. *)
Lemma extract_loop log_directory filenames : forall all_logs,
  fold_left
    (fun all_logs filename =>
       match Extract.extract_logs log_directory filename with
       | Extract.Read logs => (all_logs ++ logs)%list
       | Extract.FileNotFoundError => all_logs
       end) filenames all_logs
  = (all_logs
     ++ flat_map (fun f => match log_directory f with
                           | Some logs => logs
                           | None => []
                           end) filenames)%list.
Proof.
  induction filenames as [|f filenames IH]; intros all_logs; cbn [fold_left].
  - cbn. now rewrite app_nil_r.
  - rewrite IH. unfold Extract.extract_logs. cbn [flat_map].
    destruct (log_directory f); [now rewrite <- app_assoc|reflexivity].
Qed.

(** X21. [extract_multiple_logs] returns the lines of the files that
    exist, file after file in the order of the names given, a name given
    twice being read twice; a missing file adds nothing and does not stop
    the reading, where [extract_logs] raises FileNotFoundError. *)
Theorem extract_multiple_logs_lines (log_directory : Extract.Directory)
    (filenames : list string) :
  Extract.extract_multiple_logs log_directory filenames
  = flat_map (fun f => match Extract.extract_logs log_directory f with
                       | Extract.Read logs => logs
                       | Extract.FileNotFoundError => []
                       end) filenames /\
  (forall f, Extract.extract_logs log_directory f = Extract.FileNotFoundError
             <-> log_directory f = None) /\
  (forall before f after,
     filenames = (before ++ f :: after)%list ->
     Extract.extract_logs log_directory f = Extract.FileNotFoundError ->
     Extract.extract_multiple_logs log_directory filenames
     = Extract.extract_multiple_logs log_directory (before ++ after)%list).
Proof.
  assert (forall l,
            Extract.extract_multiple_logs log_directory l
            = flat_map (fun f => match Extract.extract_logs log_directory f with
                                 | Extract.Read logs => logs
                                 | Extract.FileNotFoundError => []
                                 end) l) as C.
  { intros l. unfold Extract.extract_multiple_logs. rewrite extract_loop.
    cbn [app]. apply flat_map_ext. intros f. unfold Extract.extract_logs.
    now destruct (log_directory f). }
  split; [apply C|]. split.
  - intros f. unfold Extract.extract_logs.
    destruct (log_directory f); split; congruence.
  - intros before f after -> Hf. rewrite !C, !flat_map_app.
    cbn [flat_map]. now rewrite Hf.
Qed.

Lemma extract_multiple_logs_lines_witness :
  Extract.extract_multiple_logs Samples.directory
                                ["ssh_auth.log"; "missing.log"]
  = Extract.extract_multiple_logs Samples.directory ["ssh_auth.log"].
Proof.
  destruct (extract_multiple_logs_lines Samples.directory
              ["ssh_auth.log"; "missing.log"]) as (_ & _ & H).
  apply (H ["ssh_auth.log"] "missing.log" []); reflexivity.
Defined.

End Loader.

(** ** The brute-force rule in whole seconds *)

Section RuleInSeconds.
Import Pandas Detect Rules.









End RuleInSeconds.
